(** * asyncmd.trajectory.functionwrapper: a shallow embedding

    The development follows [src/asyncmd/trajectory/functionwrapper.py]:
    the identity (cache key) derivation of the wrappers, the attribute
    handling of the constructor and of the property setters, the
    [__call__] entry points and the SLURM backend's
    [get_values_for_trajectory].

    Python [str] objects are modelled by their UTF-8 encoding, a Rocq
    [string] (one [ascii] per byte); Python [int] by [Z]. *)

From Stdlib Require Import ZArith List Ascii Lia Permutation.
From Stdlib Require String.
From Stdlib Require Import DecimalString DecimalZ DecimalN DecimalPos.
From stdpp Require Import base gmap strings list.

Local Open Scope Z_scope.
Set Warnings "-register-all".

(** ** hashlib.blake2b (RFC 7693, unkeyed, 64 byte digest) *)
Module Blake2b.

Definition mask64 : Z := 2 ^ 64 - 1.

Definition add64 (a b : Z) : Z := Z.land (a + b) mask64.

Definition rotr64 (x n : Z) : Z :=
  Z.lor (Z.shiftr x n) (Z.land (Z.shiftl x (64 - n)) mask64).

Definition IV : list Z :=
  [ 0x6a09e667f3bcc908; 0xbb67ae8584caa73b; 0x3c6ef372fe94f82b;
    0xa54ff53a5f1d36f1; 0x510e527fade682d1; 0x9b05688c2b3e6c1f;
    0x1f83d9abfb41bd6b; 0x5be0cd19137e2179 ].

Definition SIGMA : list (list nat) :=
  [ [ 0; 1; 2; 3; 4; 5; 6; 7; 8; 9; 10; 11; 12; 13; 14; 15 ];
    [ 14; 10; 4; 8; 9; 15; 13; 6; 1; 12; 0; 2; 11; 7; 5; 3 ];
    [ 11; 8; 12; 0; 5; 2; 15; 13; 10; 14; 3; 6; 7; 1; 9; 4 ];
    [ 7; 9; 3; 1; 13; 12; 11; 14; 2; 6; 5; 10; 4; 0; 15; 8 ];
    [ 9; 0; 5; 7; 2; 4; 10; 15; 14; 1; 11; 12; 6; 8; 3; 13 ];
    [ 2; 12; 6; 10; 0; 11; 8; 3; 4; 13; 7; 5; 15; 14; 1; 9 ];
    [ 12; 5; 1; 15; 14; 13; 4; 10; 0; 7; 6; 3; 9; 2; 8; 11 ];
    [ 13; 11; 7; 14; 12; 1; 3; 9; 5; 0; 15; 4; 8; 6; 2; 10 ];
    [ 6; 15; 14; 9; 11; 3; 0; 8; 12; 2; 13; 7; 1; 4; 10; 5 ];
    [ 10; 2; 8; 4; 7; 6; 1; 5; 15; 11; 9; 14; 3; 12; 13; 0 ] ]%nat.

Definition get (v : list Z) (i : nat) : Z := nth i v 0.

Fixpoint set (v : list Z) (i : nat) (x : Z) : list Z :=
  match v, i with
  | [], _ => []
  | _ :: v', O => x :: v'
  | y :: v', S i' => y :: set v' i' x
  end.

(** The mixing function G on the work vector. *)
Definition G (v : list Z) (a b c d : nat) (x y : Z) : list Z :=
  let v := set v a (add64 (add64 (get v a) (get v b)) x) in
  let v := set v d (rotr64 (Z.lxor (get v d) (get v a)) 32) in
  let v := set v c (add64 (get v c) (get v d)) in
  let v := set v b (rotr64 (Z.lxor (get v b) (get v c)) 24) in
  let v := set v a (add64 (add64 (get v a) (get v b)) y) in
  let v := set v d (rotr64 (Z.lxor (get v d) (get v a)) 16) in
  let v := set v c (add64 (get v c) (get v d)) in
  set v b (rotr64 (Z.lxor (get v b) (get v c)) 63).

Definition round (m : list Z) (v : list Z) (r : nat) : list Z :=
  let s := nth (r mod 10) SIGMA [] in
  let w (i : nat) := get m (nth i s O) in
  let v := G v 0 4 8 12 (w 0%nat) (w 1%nat) in
  let v := G v 1 5 9 13 (w 2%nat) (w 3%nat) in
  let v := G v 2 6 10 14 (w 4%nat) (w 5%nat) in
  let v := G v 3 7 11 15 (w 6%nat) (w 7%nat) in
  let v := G v 0 5 10 15 (w 8%nat) (w 9%nat) in
  let v := G v 1 6 11 12 (w 10%nat) (w 11%nat) in
  let v := G v 2 7 8 13 (w 12%nat) (w 13%nat) in
  G v 3 4 9 14 (w 14%nat) (w 15%nat).

(** Little-endian 64 bit words of a 128 byte block. *)
Definition word_of_bytes (bs : list Z) : Z :=
  fold_right (fun b acc => b + 256 * acc) 0 bs.

Fixpoint words (n : nat) (bs : list Z) : list Z :=
  match n with
  | O => []
  | S n' => word_of_bytes (firstn 8 bs) :: words n' (skipn 8 bs)
  end.

Definition pad (bs : list Z) : list Z :=
  bs ++ repeat 0 (128 - length bs).

(** The compression function F. *)
Definition F (h : list Z) (block : list Z) (t : Z) (final : bool) : list Z :=
  let m := words 16 (pad block) in
  let v := h ++ IV in
  let v := set v 12 (Z.lxor (get v 12) (Z.land t mask64)) in
  let v := set v 13 (Z.lxor (get v 13) (Z.shiftr t 64)) in
  let v := if final then set v 14 (Z.lxor (get v 14) mask64) else v in
  let v := fold_left (round m) (seq 0 12) v in
  map (fun i => Z.lxor (Z.lxor (get h i) (get v i)) (get v (i + 8)))
      (seq 0 8).

Fixpoint blocks (fuel : nat) (h : list Z) (t : Z) (data : list Z) : list Z :=
  match fuel with
  | O => h
  | S fuel' =>
      if (length data <=? 128)%nat
      then F h data (t + Z.of_nat (length data)) true
      else blocks fuel' (F h (firstn 128 data) (t + 128) false)
                  (t + 128) (skipn 128 data)
  end.

Fixpoint bytes_of_word (n : nat) (w : Z) : list Z :=
  match n with
  | O => []
  | S n' => Z.land w 255 :: bytes_of_word n' (Z.shiftr w 8)
  end.

(** [hashlib.blake2b(data).digest()] as a list of 64 bytes. *)
Definition digest (data : list Z) : list Z :=
  let h0 := set IV 0 (Z.lxor (get IV 0) 0x01010040) in
  flat_map (bytes_of_word 8) (blocks (S (length data)) h0 0 data).

(** [int(hashlib.blake2b(data).hexdigest(), 16)]: the digest read as a
    big-endian number. *)
Definition hexdigest_int (data : list Z) : Z :=
  fold_left (fun acc b => acc * 256 + b) (digest data) 0.

End Blake2b.

(** [s.encode('utf-8')] of a string held as its UTF-8 bytes. *)
Definition encode (s : string) : list Z :=
  map (fun a => Z.of_N (N_of_ascii a)) (String.list_ascii_of_string s).

Definition blake2b_int (s : string) : Z := Blake2b.hexdigest_int (encode s).


(** ** Python values

    The fragment of Python objects that occurs as a keyword-argument
    value: [None], [bool], [int], [str] and (nested) [list]. *)
Inductive pyval : Type :=
| PyNone
| PyBool (b : bool)
| PyInt (z : Z)
| PyStr (s : string)
| PyList (l : list pyval).

(** [call_kwargs]: a [dict] keeps its insertion order, so it is held as
    the list of its items; the keys are the option names. *)
Definition kwargs : Type := list (string * pyval).

Definition dquote : ascii := ascii_of_nat 34.
Definition squote : ascii := ascii_of_nat 39.
Definition backslash : ascii := ascii_of_nat 92.

(** [str(z)] for an [int]. *)
Definition str_int (z : Z) : string := NilZero.string_of_int (Z.to_int z).

Definition hex_digit (n : nat) : ascii :=
  nth n (String.list_ascii_of_string "0123456789abcdef") "0"%char.

Definition string_mem (c : ascii) (s : string) : bool :=
  existsb (fun d => bool_decide (c = d)) (String.list_ascii_of_string s).

(** *** Text as bytes

    A [str] is held as its UTF-8 encoding and a [bytes] object as it
    is, so encoding is the identity and decoding is a check. *)

Definition code (c : ascii) : Z := Z.of_nat (nat_of_ascii c).

Definition between (lo hi : Z) (c : ascii) : bool :=
  (lo <=? code c) && (code c <=? hi).

(** The characters of a UTF-8 text, each with its code point and its
    bytes (well-formed sequences only: no overlong form, no surrogate,
    nothing above U+10FFFF). A byte that starts no well-formed sequence
    stands alone, without a code point. *)
Fixpoint utf8_pieces (cs : list ascii) : list (option Z * list ascii) :=
  match cs with
  | [] => []
  | c :: r =>
      let n := code c in
      if n <? 128 then (Some n, [c]) :: utf8_pieces r
      else if (194 <=? n) && (n <=? 223) then
        match r with
        | d :: r' =>
            if between 128 191 d
            then (Some ((n - 192) * 64 + (code d - 128)), [c; d])
                 :: utf8_pieces r'
            else (None, [c]) :: utf8_pieces r
        | [] => [(None, [c])]
        end
      else if (224 <=? n) && (n <=? 239) then
        match r with
        | d :: e :: r' =>
            if between (if n =? 224 then 160 else 128)
                 (if n =? 237 then 159 else 191) d
               && between 128 191 e
            then (Some ((n - 224) * 4096 + (code d - 128) * 64
                        + (code e - 128)), [c; d; e])
                 :: utf8_pieces r'
            else (None, [c]) :: utf8_pieces r
        | _ => (None, [c]) :: utf8_pieces r
        end
      else if (240 <=? n) && (n <=? 244) then
        match r with
        | d :: e :: f :: r' =>
            if between (if n =? 240 then 144 else 128)
                 (if n =? 244 then 143 else 191) d
               && between 128 191 e && between 128 191 f
            then (Some ((n - 240) * 262144 + (code d - 128) * 4096
                        + (code e - 128) * 64 + (code f - 128)),
                  [c; d; e; f])
                 :: utf8_pieces r'
            else (None, [c]) :: utf8_pieces r
        | _ => (None, [c]) :: utf8_pieces r
        end
      else (None, [c]) :: utf8_pieces r
  end.

Definition utf8_valid (cs : list ascii) : bool :=
  forallb (fun p => match p.1 with Some _ => true | None => false end)
    (utf8_pieces cs).

(** The code points from U+0080 on for which [str.isprintable] is
    false, as ranges (Unicode 14.0, the version of Python 3.11). *)
Definition not_printable : list (Z * Z) :=
  [
   (128, 160); (173, 173); (888, 889); (896, 899); (907, 907);
   (909, 909); (930, 930); (1328, 1328); (1367, 1368); (1419, 1420);
   (1424, 1424); (1480, 1487); (1515, 1518); (1525, 1541); (1564, 1564);
   (1757, 1757); (1806, 1807); (1867, 1868); (1970, 1983); (2043, 2044);
   (2094, 2095); (2111, 2111); (2140, 2141); (2143, 2143); (2155, 2159);
   (2191, 2199); (2274, 2274); (2436, 2436); (2445, 2446); (2449, 2450);
   (2473, 2473); (2481, 2481); (2483, 2485); (2490, 2491); (2501, 2502);
   (2505, 2506); (2511, 2518); (2520, 2523); (2526, 2526); (2532, 2533);
   (2559, 2560); (2564, 2564); (2571, 2574); (2577, 2578); (2601, 2601);
   (2609, 2609); (2612, 2612); (2615, 2615); (2618, 2619); (2621, 2621);
   (2627, 2630); (2633, 2634); (2638, 2640); (2642, 2648); (2653, 2653);
   (2655, 2661); (2679, 2688); (2692, 2692); (2702, 2702); (2706, 2706);
   (2729, 2729); (2737, 2737); (2740, 2740); (2746, 2747); (2758, 2758);
   (2762, 2762); (2766, 2767); (2769, 2783); (2788, 2789); (2802, 2808);
   (2816, 2816); (2820, 2820); (2829, 2830); (2833, 2834); (2857, 2857);
   (2865, 2865); (2868, 2868); (2874, 2875); (2885, 2886); (2889, 2890);
   (2894, 2900); (2904, 2907); (2910, 2910); (2916, 2917); (2936, 2945);
   (2948, 2948); (2955, 2957); (2961, 2961); (2966, 2968); (2971, 2971);
   (2973, 2973); (2976, 2978); (2981, 2983); (2987, 2989); (3002, 3005);
   (3011, 3013); (3017, 3017); (3022, 3023); (3025, 3030); (3032, 3045);
   (3067, 3071); (3085, 3085); (3089, 3089); (3113, 3113); (3130, 3131);
   (3141, 3141); (3145, 3145); (3150, 3156); (3159, 3159); (3163, 3164);
   (3166, 3167); (3172, 3173); (3184, 3190); (3213, 3213); (3217, 3217);
   (3241, 3241); (3252, 3252); (3258, 3259); (3269, 3269); (3273, 3273);
   (3278, 3284); (3287, 3292); (3295, 3295); (3300, 3301); (3312, 3312);
   (3315, 3327); (3341, 3341); (3345, 3345); (3397, 3397); (3401, 3401);
   (3408, 3411); (3428, 3429); (3456, 3456); (3460, 3460); (3479, 3481);
   (3506, 3506); (3516, 3516); (3518, 3519); (3527, 3529); (3531, 3534);
   (3541, 3541); (3543, 3543); (3552, 3557); (3568, 3569); (3573, 3584);
   (3643, 3646); (3676, 3712); (3715, 3715); (3717, 3717); (3723, 3723);
   (3748, 3748); (3750, 3750); (3774, 3775); (3781, 3781); (3783, 3783);
   (3790, 3791); (3802, 3803); (3808, 3839); (3912, 3912); (3949, 3952);
   (3992, 3992); (4029, 4029); (4045, 4045); (4059, 4095); (4294, 4294);
   (4296, 4300); (4302, 4303); (4681, 4681); (4686, 4687); (4695, 4695);
   (4697, 4697); (4702, 4703); (4745, 4745); (4750, 4751); (4785, 4785);
   (4790, 4791); (4799, 4799); (4801, 4801); (4806, 4807); (4823, 4823);
   (4881, 4881); (4886, 4887); (4955, 4956); (4989, 4991); (5018, 5023);
   (5110, 5111); (5118, 5119); (5760, 5760); (5789, 5791); (5881, 5887);
   (5910, 5918); (5943, 5951); (5972, 5983); (5997, 5997); (6001, 6001);
   (6004, 6015); (6110, 6111); (6122, 6127); (6138, 6143); (6158, 6158);
   (6170, 6175); (6265, 6271); (6315, 6319); (6390, 6399); (6431, 6431);
   (6444, 6447); (6460, 6463); (6465, 6467); (6510, 6511); (6517, 6527);
   (6572, 6575); (6602, 6607); (6619, 6621); (6684, 6685); (6751, 6751);
   (6781, 6782); (6794, 6799); (6810, 6815); (6830, 6831); (6863, 6911);
   (6989, 6991); (7039, 7039); (7156, 7163); (7224, 7226); (7242, 7244);
   (7305, 7311); (7355, 7356); (7368, 7375); (7419, 7423); (7958, 7959);
   (7966, 7967); (8006, 8007); (8014, 8015); (8024, 8024); (8026, 8026);
   (8028, 8028); (8030, 8030); (8062, 8063); (8117, 8117); (8133, 8133);
   (8148, 8149); (8156, 8156); (8176, 8177); (8181, 8181); (8191, 8207);
   (8232, 8239); (8287, 8303); (8306, 8307); (8335, 8335); (8349, 8351);
   (8385, 8399); (8433, 8447); (8588, 8591); (9255, 9279); (9291, 9311);
   (11124, 11125); (11158, 11158); (11508, 11512); (11558, 11558); (11560, 11564);
   (11566, 11567); (11624, 11630); (11633, 11646); (11671, 11679); (11687, 11687);
   (11695, 11695); (11703, 11703); (11711, 11711); (11719, 11719); (11727, 11727);
   (11735, 11735); (11743, 11743); (11870, 11903); (11930, 11930); (12020, 12031);
   (12246, 12271); (12284, 12288); (12352, 12352); (12439, 12440); (12544, 12548);
   (12592, 12592); (12687, 12687); (12772, 12783); (12831, 12831); (42125, 42127);
   (42183, 42191); (42540, 42559); (42744, 42751); (42955, 42959); (42962, 42962);
   (42964, 42964); (42970, 42993); (43053, 43055); (43066, 43071); (43128, 43135);
   (43206, 43213); (43226, 43231); (43348, 43358); (43389, 43391); (43470, 43470);
   (43482, 43485); (43519, 43519); (43575, 43583); (43598, 43599); (43610, 43611);
   (43715, 43738); (43767, 43776); (43783, 43784); (43791, 43792); (43799, 43807);
   (43815, 43815); (43823, 43823); (43884, 43887); (44014, 44015); (44026, 44031);
   (55204, 55215); (55239, 55242); (55292, 63743); (64110, 64111); (64218, 64255);
   (64263, 64274); (64280, 64284); (64311, 64311); (64317, 64317); (64319, 64319);
   (64322, 64322); (64325, 64325); (64451, 64466); (64912, 64913); (64968, 64974);
   (64976, 65007); (65050, 65055); (65107, 65107); (65127, 65127); (65132, 65135);
   (65141, 65141); (65277, 65280); (65471, 65473); (65480, 65481); (65488, 65489);
   (65496, 65497); (65501, 65503); (65511, 65511); (65519, 65531); (65534, 65535);
   (65548, 65548); (65575, 65575); (65595, 65595); (65598, 65598); (65614, 65615);
   (65630, 65663); (65787, 65791); (65795, 65798); (65844, 65846); (65935, 65935);
   (65949, 65951); (65953, 65999); (66046, 66175); (66205, 66207); (66257, 66271);
   (66300, 66303); (66340, 66348); (66379, 66383); (66427, 66431); (66462, 66462);
   (66500, 66503); (66518, 66559); (66718, 66719); (66730, 66735); (66772, 66775);
   (66812, 66815); (66856, 66863); (66916, 66926); (66939, 66939); (66955, 66955);
   (66963, 66963); (66966, 66966); (66978, 66978); (66994, 66994); (67002, 67002);
   (67005, 67071); (67383, 67391); (67414, 67423); (67432, 67455); (67462, 67462);
   (67505, 67505); (67515, 67583); (67590, 67591); (67593, 67593); (67638, 67638);
   (67641, 67643); (67645, 67646); (67670, 67670); (67743, 67750); (67760, 67807);
   (67827, 67827); (67830, 67834); (67868, 67870); (67898, 67902); (67904, 67967);
   (68024, 68027); (68048, 68049); (68100, 68100); (68103, 68107); (68116, 68116);
   (68120, 68120); (68150, 68151); (68155, 68158); (68169, 68175); (68185, 68191);
   (68256, 68287); (68327, 68330); (68343, 68351); (68406, 68408); (68438, 68439);
   (68467, 68471); (68498, 68504); (68509, 68520); (68528, 68607); (68681, 68735);
   (68787, 68799); (68851, 68857); (68904, 68911); (68922, 69215); (69247, 69247);
   (69290, 69290); (69294, 69295); (69298, 69375); (69416, 69423); (69466, 69487);
   (69514, 69551); (69580, 69599); (69623, 69631); (69710, 69713); (69750, 69758);
   (69821, 69821); (69827, 69839); (69865, 69871); (69882, 69887); (69941, 69941);
   (69960, 69967); (70007, 70015); (70112, 70112); (70133, 70143); (70162, 70162);
   (70207, 70271); (70279, 70279); (70281, 70281); (70286, 70286); (70302, 70302);
   (70314, 70319); (70379, 70383); (70394, 70399); (70404, 70404); (70413, 70414);
   (70417, 70418); (70441, 70441); (70449, 70449); (70452, 70452); (70458, 70458);
   (70469, 70470); (70473, 70474); (70478, 70479); (70481, 70486); (70488, 70492);
   (70500, 70501); (70509, 70511); (70517, 70655); (70748, 70748); (70754, 70783);
   (70856, 70863); (70874, 71039); (71094, 71095); (71134, 71167); (71237, 71247);
   (71258, 71263); (71277, 71295); (71354, 71359); (71370, 71423); (71451, 71452);
   (71468, 71471); (71495, 71679); (71740, 71839); (71923, 71934); (71943, 71944);
   (71946, 71947); (71956, 71956); (71959, 71959); (71990, 71990); (71993, 71994);
   (72007, 72015); (72026, 72095); (72104, 72105); (72152, 72153); (72165, 72191);
   (72264, 72271); (72355, 72367); (72441, 72703); (72713, 72713); (72759, 72759);
   (72774, 72783); (72813, 72815); (72848, 72849); (72872, 72872); (72887, 72959);
   (72967, 72967); (72970, 72970); (73015, 73017); (73019, 73019); (73022, 73022);
   (73032, 73039); (73050, 73055); (73062, 73062); (73065, 73065); (73103, 73103);
   (73106, 73106); (73113, 73119); (73130, 73439); (73465, 73647); (73649, 73663);
   (73714, 73726); (74650, 74751); (74863, 74863); (74869, 74879); (75076, 77711);
   (77811, 77823); (78895, 82943); (83527, 92159); (92729, 92735); (92767, 92767);
   (92778, 92781); (92863, 92863); (92874, 92879); (92910, 92911); (92918, 92927);
   (92998, 93007); (93018, 93018); (93026, 93026); (93048, 93052); (93072, 93759);
   (93851, 93951); (94027, 94030); (94088, 94094); (94112, 94175); (94181, 94191);
   (94194, 94207); (100344, 100351); (101590, 101631); (101641, 110575); (110580, 110580);
   (110588, 110588); (110591, 110591); (110883, 110927); (110931, 110947); (110952, 110959);
   (111356, 113663); (113771, 113775); (113789, 113791); (113801, 113807); (113818, 113819);
   (113824, 118527); (118574, 118575); (118599, 118607); (118724, 118783); (119030, 119039);
   (119079, 119080); (119155, 119162); (119275, 119295); (119366, 119519); (119540, 119551);
   (119639, 119647); (119673, 119807); (119893, 119893); (119965, 119965); (119968, 119969);
   (119971, 119972); (119975, 119976); (119981, 119981); (119994, 119994); (119996, 119996);
   (120004, 120004); (120070, 120070); (120075, 120076); (120085, 120085); (120093, 120093);
   (120122, 120122); (120127, 120127); (120133, 120133); (120135, 120137); (120145, 120145);
   (120486, 120487); (120780, 120781); (121484, 121498); (121504, 121504); (121520, 122623);
   (122655, 122879); (122887, 122887); (122905, 122906); (122914, 122914); (122917, 122917);
   (122923, 123135); (123181, 123183); (123198, 123199); (123210, 123213); (123216, 123535);
   (123567, 123583); (123642, 123646); (123648, 124895); (124903, 124903); (124908, 124908);
   (124911, 124911); (124927, 124927); (125125, 125126); (125143, 125183); (125260, 125263);
   (125274, 125277); (125280, 126064); (126133, 126208); (126270, 126463); (126468, 126468);
   (126496, 126496); (126499, 126499); (126501, 126502); (126504, 126504); (126515, 126515);
   (126520, 126520); (126522, 126522); (126524, 126529); (126531, 126534); (126536, 126536);
   (126538, 126538); (126540, 126540); (126544, 126544); (126547, 126547); (126549, 126550);
   (126552, 126552); (126554, 126554); (126556, 126556); (126558, 126558); (126560, 126560);
   (126563, 126563); (126565, 126566); (126571, 126571); (126579, 126579); (126584, 126584);
   (126589, 126589); (126591, 126591); (126602, 126602); (126620, 126624); (126628, 126628);
   (126634, 126634); (126652, 126703); (126706, 126975); (127020, 127023); (127124, 127135);
   (127151, 127152); (127168, 127168); (127184, 127184); (127222, 127231); (127406, 127461);
   (127491, 127503); (127548, 127551); (127561, 127567); (127570, 127583); (127590, 127743);
   (128728, 128732); (128749, 128751); (128765, 128767); (128884, 128895); (128985, 128991);
   (129004, 129007); (129009, 129023); (129036, 129039); (129096, 129103); (129114, 129119);
   (129160, 129167); (129198, 129199); (129202, 129279); (129620, 129631); (129646, 129647);
   (129653, 129655); (129661, 129663); (129671, 129679); (129709, 129711); (129723, 129727);
   (129734, 129743); (129754, 129759); (129768, 129775); (129783, 129791); (129939, 129939);
   (129995, 130031); (130042, 131071); (173792, 173823); (177977, 177983); (178206, 178207);
   (183970, 183983); (191457, 194559); (195102, 196607); (201547, 917759); (918000, 1114111)
  ].

Definition isprintable (cp : Z) : bool :=
  negb (existsb (fun r => (r.1 <=? cp) && (cp <=? r.2)) not_printable).

(** [width] hexadecimal digits of [z], in lower case. *)
Definition hex_fixed (width : nat) (z : Z) : string :=
  String.string_of_list_ascii
    (map (fun i => hex_digit (Z.to_nat ((z / 16 ^ Z.of_nat i) mod 16)))
       (rev (seq 0 width))).

(** One ASCII character of [repr(s)] for a [str], with [q] the chosen
    quote. *)
Definition repr_char (q c : ascii) : string :=
  let n := nat_of_ascii c in
  if bool_decide (c = q) || bool_decide (c = backslash)
  then String backslash (String c EmptyString)
  else if (n =? 9)%nat then String backslash "t"
  else if (n =? 10)%nat then String backslash "n"
  else if (n =? 13)%nat then String backslash "r"
  else if (n <? 32)%nat || (n =? 127)%nat
  then String backslash
         (String "x" (String (hex_digit (n / 16))
                        (String (hex_digit (n mod 16)) EmptyString)))
  else String c EmptyString.

(** One character of [repr(s)]: a character that is not ASCII is kept
    when it is printable and escaped by its code point otherwise.
    Bytes that are no UTF-8, which no [str] has, are kept. *)
Definition repr_piece (q : ascii) (p : option Z * list ascii) : string :=
  match p with
  | (Some cp, bytes) =>
      if cp <? 128
      then String.concat EmptyString (map (repr_char q) bytes)
      else if isprintable cp then String.string_of_list_ascii bytes
      else if cp <=? 255
      then String backslash (String "x" (hex_fixed 2 cp))
      else if cp <=? 65535
      then String backslash (String "u" (hex_fixed 4 cp))
      else String backslash (String "U" (hex_fixed 8 cp))
  | (None, bytes) => String.string_of_list_ascii bytes
  end.

(** [repr(s)] for a [str]: single quotes unless the text holds a single
    quote and no double quote. *)
Definition repr_str (s : string) : string :=
  let q := if string_mem squote s && negb (string_mem dquote s)
           then dquote else squote in
  String q (String.concat EmptyString
              (map (repr_piece q)
                 (utf8_pieces (String.list_ascii_of_string s)))
            +:+ String q EmptyString).

Fixpoint repr (v : pyval) : string :=
  match v with
  | PyNone => "None"
  | PyBool true => "True"
  | PyBool false => "False"
  | PyInt z => str_int z
  | PyStr s => repr_str s
  | PyList l => "[" +:+ String.concat ", " (map repr l) +:+ "]"
  end.

(** [str(v)]. *)
Definition str (v : pyval) : string :=
  match v with
  | PyStr s => s
  | _ => repr v
  end.

(** [str(x)] where [x] is a string or [None]. *)
Definition str_opt (x : option string) : string :=
  match x with
  | Some s => s
  | None => "None"
  end.

(** ** Exceptions and the state-and-exception monad *)
Inductive exn : Type :=
| TypeError (msg : string)
| RuntimeError (msg : string)
| ValueError (msg : string)
| KeyError (key : string)
| AttributeError (name : string)
| UnboundLocalError (name : string)
| FileNotFoundError (path : string)
| OSError (msg : string)
| IndexError (msg : string)
| UnicodeDecodeError
| CancelledError.

Inductive result (A : Type) : Type :=
| Ok (a : A)
| Raise (e : exn).
Arguments Ok {A} a.
Arguments Raise {A} e.

(** A computation over a mutable state [St]: the state is kept when an
    exception is raised, as the mutations of a Python object are. *)
Definition M (St A : Type) : Type := St -> result A * St.

Definition ret {St A} (a : A) : M St A := fun s => (Ok a, s).

Definition raise {St A} (e : exn) : M St A := fun s => (Raise e, s).

Definition bind {St A B} (m : M St A) (k : A -> M St B) : M St B :=
  fun s => match m s with
           | (Ok a, s') => k a s'
           | (Raise e, s') => (Raise e, s')
           end.

Definition gets {St A} (f : St -> A) : M St A := fun s => (Ok (f s), s).

Definition modify {St} (f : St -> St) : M St unit := fun s => (Ok tt, f s).

Definition lift {St A} (r : result A) : M St A := fun s => (r, s).

(** [try: body  finally: fin]. An exception of [fin] replaces the
    outcome of [body]. *)
Definition try_finally {St A} (body : M St A) (fin : M St unit) : M St A :=
  fun s => match body s with
           | (r, s') => match fin s' with
                        | (Ok _, s'') => (r, s'')
                        | (Raise e, s'') => (Raise e, s'')
                        end
           end.

(** [try: body  except ...: handler e  else: orelse]; the handler decides
    by the exception which clause applies and re-raises the others. *)
Definition try_except_else {St A B}
    (body : M St A) (handler : exn -> M St B) (orelse : A -> M St B) : M St B :=
  fun s => match body s with
           | (Ok a, s') => orelse a s'
           | (Raise e, s') => handler e s'
           end.

Declare Scope py_scope.
Delimit Scope py_scope with py.
Notation "x <- m ;; k" := (bind m (fun x => k))
  (at level 100, m at next level, right associativity) : py_scope.
Notation "m ;;; k" := (bind m (fun _ => k))
  (at level 100, right associativity) : py_scope.

(** ** Library functions of the standard library used by the module *)

Definition chars (s : string) : list ascii := String.list_ascii_of_string s.
Definition text (cs : list ascii) : string := String.string_of_list_ascii cs.

(** [sep.join(parts)]. *)
Definition join (sep : string) (parts : list string) : string :=
  String.concat sep parts.

(** The characters [shlex.quote] leaves alone: [[\w@%+=:,./-]] under
    [re.ASCII]. *)
Definition shlex_safe (c : ascii) : bool :=
  let n := nat_of_ascii c in
  ((48 <=? n) && (n <=? 57) || (65 <=? n) && (n <=? 90)
   || (97 <=? n) && (n <=? 122))%nat
  || string_mem c "_@%+=:,./-".

(** [s.replace("'", "'\"'\"'")]. *)
Definition escape_squote (c : ascii) : list ascii :=
  if bool_decide (c = squote)
  then [squote; dquote; squote; dquote; squote]
  else [c].

(** [shlex.quote(s)]. *)
Definition shlex_quote (s : string) : string :=
  match s with
  | EmptyString => text [squote; squote]
  | _ => if forallb shlex_safe (chars s) then s
         else text (squote :: flat_map escape_squote (chars s) ++ [squote])
  end.

Definition slash : ascii := "/"%char.
Definition is_slash (c : ascii) : bool := bool_decide (c = slash).

Fixpoint take_while {A} (f : A -> bool) (l : list A) : list A :=
  match l with
  | [] => []
  | x :: l' => if f x then x :: take_while f l' else []
  end.

Fixpoint drop_while {A} (f : A -> bool) (l : list A) : list A :=
  match l with
  | [] => []
  | x :: l' => if f x then drop_while f l' else l
  end.

(** [os.path.split(p)] (posixpath): the part up to the last slash and the
    part after it; trailing slashes of the head are stripped unless the
    head is made of slashes only. *)
Definition os_path_split (p : string) : string * string :=
  let r := rev (chars p) in
  let tail := rev (take_while (fun c => negb (is_slash c)) r) in
  let head := drop_while (fun c => negb (is_slash c)) r in
  let head := if forallb is_slash head then head
              else drop_while is_slash head in
  (text (rev head), text tail).

(** [os.path.join(a, b)] (posixpath). *)
Definition os_path_join (a b : string) : string :=
  match chars b, rev (chars a) with
  | c :: _, _ => if is_slash c then b
                 else match rev (chars a) with
                      | [] => b
                      | d :: _ => if is_slash d then a +:+ b
                                  else a +:+ "/" +:+ b
                      end
  | [], [] => b
  | [], d :: _ => if is_slash d then a +:+ b else a +:+ "/" +:+ b
  end.

(** [s[:n]]. *)
Definition str_take (n : nat) (s : string) : string := text (take n (chars s)).

(** [b.decode()]: UTF-8, strict. The message of the error, which names
    the byte and its position, is not modelled. *)
Definition decode (b : string) : result string :=
  if utf8_valid (chars b) then Ok b else Raise UnicodeDecodeError.

(** The characters that give a replacement field more than a plain
    name: a conversion, a format specification, an attribute or an
    index, a nested field. *)
Definition field_special (c : ascii) : bool := string_mem c "!:.[]{".

Definition is_digit (c : ascii) : bool := between 48 57 c.

(** [template.format(cmd_str=cmd)], for the templates whose replacement
    fields are plain names: doubled braces are literal braces, the field
    [{cmd_str}] is replaced, any other plain name is a [KeyError], a
    brace on its own a [ValueError]; the first error in the order of the
    text is raised. The result is [None] when the text up to that point
    holds a field that is more than a plain name, an empty or numeric
    field, or a name that is not ASCII: what [str.format] gives then is
    not modelled here. [field] holds the reversed name of the field
    being read, if any. *)
Fixpoint format_from (cmd : string) (field : option (list ascii))
    (cs : list ascii) : option (result string) :=
  let cont (pre : string) (r : option (result string))
      : option (result string) :=
    match r with
    | Some (Ok s) => Some (Ok (pre +:+ s))
    | Some (Raise e) => Some (Raise e)
    | None => None
    end in
  match field, cs with
  | None, [] => Some (Ok EmptyString)
  | None, c :: r =>
      if bool_decide (c = "{"%char) then
        match r with
        | d :: r' => if bool_decide (d = "{"%char)
                     then cont "{" (format_from cmd None r')
                     else format_from cmd (Some []) r
        | [] => Some (Raise (ValueError
                               "Single '{' encountered in format string"))
        end
      else if bool_decide (c = "}"%char) then
        match r with
        | d :: r' => if bool_decide (d = "}"%char)
                     then cont "}" (format_from cmd None r')
                     else Some (Raise (ValueError
                                   "Single '}' encountered in format string"))
        | [] => Some (Raise (ValueError
                               "Single '}' encountered in format string"))
        end
      else cont (String c EmptyString) (format_from cmd None r)
  | Some acc, [] =>
      Some (Raise (ValueError "expected '}' before end of string"))
  | Some acc, c :: r =>
      if bool_decide (c = "}"%char) then
        match acc with
        | [] => None
        | _ :: _ =>
            if negb (forallb (fun x => code x <? 128) acc) || forallb is_digit acc
            then None
            else if bool_decide (text (rev acc) = "cmd_str")
            then cont cmd (format_from cmd None r)
            else Some (Raise (KeyError (text (rev acc))))
        end
      else if field_special c then None
      else format_from cmd (Some (c :: acc)) r
  end.

Definition format_cmd_str (template cmd : string) : option (result string) :=
  format_from cmd None (chars template).

(** ** Collaborators of the wrappers *)

(** A numeric array, held as its serialisation. *)
Definition ndarray : Type := string.

(** The files: path to content. Directories are not modelled. *)
Abbreviation filesystem := (gmap string string).

(** An [asyncmd.Trajectory], as far as the wrappers look at it;
    [trajectory_str] is [str(traj)]. *)
Record Trajectory : Type := {
  structure_file : string;
  trajectory_files : list string;
  trajectory_hash : Z;
  trajectory_str : string
}.

(** Any object passed where a Python caller may pass anything: a value
    of the fragment above, a [dict] (or an instance of a subclass of
    [dict]) or a trajectory. *)
Inductive dict_class : Type := Dict | OrderedDict.

Inductive pyobj : Type :=
| OVal (v : pyval)
| ODict (cls : dict_class) (items : kwargs)
| OTrajectory (t : Trajectory)
| OObject (cls : string).

Inductive pytype : Type :=
| TNoneType | TBool | TInt | TStr | TList | TDict | TOrderedDict
| TTrajectory
| TClass (name : string).

#[global] Instance pytype_eq_dec : EqDecision pytype.
Proof. solve_decision. Defined.

(** [type(x)]. *)
Definition type_of (x : pyobj) : pytype :=
  match x with
  | OVal PyNone => TNoneType
  | OVal (PyBool _) => TBool
  | OVal (PyInt _) => TInt
  | OVal (PyStr _) => TStr
  | OVal (PyList _) => TList
  | ODict Dict _ => TDict
  | ODict OrderedDict _ => TOrderedDict
  | OTrajectory _ => TTrajectory
  | OObject cls => TClass cls
  end.

(** [issubclass(a, b)]: [bool] derives from [int] and
    [collections.OrderedDict] from [dict]. *)
Definition issubclass (a b : pytype) : bool :=
  bool_decide (a = b)
  || match a, b with
     | TBool, TInt => true
     | TOrderedDict, TDict => true
     | _, _ => false
     end.

(** [isinstance(x, t)]. *)
Definition isinstance (x : pyobj) (t : pytype) : bool :=
  issubclass (type_of x) t.

(** [str(t)] for a class [t]. *)
Definition type_str (t : pytype) : string :=
  "<class '" +:+
  match t with
  | TNoneType => "NoneType"
  | TBool => "bool"
  | TInt => "int"
  | TStr => "str"
  | TList => "list"
  | TDict => "dict"
  | TOrderedDict => "collections.OrderedDict"
  | TTrajectory => "asyncmd.trajectory.trajectory.Trajectory"
  | TClass name => name
  end +:+ "'>".

(** A Python callable, as the local wrapper uses it: what
    [inspect.getsource] does on it ([OSError] when the source cannot be
    retrieved) and what calling it with one positional argument and
    keyword arguments gives. *)
Record pyfunction : Type := {
  fn_repr : string;
  fn_getsource : result string;
  fn_call : pyobj -> kwargs -> result ndarray
}.

(** An object together with the records its methods have logged. *)
Record heap (W : Type) : Type := {
  self : W;
  logged : list string
}.
Arguments self {W} h.
Arguments logged {W} h.

Definition on_self {W} (f : W -> W) : M (heap W) unit :=
  modify (fun h => {| self := f (self h); logged := logged h |}).

Definition logger_warning {W} (msg : string) : M (heap W) unit :=
  modify (fun h => {| self := self h; logged := logged h ++ [msg] |}).

(** ** Identity derivation *)

(** The loop of [_get_id_str] over [self._call_kwargs.items()]. *)
Definition kwargs_digest_sum (kw : kwargs) : Z :=
  fold_left (fun id kv => id + blake2b_int (str kv.2) + blake2b_int kv.1)
            kw 0.

(** ** TrajectoryFunctionWrapper: the abstract base class

    A subclass gives its attributes [_id] and [_call_kwargs] and the
    abstract method [_get_id_str], which may read files. *)
Class TrajectoryFunctionWrapper (W : Type) : Type := {
  _id : W -> option string;
  set_id : option string -> W -> W;
  _call_kwargs : W -> kwargs;
  set_call_kwargs : kwargs -> W -> W;
  _get_id_str : filesystem -> W -> result string;
  class_str : string
}.

Section Base.
Context {W : Type} `{TrajectoryFunctionWrapper W}.

(** The trajectory's cache-aware application method. *)
Variable _apply_wrapped_func : Trajectory -> string -> W -> result ndarray.
Variable fs : filesystem.

(** Property [id]. *)
Definition id (w : W) : option string := _id w.

(** Property [call_kwargs]: a copy of the dictionary. *)
Definition call_kwargs (w : W) : kwargs := _call_kwargs w.

(** Setter of [call_kwargs]. *)
Definition call_kwargs_setter (value : pyobj) : M (heap W) unit :=
  (match value with
   | ODict _ items =>
       on_self (set_call_kwargs items) ;;;
       new_id <- (fun h => (_get_id_str fs (self h), h)) ;;
       on_self (set_id (Some new_id))
   | _ => raise (TypeError "call_kwargs must be a dictionary.")
   end)%py.

(** [TrajectoryFunctionWrapper.__call__]. *)
Definition base_call (w : W) (value : pyobj) : result ndarray :=
  match value, id w with
  | OTrajectory t, Some i => _apply_wrapped_func t i w
  | _, _ => Raise (TypeError (class_str +:+ " must be called"
                              +:+ " with an `asyncmd.Trajectory` "
                              +:+ "but was called with "
                              +:+ type_str (type_of value) +:+ "."))
  end.
End Base.

(** ** PyTrajectoryFunctionWrapper *)
Module Py.

Record t : Type := {
  _id : option string;
  _call_kwargs : kwargs;
  _func : option pyfunction;
  _func_src : option string
}.

Definition set_id (i : option string) (w : t) : t :=
  {| _id := i; _call_kwargs := _call_kwargs w;
     _func := _func w; _func_src := _func_src w |}.

Definition set_call_kwargs (kw : kwargs) (w : t) : t :=
  {| _id := _id w; _call_kwargs := kw;
     _func := _func w; _func_src := _func_src w |}.

Definition set_func (f : option pyfunction) (w : t) : t :=
  {| _id := _id w; _call_kwargs := _call_kwargs w;
     _func := f; _func_src := _func_src w |}.

Definition set_func_src (src : option string) (w : t) : t :=
  {| _id := _id w; _call_kwargs := _call_kwargs w;
     _func := _func w; _func_src := src |}.

(** [_get_id_str]: the sum of the digests of the keyword arguments and
    of [str(self._func_src)], in decimal. *)
Definition _get_id_str (w : t) : string :=
  let id := kwargs_digest_sum (_call_kwargs w) in
  let id := id + blake2b_int (str_opt (_func_src w)) in
  str_int id.

#[global] Instance wrapper : TrajectoryFunctionWrapper t :=
  Build_TrajectoryFunctionWrapper t
    _id set_id _call_kwargs set_call_kwargs
    (fun _ w => Ok (_get_id_str w))
    "<class 'asyncmd.trajectory.functionwrapper.PyTrajectoryFunctionWrapper'>".

(** Property [function]. *)
Definition function (w : t) : option pyfunction := _func w.

(** Setter of [function]. *)
Definition function_setter (value : pyfunction) : M (heap t) unit :=
  try_finally
    (try_except_else
       (lift (fn_getsource value))
       (fun e =>
          match e with
          | OSError _ =>
              on_self (set_func_src None) ;;;
              on_self (set_id None) ;;;
              logger_warning ("Could not retrieve source for "
                              +:+ fn_repr value +:+ "."
                              +:+ " No caching can/will be performed.")
          | _ => raise e
          end)
       (fun src =>
          on_self (set_func_src (Some src)) ;;;
          new_id <- gets (fun h => _get_id_str (self h)) ;;
          on_self (set_id (Some new_id))))%py
    (on_self (set_func (Some value))).

(** [__init__(function, call_kwargs)], without further keyword
    arguments; these are the subject of [Init] below. *)
Definition __init__ (function : pyfunction) (call_kwargs : pyobj)
    : M (heap t) unit :=
  (on_self (set_id None) ;;;
   on_self (set_call_kwargs []) ;;;
   on_self (set_func None) ;;;
   on_self (set_func_src None) ;;;
   function_setter function ;;;
   call_kwargs_setter (∅ : filesystem) call_kwargs)%py.

(** The object as allocated, before [__init__] has run; no field of it
    is read before it is assigned. *)
Definition blank : heap t :=
  {| self := {| _id := None; _call_kwargs := [];
                _func := None; _func_src := None |};
     logged := [] |}.

Section Call.
Variable _apply_wrapped_func : Trajectory -> string -> t -> result ndarray.

(** [PyTrajectoryFunctionWrapper.__call__]. *)
Definition __call__ (w : t) (value : pyobj) : result ndarray :=
  match value, id w with
  | OTrajectory tr, Some i => _apply_wrapped_func tr i w
  | _, _ =>
      match _func w with
      | Some f => fn_call f value (_call_kwargs w)
      | None => Raise (TypeError "'NoneType' object is not callable")
      end
  end.
End Call.

End Py.

(** ** SlurmTrajectoryFunctionWrapper *)
Module Slurm.

(** A custom [load_results_func]: it is given the files and may change
    them. *)
Definition loader : Type := string -> M filesystem ndarray.

Record t : Type := {
  _id : option string;
  _call_kwargs : kwargs;
  _executable : option string;
  _slurm_jobname : option string;
  sbatch_script : string;
  load_results_func : option loader
}.

Definition set_id (i : option string) (w : t) : t :=
  {| _id := i; _call_kwargs := _call_kwargs w;
     _executable := _executable w; _slurm_jobname := _slurm_jobname w;
     sbatch_script := sbatch_script w;
     load_results_func := load_results_func w |}.

Definition set_call_kwargs (kw : kwargs) (w : t) : t :=
  {| _id := _id w; _call_kwargs := kw;
     _executable := _executable w; _slurm_jobname := _slurm_jobname w;
     sbatch_script := sbatch_script w;
     load_results_func := load_results_func w |}.

(** Property [executable]. *)
Definition executable (w : t) : option string := _executable w.

(** [open(path, "rb").read()]. *)
Definition read_binary (fs : filesystem) (path : option string)
    : result string :=
  match path with
  | None => Raise (TypeError
      "expected str, bytes or os.PathLike object, not NoneType")
  | Some p => match fs !! p with
              | Some data => Ok data
              | None => Raise (FileNotFoundError p)
              end
  end.

(** [_get_id_str]: the sum of the digests of the keyword arguments and
    of the bytes of the executable, in decimal. *)
Definition _get_id_str (fs : filesystem) (w : t) : result string :=
  let id := kwargs_digest_sum (_call_kwargs w) in
  match read_binary fs (executable w) with
  | Ok data => let id := id + blake2b_int data in Ok (str_int id)
  | Raise e => Raise e
  end.

#[global] Instance wrapper : TrajectoryFunctionWrapper t :=
  Build_TrajectoryFunctionWrapper t
    _id set_id _call_kwargs set_call_kwargs _get_id_str
    "<class 'asyncmd.trajectory.functionwrapper.SlurmTrajectoryFunctionWrapper'>".

(** Property [slurm_jobname]. *)
Definition slurm_jobname (w : t) : string :=
  match _slurm_jobname w with
  | None => "CVfunc_id_" +:+ str_opt (id w)
  | Some name => name
  end.

(** [__call__] is inherited. *)
Definition __call__
    (_apply_wrapped_func : Trajectory -> string -> t -> result ndarray)
    : t -> pyobj -> result ndarray :=
  base_call _apply_wrapped_func.

(** *** The command line *)

(** The fragment of one keyword argument. *)
Definition kwarg_fragment (key : string) (val : pyval) : string :=
  match val with
  | PyList vals =>
      " " +:+ key +:+ " "
      +:+ join " " (map (fun v => shlex_quote (str v)) vals)
  | _ => " " +:+ key +:+ " " +:+ shlex_quote (str val)
  end.

(** The command line; the loop over the items does nothing for an
    empty [call_kwargs], as the guard on its length has it. *)
Definition build_cmd_str (w : t) (traj : Trajectory) (result_file : string)
    : string :=
  let cmd_str := str_opt (executable w) +:+ " " +:+ structure_file traj in
  let cmd_str := cmd_str +:+ " " +:+ join " " (trajectory_files traj)
                 +:+ " " +:+ result_file in
  fold_left (fun cmd kv => cmd +:+ kwarg_fragment kv.1 kv.2)
            (call_kwargs w) cmd_str.

(** *** The world of one call of [get_values_for_trajectory] *)

(** The job handle returned by [slurm.create_slurmprocess_submit]. *)
Record SlurmProcess : Type := { slurm_jobid : string }.

(** The semaphores of [_SEMAPHORES] the call uses. *)
Inductive semaphore : Type := MAX_FILES_OPEN | SLURM_MAX_JOB.

#[global] Instance semaphore_eq_dec : EqDecision semaphore.
Proof. solve_decision. Defined.

(** What the call does to the world outside, in order. [EWakeUp] is
    the release by some other task that ends a wait for a saturated
    semaphore. *)
Inductive event : Type :=
| ELogError (msg : string)
| EAcquire (sem : semaphore)
| ERelease (sem : semaphore)
| EWakeUp (sem : semaphore)
| EWrite (path content : string)
| ESubmit (jobname sbatch_script workdir : string)
| ECommunicate (proc : SlurmProcess)
| EKill (proc : SlurmProcess)
| ERemove (path : string)
| ENpLoad (path : string)
| ELoadResults (path : string).

(** The state the call runs on: the files, the values of the two
    semaphores ([slurm_max_job] is [None] when no limit is
    configured), the events so far and the local variable
    [slurm_proc], [None] while it is unbound. *)
Record state : Type := {
  files : filesystem;
  max_files_open : nat;
  slurm_max_job : option nat;
  trace : list event;
  slurm_proc : option SlurmProcess
}.

(** What the surroundings do at the points where the call awaits:
    every await either returns or raises, [CancelledError] when the
    call is cancelled there. A wait for a semaphore happens only when
    its value is zero. [job_writes] is what the job has done to the
    files when [communicate] returns, whose outcome holds the bytes of
    the two streams of the job. [str_format] is what
    [template.format(cmd_str=cmd)] gives for the templates outside the
    ones [format_cmd_str] models. *)
Record scenario : Type := {
  files_open_wait : result unit;
  slurm_job_wait : result unit;
  submit : result SlurmProcess;
  communicate : result (string * string * Z);
  job_writes : filesystem -> filesystem;
  str_format : string -> string -> result string
}.

(** [self.sbatch_script.format(cmd_str=cmd_str)]. *)
Definition format_script (sc : scenario) (template cmd : string)
    : result string :=
  match format_cmd_str template cmd with
  | Some r => r
  | None => str_format sc template cmd
  end.

Definition set_files (f : filesystem) (s : state) : state :=
  {| files := f; max_files_open := max_files_open s;
     slurm_max_job := slurm_max_job s; trace := trace s;
     slurm_proc := slurm_proc s |}.

Definition emit (e : event) : M state unit :=
  modify (fun s =>
    {| files := files s; max_files_open := max_files_open s;
       slurm_max_job := slurm_max_job s; trace := trace s ++ [e];
       slurm_proc := slurm_proc s |}).

Definition set_slurm_proc (p : option SlurmProcess) (s : state) : state :=
  {| files := files s; max_files_open := max_files_open s;
     slurm_max_job := slurm_max_job s; trace := trace s;
     slurm_proc := p |}.

(** [slurm_proc = ...]. *)
Definition bind_slurm_proc (p : SlurmProcess) : M state unit :=
  modify (set_slurm_proc (Some p)).

(** On entry no local variable is bound. *)
Definition enter : M state unit := modify (set_slurm_proc None).

Definition sem_value (sem : semaphore) (s : state) : option nat :=
  match sem with
  | MAX_FILES_OPEN => Some (max_files_open s)
  | SLURM_MAX_JOB => slurm_max_job s
  end.

Definition set_sem_value (sem : semaphore) (v : nat) (s : state) : state :=
  match sem with
  | MAX_FILES_OPEN =>
      {| files := files s; max_files_open := v;
         slurm_max_job := slurm_max_job s; trace := trace s;
         slurm_proc := slurm_proc s |}
  | SLURM_MAX_JOB =>
      {| files := files s; max_files_open := max_files_open s;
         slurm_max_job := Some v; trace := trace s;
         slurm_proc := slurm_proc s |}
  end.

Definition sem_wait (sc : scenario) (sem : semaphore) : result unit :=
  match sem with
  | MAX_FILES_OPEN => files_open_wait sc
  | SLURM_MAX_JOB => slurm_job_wait sc
  end.

Definition none_has_no (attr : string) : exn :=
  AttributeError ("'NoneType' object has no attribute '" +:+ attr +:+ "'").

(** [await _SEMAPHORES[sem].acquire()]: a free permit is taken at
    once; otherwise the call waits until another task releases one
    (the value goes up and down again) or until it is cancelled. *)
Definition acquire (sc : scenario) (sem : semaphore) : M state unit :=
  (v <- gets (sem_value sem) ;;
   match v with
   | None => raise (none_has_no "acquire")
   | Some (S n) => modify (set_sem_value sem n) ;;; emit (EAcquire sem)
   | Some O =>
       lift (sem_wait sc sem) ;;;
       modify (set_sem_value sem 1) ;;; emit (EWakeUp sem) ;;;
       modify (set_sem_value sem 0) ;;; emit (EAcquire sem)
   end)%py.

(** [_SEMAPHORES[sem].release()]. *)
Definition release (sem : semaphore) : M state unit :=
  (v <- gets (sem_value sem) ;;
   match v with
   | None => raise (none_has_no "release")
   | Some n => modify (set_sem_value sem (S n)) ;;; emit (ERelease sem)
   end)%py.

(** [async with _SEMAPHORES[sem]: body]. *)
Definition async_with {A} (sc : scenario) (sem : semaphore)
    (body : M state A) : M state A :=
  (acquire sc sem ;;; try_finally body (release sem))%py.

(** [with open(path, 'w') as f: f.write(content)]. *)
Definition write_file (path content : string) : M state unit :=
  (modify (fun s => set_files (<[path := content]> (files s)) s) ;;;
   emit (EWrite path content))%py.

(** [os.remove(path)]. *)
Definition os_remove (path : string) : M state unit :=
  (present <- gets (fun s => files s !! path) ;;
   match present with
   | Some _ => modify (fun s => set_files (delete path (files s)) s) ;;;
               emit (ERemove path)
   | None => raise (FileNotFoundError path)
   end)%py.

(** [np.load(path)]. *)
Definition np_load (path : string) : M state ndarray :=
  (emit (ENpLoad path) ;;;
   present <- gets (fun s => files s !! path) ;;
   match present with
   | Some data => ret data
   | None => raise (FileNotFoundError path)
   end)%py.

(** A call of the custom loader. *)
Definition call_loader (f : loader) (path : string) : M state ndarray :=
  (emit (ELoadResults path) ;;;
   fun s => match f path (files s) with
            | (r, fs') => (r, set_files fs' s)
            end)%py.

(** [await slurm.create_slurmprocess_submit(...)]. *)
Definition create_slurmprocess_submit (sc : scenario)
    (jobname sbatch_script workdir : string) : M state SlurmProcess :=
  (emit (ESubmit jobname sbatch_script workdir) ;;; lift (submit sc))%py.

(** [await slurm_proc.communicate()] followed by the read of
    [slurm_proc.returncode]. *)
Definition communicate_and_returncode (sc : scenario)
    : M state (string * string * Z) :=
  (p <- gets slurm_proc ;;
   match p with
   | None => raise (UnboundLocalError "slurm_proc")
   | Some proc =>
       emit (ECommunicate proc) ;;;
       out <- lift (communicate sc) ;;
       modify (fun s => set_files (job_writes sc (files s)) s) ;;;
       ret out
   end)%py.

(** [slurm_proc.kill()]. *)
Definition kill : M state unit :=
  (p <- gets slurm_proc ;;
   match p with
   | None => raise (UnboundLocalError "slurm_proc")
   | Some proc => emit (EKill proc)
   end)%py.

(** The message of the [RuntimeError] for a job that failed, given the
    texts of the two streams. *)
Definition nonzero_exit_text (w : t) (traj : Trajectory)
    (jobid : string) (returncode : Z) (stderr stdout : string) : string :=
  "Non-zero exit code from CV batch job for "
  +:+ "executable " +:+ str_opt (executable w) +:+ " on "
  +:+ "trajectory " +:+ trajectory_str traj +:+ " "
  +:+ "(slurm jobid " +:+ jobid +:+ ")."
  +:+ " Exit code was: " +:+ str_int returncode +:+ "."
  +:+ " stderr was: " +:+ stderr +:+ "."
  +:+ " and stdout was: " +:+ stdout.

(** The argument of [RuntimeError(...)]: the message is put together
    from left to right, with [stderr.decode()] and then
    [stdout.decode()] at its end. *)
Definition nonzero_exit_message (w : t) (traj : Trajectory)
    (jobid : string) (returncode : Z) (stderr stdout : string)
    : result string :=
  match decode stderr with
  | Ok err =>
      match decode stdout with
      | Ok out => Ok (nonzero_exit_text w traj jobid returncode err out)
      | Raise e => Raise e
      end
  | Raise e => Raise e
  end.

(** The paths the call derives from the trajectory: the directory of
    the first trajectory file, the result file and the submission
    script. *)
Definition result_file_of (w : t) (traj : Trajectory) (first : string)
    : string :=
  let '(tra_dir, tra_name) := os_path_split first in
  let hash_part := str_take 5 (str_int (trajectory_hash traj)) in
  os_path_join tra_dir
    (tra_name +:+ "_" +:+ hash_part +:+ "_CVfunc_id_" +:+ str_opt (id w)).

Definition sbatch_fname_of (w : t) (first : string) : string :=
  let '(tra_dir, tra_name) := os_path_split first in
  os_path_join tra_dir (tra_name +:+ "_" +:+ slurm_jobname w +:+ ".slurm").

(** The paths and the script of one call. *)
Record submission : Type := {
  tra_dir : string;
  result_file : string;
  sbatch_fname : string;
  script : string
}.

(** [get_values_for_trajectory], first part: from the entry to the
    acquisition of the permit for a queued job. *)
Definition prepare (sc : scenario) (w : t) (traj : Trajectory)
    : M state submission :=
  (enter ;;;
   first <- lift (match trajectory_files traj with
                  | f :: _ => Ok f
                  | [] => Raise (IndexError "list index out of range")
                  end) ;;
   let tra_dir := (os_path_split first).1 in
   let result_file := result_file_of w traj first in
   let cmd_str := build_cmd_str w traj result_file in
   script <- lift (format_script sc (sbatch_script w) cmd_str) ;;
   let sbatch_fname := sbatch_fname_of w first in
   present <- gets (fun s => files s !! sbatch_fname) ;;
   match present with
   | Some _ => emit (ELogError ("Overwriting exisiting submission file ("
                                +:+ sbatch_fname +:+ ")."))
   | None => ret tt
   end ;;;
   async_with sc MAX_FILES_OPEN (write_file sbatch_fname script) ;;;
   limit <- gets slurm_max_job ;;
   match limit with
   | Some _ => acquire sc SLURM_MAX_JOB
   | None => ret tt
   end ;;;
   ret {| tra_dir := tra_dir; result_file := result_file;
          sbatch_fname := sbatch_fname; script := script |})%py.

(** [get_values_for_trajectory], second part: the [try] statement with
    its [except], [else] and [finally] clauses. *)
Definition run_job (sc : scenario) (w : t) (traj : Trajectory)
    (p : submission) : M state ndarray :=
  (try_finally
     (try_except_else
        (proc <- create_slurmprocess_submit sc
                   (slurm_jobname w) (sbatch_fname p) (tra_dir p) ;;
         bind_slurm_proc proc ;;;
         communicate_and_returncode sc)
        (fun e =>
           match e with
           | CancelledError => kill ;;; raise CancelledError
           | _ => raise e
           end)
        (fun '(stdout, stderr, returncode) =>
           (if bool_decide (returncode <> 0)
            then proc <- gets slurm_proc ;;
                 match proc with
                 | Some pr =>
                     msg <- lift (nonzero_exit_message w traj (slurm_jobid pr)
                                    returncode stderr stdout) ;;
                     raise (RuntimeError msg)
                 | None => raise (UnboundLocalError "slurm_proc")
                 end
            else ret tt) ;;;
           os_remove (sbatch_fname p) ;;;
           match load_results_func w with
           | None =>
               vals <- np_load (result_file p +:+ ".npy") ;;
               os_remove (result_file p +:+ ".npy") ;;;
               ret vals
           | Some f =>
               vals <- call_loader f (result_file p) ;;
               os_remove (result_file p) ;;;
               ret vals
           end))
     (limit <- gets slurm_max_job ;;
      match limit with
      | Some _ => release SLURM_MAX_JOB
      | None => ret tt
      end))%py.

(** [get_values_for_trajectory]. *)
Definition get_values_for_trajectory (sc : scenario) (w : t)
    (traj : Trajectory) : M state ndarray :=
  (p <- prepare sc w traj ;; run_job sc w traj p)%py.

End Slurm.

(** ** The constructor of the base class and its keyword arguments

    [TrajectoryFunctionWrapper.__init__] reaches the attributes by
    name, so here an instance is its [__dict__] and a class is given by
    its properties and its other attributes. *)
Module Init.

Abbreviation instance := (gmap string pyobj).

Record property : Type := {
  fget : instance -> result pyobj;
  fset : option (pyobj -> M instance unit)
}.

Fixpoint for_each {St A} (body : A -> M St unit) (l : list A) : M St unit :=
  match l with
  | [] => ret tt
  | x :: l' => (body x ;;; for_each body l')%py
  end.

(** [self.name], for a name that is no property. *)
Definition read (name : string) (o : instance) : result pyobj :=
  match o !! name with
  | Some v => Ok v
  | None => Raise (AttributeError name)
  end.

Section Class.
(** The abstract method, the properties a subclass adds and the
    attributes found on the class that are no properties (methods
    and the like). *)
Variable _get_id_str : instance -> result string.
Variable subclass_properties : string -> option property.
Variable class_attributes : string -> option pyobj.

(** Property [id]: no setter. *)
Definition id_property : property :=
  {| fget := read "_id"; fset := None |}.

(** Property [call_kwargs]. *)
Definition call_kwargs_property : property :=
  {| fget := fun o =>
       match read "_call_kwargs" o with
       | Ok (ODict cls items) => Ok (ODict cls items)
       | Ok (OVal (PyList l)) => Ok (OVal (PyList l))
       | Ok _ => Raise (AttributeError "copy")
       | Raise e => Raise e
       end;
     fset := Some (fun value =>
       if isinstance value TDict
       then (modify (insert "_call_kwargs" value) ;;;
             new_id <- (fun o => (_get_id_str o, o)) ;;
             modify (insert "_id" (OVal (PyStr new_id))))%py
       else raise (TypeError "call_kwargs must be a dictionary.")) |}.

Definition properties (name : string) : option property :=
  if bool_decide (name = "id") then Some id_property
  else if bool_decide (name = "call_kwargs") then Some call_kwargs_property
  else subclass_properties name.

(** [getattr(self, name)]: a property of the class first, then the
    instance's own attributes, then the other class attributes. *)
Definition getattr (name : string) (o : instance) : result pyobj :=
  match properties name with
  | Some p => fget p o
  | None =>
      match o !! name with
      | Some v => Ok v
      | None => match class_attributes name with
                | Some v => Ok v
                | None => Raise (AttributeError name)
                end
      end
  end.

(** [name] is no attribute of [o]: [getattr(self, name, dval)] gives
    the default. *)
Definition no_attribute (o : instance) (name : string) : Prop :=
  exists msg, getattr name o = Raise (AttributeError msg).

(** [setattr(self, name, value)]. *)
Definition setattr (name : string) (value : pyobj) : M instance unit :=
  match properties name with
  | Some p => match fset p with
              | Some f => f value
              | None => raise (AttributeError "can't set attribute")
              end
  | None => modify (insert name value)
  end.

(** The body of the loop over [kwargs.items()]; the default value
    [dval] of the lookup is [None] here. *)
Definition init_kwarg (kv : string * pyobj) : M instance unit :=
  let '(kwarg, value) := kv in
  (cval <- (fun o => match getattr kwarg o with
                     | Ok c => (Ok (Some c), o)
                     | Raise (AttributeError _) => (Ok None, o)
                     | Raise e => (Raise e, o)
                     end) ;;
   match cval with
   | Some c =>
       if isinstance value (type_of c)
       then setattr kwarg value
       else raise (TypeError
              ("Setting attribute " +:+ kwarg +:+ " with "
               +:+ "mismatching type (" +:+ type_str (type_of value)
               +:+ "). " +:+ " Default type is "
               +:+ type_str (type_of c) +:+ "."))
   | None => ret tt
   end)%py.

(** [TrajectoryFunctionWrapper.__init__], given its keyword arguments. *)
Definition __init__ (kwargs : list (string * pyobj)) : M instance unit :=
  (setattr "_id" (OVal PyNone) ;;;
   setattr "_call_kwargs" (ODict Dict []) ;;;
   for_each init_kwarg kwargs)%py.
End Class.

(** *** SlurmTrajectoryFunctionWrapper while its base constructor runs

    [_slurm_jobname] is set before [super().__init__] is called,
    [_executable] is not: reading the property [executable], and so
    [_get_id_str], raises [AttributeError] throughout, and the name
    [executable] is no attribute. [_id] holds [None] here (no other
    value passes the type check); its text is given for the values of
    the fragment only. *)
Module AtSlurm.

Definition _get_id_str (o : instance) : result string :=
  Raise (AttributeError "_executable").

Definition slurm_jobname_property : property :=
  {| fget := fun o =>
       match read "_slurm_jobname" o with
       | Ok (OVal PyNone) =>
           match read "_id" o with
           | Ok (OVal v) => Ok (OVal (PyStr ("CVfunc_id_" +:+ str v)))
           | Ok _ => Raise (TypeError "identity outside the fragment")
           | Raise e => Raise e
           end
       | r => r
       end;
     fset := Some (fun val => modify (insert "_slurm_jobname" val)) |}.

Definition subclass_properties (name : string) : option property :=
  if bool_decide (name = "slurm_jobname") then Some slurm_jobname_property
  else None.

(** The methods the classes define. *)
Definition class_attributes (name : string) : option pyobj :=
  if bool_decide (name ∈ ["__init__"; "__call__"; "__repr__";
                          "_get_id_str"; "get_values_for_trajectory"])
  then Some (OObject "method")
  else None.

(** The instance when [super().__init__] is entered. *)
Definition entered : instance :=
  {[ "_slurm_jobname" := OVal PyNone ]}.

Definition __init__ : list (string * pyobj) -> M instance unit :=
  Init.__init__ _get_id_str subclass_properties class_attributes.

End AtSlurm.

End Init.

(** ** SlurmTrajectoryFunctionWrapper: the constructor and the setters *)
Module SlurmSetup.

Definition set_executable (exe : option string) (w : Slurm.t) : Slurm.t :=
  {| Slurm._id := Slurm._id w; Slurm._call_kwargs := Slurm._call_kwargs w;
     Slurm._executable := exe; Slurm._slurm_jobname := Slurm._slurm_jobname w;
     Slurm.sbatch_script := Slurm.sbatch_script w;
     Slurm.load_results_func := Slurm.load_results_func w |}.

Definition set_slurm_jobname (name : option string) (w : Slurm.t) : Slurm.t :=
  {| Slurm._id := Slurm._id w; Slurm._call_kwargs := Slurm._call_kwargs w;
     Slurm._executable := Slurm._executable w; Slurm._slurm_jobname := name;
     Slurm.sbatch_script := Slurm.sbatch_script w;
     Slurm.load_results_func := Slurm.load_results_func w |}.

Definition set_sbatch_script (script : string) (w : Slurm.t) : Slurm.t :=
  {| Slurm._id := Slurm._id w; Slurm._call_kwargs := Slurm._call_kwargs w;
     Slurm._executable := Slurm._executable w;
     Slurm._slurm_jobname := Slurm._slurm_jobname w;
     Slurm.sbatch_script := script;
     Slurm.load_results_func := Slurm.load_results_func w |}.

Definition set_load_results_func (f : option Slurm.loader) (w : Slurm.t)
    : Slurm.t :=
  {| Slurm._id := Slurm._id w; Slurm._call_kwargs := Slurm._call_kwargs w;
     Slurm._executable := Slurm._executable w;
     Slurm._slurm_jobname := Slurm._slurm_jobname w;
     Slurm.sbatch_script := Slurm.sbatch_script w;
     Slurm.load_results_func := f |}.

(** [s.startswith("#!")]. *)
Definition starts_with_shebang (s : string) : bool :=
  match s with
  | String a (String b _) =>
      bool_decide (a = "#"%char) && bool_decide (b = "!"%char)
  | _ => false
  end.

(** [open(path, 'r').read()]. *)
Definition read_text (fs : filesystem) (path : string) : result string :=
  match fs !! path with
  | Some content => Ok content
  | None => Raise (FileNotFoundError path)
  end.

Section Setup.
(** [asyncmd.tools.ensure_executable_available], which is not part of
    the sources at hand: it gives the path of the executable or
    raises. *)
Variable ensure_executable_available : string -> result string.
Variable fs : filesystem.

(** Setter of [executable]. *)
Definition executable_setter (val : string) : M (heap Slurm.t) unit :=
  (exe <- lift (ensure_executable_available val) ;;
   on_self (set_executable (Some exe)) ;;;
   new_id <- (fun h => (Slurm._get_id_str fs (self h), h)) ;;
   on_self (Slurm.set_id (Some new_id)))%py.

(** Setter of [slurm_jobname]. *)
Definition slurm_jobname_setter (val : option string) : M (heap Slurm.t) unit :=
  on_self (set_slurm_jobname val).

(** [__init__(executable, sbatch_script, call_kwargs, load_results_func)],
    without further keyword arguments (for those see [Init]). *)
Definition __init__ (executable sbatch_script : string) (call_kwargs : pyobj)
    (load_results_func : option Slurm.loader) : M (heap Slurm.t) unit :=
  (on_self (set_slurm_jobname None) ;;;
   on_self (Slurm.set_id None) ;;;
   on_self (Slurm.set_call_kwargs []) ;;;
   on_self (set_executable None) ;;;
   sbatch_script <- (if starts_with_shebang sbatch_script
                     then ret sbatch_script
                     else lift (read_text fs sbatch_script)) ;;
   on_self (set_sbatch_script sbatch_script) ;;;
   executable_setter executable ;;;
   call_kwargs_setter fs call_kwargs ;;;
   on_self (set_load_results_func load_results_func))%py.
End Setup.

(** The object as allocated, before [__init__] has run; no field of it
    is read before it is assigned. *)
Definition blank : heap Slurm.t :=
  {| self := {| Slurm._id := None; Slurm._call_kwargs := [];
                Slurm._executable := None; Slurm._slurm_jobname := None;
                Slurm.sbatch_script := EmptyString;
                Slurm.load_results_func := None |};
     logged := [] |}.

End SlurmSetup.

(** ** PyTrajectoryFunctionWrapper.get_values_for_trajectory *)
Module PyRun.

(** What the call does: it takes and gives back a permit of
    [_SEMAPHORES["MAX_PROCESS"]] ([EWakeUp] is the release by another
    task that ends a wait) and hands the function with its keyword
    arguments to the worker thread. *)
Inductive event : Type :=
| EAcquire
| EWakeUp
| ERelease
| ERunInExecutor (keywords : kwargs).

Record state : Type := {
  max_process : nat;
  trace : list event
}.

(** What the surroundings do where the call awaits: the wait for a
    permit (which happens only when none is free) and the wait for the
    worker either go on or raise, [CancelledError] when the call is
    cancelled there. *)
Record scenario : Type := {
  process_wait : result unit;
  executor_wait : result unit
}.

Definition emit (e : event) : M state unit :=
  modify (fun s => {| max_process := max_process s; trace := trace s ++ [e] |}).

Definition set_max_process (v : nat) : M state unit :=
  modify (fun s => {| max_process := v; trace := trace s |}).

Definition acquire (sc : scenario) : M state unit :=
  (v <- gets max_process ;;
   match v with
   | S n => set_max_process n ;;; emit EAcquire
   | O => lift (process_wait sc) ;;;
          set_max_process 1 ;;; emit EWakeUp ;;;
          set_max_process 0 ;;; emit EAcquire
   end)%py.

Definition release : M state unit :=
  (v <- gets max_process ;; set_max_process (S v) ;;; emit ERelease)%py.

(** [await loop.run_in_executor(pool, func, traj)] inside the [with]
    block of the pool, [func] being the function (if any) together with
    the keyword arguments bound to it. *)
Definition run_in_executor (sc : scenario) (func : option pyfunction)
    (keywords : kwargs) (traj : Trajectory) : M state ndarray :=
  (emit (ERunInExecutor keywords) ;;;
   lift (executor_wait sc) ;;;
   match func with
   | Some f => lift (fn_call f (OTrajectory traj) keywords)
   | None => raise (TypeError "'NoneType' object is not callable")
   end)%py.

(** [get_values_for_trajectory]. *)
Definition get_values_for_trajectory (sc : scenario) (w : Py.t)
    (traj : Trajectory) : M state ndarray :=
  (acquire sc ;;;
   try_finally
     (if (0 <? length (call_kwargs w))%nat
      then match Py.function w with
           | Some f => run_in_executor sc (Some f) (Py._call_kwargs w) traj
           | None => raise (TypeError "the first argument must be callable")
           end
      else run_in_executor sc (Py.function w) [] traj)
     release)%py.

End PyRun.

(** ** Definitions used to state the properties *)

(** The digest one item adds to the identity. *)
Definition item_digest (kv : string * pyval) : Z :=
  blake2b_int (str kv.2) + blake2b_int kv.1.

Definition total (l : list Z) : Z := foldr Z.add 0 l.

(** The command line as the specification words it: the executable,
    the structure file, the trajectory files and the result file, joined
    by spaces, then for every item a space, the key as it is, a space and
    the value shell-escaped, the elements of a list one by one. *)
Definition escaped_value (val : pyval) : string :=
  match val with
  | PyList vals => join " " (map (fun v => shlex_quote (str v)) vals)
  | _ => shlex_quote (str val)
  end.

Definition spec_command_line (executable structure : string)
    (parts : list string) (result_file : string) (kw : kwargs) : string :=
  join " " (executable :: structure :: parts ++ [result_file])
  +:+ join EmptyString (map (fun kv => " " +:+ kv.1 +:+ " " +:+ escaped_value kv.2) kw).

(** Counting the events of a kind. *)
Definition count (kind : Slurm.event -> bool) (evs : list Slurm.event) : nat :=
  length (List.filter kind evs).

Definition is_acquire (sem : Slurm.semaphore) (e : Slurm.event) : bool :=
  match e with
  | Slurm.EAcquire s => bool_decide (s = sem)
  | _ => false
  end.

Definition is_release (sem : Slurm.semaphore) (e : Slurm.event) : bool :=
  match e with
  | Slurm.ERelease s => bool_decide (s = sem)
  | _ => false
  end.

Definition is_wake_up (sem : Slurm.semaphore) (e : Slurm.event) : bool :=
  match e with
  | Slurm.EWakeUp s => bool_decide (s = sem)
  | _ => false
  end.

(** The events that read or remove a file. *)
Definition reads_or_removes (e : Slurm.event) : bool :=
  match e with
  | Slurm.ERemove _ | Slurm.ENpLoad _ | Slurm.ELoadResults _ => true
  | _ => false
  end.

(** The events on a job handle. *)
Definition on_job (e : Slurm.event) : bool :=
  match e with
  | Slurm.ESubmit _ _ _ | Slurm.ECommunicate _ | Slurm.EKill _ => true
  | _ => false
  end.

Definition removes (path : string) (e : Slurm.event) : bool :=
  match e with
  | Slurm.ERemove q => bool_decide (q = path)
  | _ => false
  end.

Definition is_kill (e : Slurm.event) : bool :=
  match e with
  | Slurm.EKill _ => true
  | _ => false
  end.

(** The events the [finally] clause adds. *)
Definition released (s1 : Slurm.state) : list Slurm.event :=
  match Slurm.slurm_max_job s1 with
  | Some _ => [Slurm.ERelease Slurm.SLURM_MAX_JOB]
  | None => []
  end.

(** [part] occurs in [msg]. *)
Definition carries (msg part : string) : Prop :=
  exists before after, msg = before +:+ part +:+ after.

(** The inputs of the examples. *)
Definition example_function : pyfunction :=
  {| fn_repr := "<function cv at 0x7f>";
     fn_getsource := Ok "def cv(traj): return traj";
     fn_call := fun _ _ => Ok "values" |}.

Definition example_py_wrapper : Py.t :=
  {| Py._id := None; Py._call_kwargs := [];
     Py._func := Some example_function;
     Py._func_src := Some "def cv(traj): return traj" |}.

Definition example_slurm_wrapper : Slurm.t :=
  {| Slurm._id := None; Slurm._call_kwargs := [];
     Slurm._executable := Some "/bin/cv";
     Slurm._slurm_jobname := None;
     Slurm.sbatch_script := "#!/bin/bash
srun {cmd_str}";
     Slurm.load_results_func := None |}.

Definition example_files : filesystem := {[ "/bin/cv" := "#!/bin/sh" ]}.

Definition sourceless_function : pyfunction :=
  {| fn_repr := "<function <lambda> at 0x7f>";
     fn_getsource := Raise (OSError "could not get source code");
     fn_call := fun _ _ => Ok "values" |}.

Definition example_state : Slurm.state :=
  {| Slurm.files := example_files;
     Slurm.max_files_open := 2;
     Slurm.slurm_max_job := Some 1%nat;
     Slurm.trace := [];
     Slurm.slurm_proc := None |}.

Definition example_job : Slurm.SlurmProcess := {| Slurm.slurm_jobid := "4711" |}.

(** The templates of the examples are of the kind [format_cmd_str]
    models, so what [str.format] gives for the others is never asked
    for. *)
Definition no_other_template (template cmd : string) : result string :=
  Raise (ValueError "a template outside the examples").

(** The job writes the array and exits with 0. *)
Definition succeeding : Slurm.scenario :=
  {| Slurm.files_open_wait := Ok tt;
     Slurm.slurm_job_wait := Ok tt;
     Slurm.submit := Ok example_job;
     Slurm.communicate := Ok ("done", "warning: slow", 0);
     Slurm.job_writes :=
       insert "/d/traj.trr_12345_CVfunc_id_None.npy" "array";
     Slurm.str_format := no_other_template |}.

(** The job exits with 7 and has written [boom] to its error stream. *)
Definition failing : Slurm.scenario :=
  {| Slurm.files_open_wait := Ok tt;
     Slurm.slurm_job_wait := Ok tt;
     Slurm.submit := Ok example_job;
     Slurm.communicate := Ok ("started", "boom", 7);
     Slurm.job_writes := fun fs => fs;
     Slurm.str_format := no_other_template |}.

(** The job exits with 7 and has written the byte [0xff], which is no
    UTF-8, to its error stream. *)
Definition failing_undecodable : Slurm.scenario :=
  {| Slurm.files_open_wait := Ok tt;
     Slurm.slurm_job_wait := Ok tt;
     Slurm.submit := Ok example_job;
     Slurm.communicate := Ok ("started", text [ascii_of_nat 255%nat], 7);
     Slurm.job_writes := fun fs => fs;
     Slurm.str_format := no_other_template |}.





(** A custom loader that reads the file and leaves it where it is. *)
Definition reading_loader : Slurm.loader :=
  fun path fs => match fs !! path with
                 | Some data => (Ok data, fs)
                 | None => (Raise (FileNotFoundError path), fs)
                 end.

Definition example_loading_wrapper : Slurm.t :=
  {| Slurm._id := None; Slurm._call_kwargs := [];
     Slurm._executable := Some "/bin/cv";
     Slurm._slurm_jobname := None;
     Slurm.sbatch_script := "#!/bin/bash
srun {cmd_str}";
     Slurm.load_results_func := Some reading_loader |}.

(** The job writes its values, in a format of its own, to the result
    file as named on the command line, and exits with 0. *)
Definition succeeding_custom : Slurm.scenario :=
  {| Slurm.files_open_wait := Ok tt;
     Slurm.slurm_job_wait := Ok tt;
     Slurm.submit := Ok example_job;
     Slurm.communicate := Ok ("done", "warning: slow", 0);
     Slurm.job_writes := insert "/d/traj.trr_12345_CVfunc_id_None" "1.0 2.0";
     Slurm.str_format := no_other_template |}.

Definition example_trajectory : Trajectory :=
  {| structure_file := "/d/conf.gro";
     trajectory_files := ["/d/traj.trr"];
     trajectory_hash := 123456789;
     trajectory_str := "Trajectory(/d/traj.trr)" |}.

(** ** Definitions used to state the further properties *)

(** An assignment to one of the two properties of the local wrapper
    that have a setter. *)
Inductive py_assignment : Type :=
| AssignFunction (f : pyfunction)
| AssignCallKwargs (value : pyobj).

Definition assign (a : py_assignment) : M (heap Py.t) unit :=
  match a with
  | AssignFunction f => Py.function_setter f
  | AssignCallKwargs value => call_kwargs_setter (∅ : filesystem) value
  end.

(** A series of assignments, the caller going on after an assignment
    that raised. *)
Fixpoint assign_all (l : list py_assignment) (h : heap Py.t) : heap Py.t :=
  match l with
  | [] => h
  | a :: l' => assign_all l' (assign a h).2
  end.

(** The source text the wrapper holds is the one of the function it
    holds: the text [inspect.getsource] gives for it, or none when
    that raises. *)
Definition source_current (w : Py.t) : Prop :=
  match Py._func w with
  | None => True
  | Some f => Py._func_src w = match fn_getsource f with
                               | Ok src => Some src
                               | Raise _ => None
                               end
  end.

(** The identity, if there is one, is the one derived from the source
    of the function and the keyword arguments the wrapper holds now. *)
Definition identity_current (w : Py.t) : Prop :=
  source_current w
  /\ (Py._id w = None \/ Py._id w = Some (Py._get_id_str w)).

(** An assignment of a function for which [inspect.getsource] gives the
    source or raises [OSError], or of anything to [call_kwargs]. *)
Definition sourced (a : py_assignment) : bool :=
  match a with
  | AssignFunction f => match fn_getsource f with
                        | Ok _ | Raise (OSError _) => true
                        | Raise _ => false
                        end
  | AssignCallKwargs _ => true
  end.

(** A builtin, for which [inspect.getsource] raises [TypeError]. *)
Definition builtin_function : pyfunction :=
  {| fn_repr := "<built-in function len>";
     fn_getsource := Raise (TypeError
       ("module, class, method, function, traceback, frame, or code object"
        +:+ " was expected, got builtin_function_or_method"));
     fn_call := fun _ _ => Ok "3" |}.

(** Further inputs of the examples. *)
Definition example_ensure (executable : string) : result string :=
  if bool_decide (executable = "cv") then Ok "/bin/cv"
  else if bool_decide (executable = "/opt/tools/cv") then Ok "/opt/tools/cv"
  else Raise (ValueError "executable not found").

Definition example_files_two : filesystem :=
  {[ "/bin/cv" := "#!/bin/sh";
     "/opt/tools/cv" := "#!/bin/sh";
     "/d/submit.slurm" := "#!/bin/bash
srun {cmd_str}" ]}.

(** Counting the events of a kind, for any kind of event. *)
Definition occurrences {E : Type} (kind : E -> bool) (evs : list E) : nat :=
  length (List.filter kind evs).

Definition py_is_acquire (e : PyRun.event) : bool :=
  match e with PyRun.EAcquire => true | _ => false end.

Definition py_is_release (e : PyRun.event) : bool :=
  match e with PyRun.ERelease => true | _ => false end.

Definition py_is_wake_up (e : PyRun.event) : bool :=
  match e with PyRun.EWakeUp => true | _ => false end.

Definition py_is_run (e : PyRun.event) : bool :=
  match e with PyRun.ERunInExecutor _ => true | _ => false end.

Definition is_log (e : Slurm.event) : bool :=
  match e with Slurm.ELogError _ => true | _ => false end.

(** A custom loader that removes the file after reading it. *)
Definition removing_loader : Slurm.loader :=
  fun path fs => match fs !! path with
                 | Some data => (Ok data, delete path fs)
                 | None => (Raise (FileNotFoundError path), fs)
                 end.

Definition example_removing_wrapper : Slurm.t :=
  {| Slurm._id := None; Slurm._call_kwargs := [];
     Slurm._executable := Some "/bin/cv";
     Slurm._slurm_jobname := None;
     Slurm.sbatch_script := "#!/bin/bash
srun {cmd_str}";
     Slurm.load_results_func := Some removing_loader |}.

(** A state without a limit on queued jobs. *)
Definition unlimited_state : Slurm.state :=
  {| Slurm.files := example_files;
     Slurm.max_files_open := 2;
     Slurm.slurm_max_job := None;
     Slurm.trace := [];
     Slurm.slurm_proc := None |}.

(** A state in which a submission script of an earlier call is still
    in the directory of the trajectory. *)
Definition rerun_state : Slurm.state :=
  {| Slurm.files :=
       <["/d/traj.trr_CVfunc_id_None.slurm" := "stale"]> example_files;
     Slurm.max_files_open := 2;
     Slurm.slurm_max_job := None;
     Slurm.trace := [];
     Slurm.slurm_proc := None |}.

(** What the first part of a call computes from [rerun_state], and the
    state it leaves. *)
Definition rerun_submission : Slurm.submission :=
  {| Slurm.tra_dir := "/d";
     Slurm.result_file := "/d/traj.trr_12345_CVfunc_id_None";
     Slurm.sbatch_fname := "/d/traj.trr_CVfunc_id_None.slurm";
     Slurm.script := "#!/bin/bash
srun /bin/cv /d/conf.gro /d/traj.trr /d/traj.trr_12345_CVfunc_id_None" |}.

Definition rerun_prepared : Slurm.state :=
  {| Slurm.files :=
       <["/d/traj.trr_CVfunc_id_None.slurm" := Slurm.script rerun_submission]>
         (Slurm.files rerun_state);
     Slurm.max_files_open := 2;
     Slurm.slurm_max_job := None;
     Slurm.trace :=
       [Slurm.ELogError
          "Overwriting exisiting submission file (/d/traj.trr_CVfunc_id_None.slurm).";
        Slurm.EAcquire Slurm.MAX_FILES_OPEN;
        Slurm.EWrite "/d/traj.trr_CVfunc_id_None.slurm"
          (Slurm.script rerun_submission);
        Slurm.ERelease Slurm.MAX_FILES_OPEN];
     Slurm.slurm_proc := None |}.

(** A text without a slash. *)
Definition no_slash (s : string) : bool :=
  forallb (fun c => negb (is_slash c)) (chars s).

(** An assignment to one of the properties of the SLURM wrapper that
    have a setter. *)
Inductive slurm_assignment : Type :=
| AssignExecutable (val : string)
| AssignSlurmCallKwargs (value : pyobj)
| AssignSlurmJobname (val : option string).

Definition slurm_assign (ensure : string -> result string) (fs : filesystem)
    (a : slurm_assignment) : M (heap Slurm.t) unit :=
  match a with
  | AssignExecutable val => SlurmSetup.executable_setter ensure fs val
  | AssignSlurmCallKwargs value => call_kwargs_setter fs value
  | AssignSlurmJobname val => SlurmSetup.slurm_jobname_setter val
  end.

Fixpoint slurm_assign_all (ensure : string -> result string) (fs : filesystem)
    (l : list slurm_assignment) (h : heap Slurm.t) : heap Slurm.t :=
  match l with
  | [] => h
  | a :: l' => slurm_assign_all ensure fs l' (slurm_assign ensure fs a h).2
  end.

(** Where an identity can be derived from what the wrapper holds now,
    the identity of the wrapper, if there is one, is that one. *)
Definition slurm_identity_current (fs : filesystem) (w : Slurm.t) : Prop :=
  forall i, Slurm._get_id_str fs w = Ok i ->
            Slurm._id w = None \/ Slurm._id w = Some i.

(** * The converters of [convert.py] *)

(** [TrajectoryConcatenator] and the frame extractors read trajectories
    through MDAnalysis and write the frames they select. What MDAnalysis
    and the file system do is given by an [environment]; the control
    flow of the two methods, their checks, their local variables and the
    order of their calls are those of the source. A slice gives its
    frames at once, so a reader that fails in the middle of a slice is
    outside the model, and so is [RandomVelocitiesFrameExtractor], which
    draws the velocities at random. *)
Module Convert.

Section MDAnalysis.

(** [time_t] is the type of [ts.data["time"]]; [atoms] is what
    [W.write(u.atoms)] writes of the current frame besides its time:
    the positions and the velocities. *)
Context {time_t atoms : Type}.

(** The current timestep of a reader. *)
Record frame : Type := {
  data_time : option time_t;
  frame_atoms : atoms
}.

(** An [mda.Universe]: its number of atoms and the frames of
    [u.trajectory]. *)
Record universe : Type := {
  n_atoms : nat;
  trajectory : list frame
}.

(** An element of [slices]: a tuple [(start, stop, step)] of integers
    or [None]. *)
Definition slice_t : Type := option Z * option Z * option Z.

(** What the calls into [os.path], MDAnalysis and the [Trajectory]
    class give: [select] is [u.trajectory[start:stop:step]], [frame_at]
    is [u.trajectory[idx]], [invert] is [velocities *= -1] on the
    current frame, [time_eq] is [==] on times. *)
Record environment : Type := {
  time_eq : time_t -> time_t -> bool;
  abspath : string -> string;
  path_exists : string -> bool;
  path_isfile : string -> bool;
  Universe : string -> list string -> result universe;
  select : list frame -> slice_t -> result (list frame);
  frame_at : list frame -> Z -> result frame;
  invert : atoms -> result atoms;
  Writer : string -> nat -> result unit;
  new_Trajectory : string -> string -> result Trajectory
}.

(** What a call does to the outside, in order. *)
Inductive event : Type :=
| EUniverse (structure_file : string) (trajectory_files : list string)
| EWriter (path : string) (n_atoms : nat)
| EWrite (ts : frame)
| EClose.

Record TrajectoryConcatenator : Type := {
  invert_v_for_negative_step : bool
}.

(** [__init__(invert_v_for_negative_step=True)]. *)
Definition __init__ (invert_v_for_negative_step : option bool)
    : TrajectoryConcatenator :=
  {| invert_v_for_negative_step := default true invert_v_for_negative_step |}.

(** The subclasses of [FrameExtractor] implement [apply_modification],
    which changes the current frame in place. *)
Class FrameExtractor (X : Type) : Type := {
  apply_modification : X -> environment -> universe -> frame -> result frame
}.

Definition emit (e : event) : M (list event) unit :=
  modify (fun tr => tr ++ [e]).

(** [velocities *= -1]: the time of the frame stays. *)
Definition invert_velocities (env : environment) (ts : frame) : result frame :=
  match invert env (frame_atoms ts) with
  | Ok a => Ok {| data_time := data_time ts; frame_atoms := a |}
  | Raise e => Raise e
  end.

Inductive NoModificationFrameExtractor : Type := NoModification.

Inductive InvertedVelocitiesFrameExtractor : Type := InvertedVelocities.

#[global] Instance no_modification
    : FrameExtractor NoModificationFrameExtractor :=
  Build_FrameExtractor _ (fun _ _ _ ts => Ok ts).

#[global] Instance inverted_velocities
    : FrameExtractor InvertedVelocitiesFrameExtractor :=
  Build_FrameExtractor _ (fun _ env _ ts => invert_velocities env ts).

Section Calls.

Variable env : environment.

(** [mda.Universe(traj.structure_file, *traj.trajectory_files,
    tpr_resid_from_one=True)]. *)
Definition open_universe (traj : Trajectory) : M (list event) universe :=
  (u <- lift (Universe env (structure_file traj) (trajectory_files traj)) ;;
   emit (EUniverse (structure_file traj) (trajectory_files traj)) ;;;
   ret u)%py.

(** [with mda.Writer(path, n_atoms=n) as W: body]. *)
Definition with_writer {A} (path : string) (n : nat)
    (body : M (list event) A) : M (list event) A :=
  (lift (Writer env path n) ;;;
   emit (EWriter path n) ;;;
   try_finally body (emit EClose))%py.

(** [if self.invert_v_for_negative_step and step < 0: velocities *= -1]. *)
Definition invert_if_negative (self : TrajectoryConcatenator)
    (step : option Z) (ts : frame) : result frame :=
  if invert_v_for_negative_step self
  then match step with
       | None =>
           Raise (TypeError
             "'<' not supported between instances of 'NoneType' and 'int'")
       | Some z => if z <? 0 then invert_velocities env ts else Ok ts
       end
  else Ok ts.

(** [ts.data["time"]]. *)
Definition time_of (ts : frame) : result time_t :=
  match data_time ts with
  | Some t => Ok t
  | None => Raise (KeyError "time")
  end.

(** [if remove_double_frames: last_time_seen = ts.data["time"]]; the
    local [last_time_seen] is [None] as long as it is not bound. *)
Definition remember (remove_double_frames : bool) (ts : frame)
    (last_time_seen : option time_t) : M (list event) (option time_t) :=
  if remove_double_frames
  then (t <- lift (time_of ts) ;; ret (Some t))%py
  else ret last_time_seen.

(** The loop over the frames of the first trajectory. *)
Fixpoint first_frames (self : TrajectoryConcatenator) (step0 : option Z)
    (remove_double_frames : bool) (frames : list frame)
    (last_time_seen : option time_t) : M (list event) (option time_t) :=
  match frames with
  | [] => ret last_time_seen
  | ts :: frames =>
      (ts <- lift (invert_if_negative self step0 ts) ;;
       emit (EWrite ts) ;;;
       last_time_seen <- remember remove_double_frames ts last_time_seen ;;
       first_frames self step0 remove_double_frames frames last_time_seen)%py
  end.

(** [if remove_double_frames: if last_time_seen == ts.data["time"]:
    continue]. *)
Definition is_double (remove_double_frames : bool) (ts : frame)
    (last_time_seen : option time_t) : M (list event) bool :=
  if remove_double_frames
  then match last_time_seen with
       | None => raise (UnboundLocalError "last_time_seen")
       | Some seen => (t <- lift (time_of ts) ;; ret (time_eq env seen t))%py
       end
  else ret false.

(** The loop over the frames of a later trajectory. *)
Fixpoint later_frames (self : TrajectoryConcatenator) (step : option Z)
    (remove_double_frames : bool) (frames : list frame)
    (last_time_seen : option time_t) : M (list event) (option time_t) :=
  match frames with
  | [] => ret last_time_seen
  | ts :: frames =>
      (double <- is_double remove_double_frames ts last_time_seen ;;
       if (double : bool)
       then later_frames self step remove_double_frames frames last_time_seen
       else
         ts <- lift (invert_if_negative self step ts) ;;
         emit (EWrite ts) ;;;
         last_time_seen <- remember remove_double_frames ts last_time_seen ;;
         later_frames self step remove_double_frames frames last_time_seen)%py
  end.

(** [for traj, sl in zip(trajs[1:], slices[1:])]. *)
Fixpoint later_trajs (self : TrajectoryConcatenator)
    (remove_double_frames : bool) (pairs : list (Trajectory * slice_t))
    (last_time_seen : option time_t) : M (list event) (option time_t) :=
  match pairs with
  | [] => ret last_time_seen
  | (traj, (start, stop, step)) :: pairs =>
      (u <- open_universe traj ;;
       frames <- lift (select env (trajectory u) (start, stop, step)) ;;
       last_time_seen <- later_frames self step remove_double_frames frames
                           last_time_seen ;;
       later_trajs self remove_double_frames pairs last_time_seen)%py
  end.

(** [l[0]]. *)
Definition first_item {A} (l : list A) : result A :=
  match l with
  | x :: _ => Ok x
  | [] => Raise (IndexError "list index out of range")
  end.

(** [struct_out = (traj.structure_file if struct_out is None else
    os.path.abspath(struct_out))]. *)
Definition structure_or (traj : result Trajectory) (struct_out : option string)
    : result string :=
  match struct_out with
  | None => match traj with
            | Ok traj => Ok (structure_file traj)
            | Raise e => Raise e
            end
  | Some path => Ok (abspath env path)
  end.

Definition concatenate (self : TrajectoryConcatenator)
    (trajs : list Trajectory) (slices : list slice_t) (tra_out : string)
    (struct_out : option string) (overwrite remove_double_frames : bool)
    : M (list event) Trajectory :=
  let tra_out := abspath env tra_out in
  if path_exists env tra_out && negb overwrite
  then raise (ValueError ("overwrite=False and tra_out exists: " +:+ tra_out))
  else
    (struct_out <- lift (structure_or (first_item trajs) struct_out) ;;
     if negb (path_isfile env struct_out)
     then raise (ValueError ("Output structure file must exist ("
                             +:+ struct_out +:+ ")."))
     else
       traj0 <- lift (first_item trajs) ;;
       u0 <- open_universe traj0 ;;
       slice0 <- lift (first_item slices) ;;
       let '(start0, stop0, step0) := (slice0 : slice_t) in
       with_writer tra_out (n_atoms u0)
         (frames <- lift (select env (trajectory u0) (start0, stop0, step0)) ;;
          last_time_seen <- first_frames self step0 remove_double_frames
                              frames None ;;
          later_trajs self remove_double_frames
            (zip (tail trajs) (tail slices)) last_time_seen) ;;;
       lift (new_Trajectory env tra_out struct_out))%py.

(** [FrameExtractor.extract]. *)
Definition extract {X} `{FrameExtractor X} (self : X) (outfile : string)
    (traj_in : Trajectory) (idx : Z) (struct_out : option string)
    (overwrite : bool) : M (list event) Trajectory :=
  let outfile := abspath env outfile in
  if path_exists env outfile && negb overwrite
  then raise (ValueError ("overwrite=False but outfile=" +:+ outfile
                          +:+ " exists."))
  else
    (struct_out <- lift (structure_or (Ok traj_in) struct_out) ;;
     if negb (path_isfile env struct_out)
     then raise (ValueError ("Output structure file must exist."
                             +:+ "(given struct_out is " +:+ struct_out
                             +:+ ")."))
     else
       u <- open_universe traj_in ;;
       with_writer outfile (n_atoms u)
         (ts <- lift (frame_at env (trajectory u) idx) ;;
          ts <- lift (apply_modification self env u ts) ;;
          emit (EWrite ts)) ;;;
       lift (new_Trajectory env outfile struct_out))%py.

End Calls.

End MDAnalysis.

End Convert.

(** ** Definitions used to state the properties of the converters *)

Section ConvertStatements.

Context {time_t atoms : Type}.

(** The frames a call has written, in order. *)
Definition written (evs : list (@Convert.event time_t atoms))
    : list (@Convert.frame time_t atoms) :=
  flat_map (fun e => match e with Convert.EWrite ts => [ts] | _ => [] end) evs.

(** The trajectories a call has opened, in order. *)
Definition opened (evs : list (@Convert.event time_t atoms))
    : list (string * list string) :=
  flat_map (fun e => match e with
                     | Convert.EUniverse s fs => [(s, fs)]
                     | _ => []
                     end) evs.

(** The writers a call has opened, and how often it has closed one. *)
Definition writers (evs : list (@Convert.event time_t atoms))
    : list (string * nat) :=
  flat_map (fun e => match e with
                     | Convert.EWriter path n => [(path, n)]
                     | _ => []
                     end) evs.

Definition closed (evs : list (@Convert.event time_t atoms)) : nat :=
  occurrences (fun e => match e with Convert.EClose => true | _ => false end)
    evs.

(** [f] on every element of [l], or the first exception. *)
Fixpoint all_ok {A B} (f : A -> result B) (l : list A) : result (list B) :=
  match l with
  | [] => Ok []
  | x :: l => match f x with
              | Ok y => match all_ok f l with
                        | Ok ys => Ok (y :: ys)
                        | Raise e => Raise e
                        end
              | Raise e => Raise e
              end
  end.

(** What one trajectory has to give: the frames its slice selects, with
    the velocities inverted where the concatenator is told to. *)
Definition contribution (env : @Convert.environment time_t atoms)
    (self : Convert.TrajectoryConcatenator)
    (pair : Trajectory * Convert.slice_t)
    : result (list (@Convert.frame time_t atoms)) :=
  match Convert.Universe env (structure_file pair.1)
          (trajectory_files pair.1) with
  | Ok u =>
      match Convert.select env (Convert.trajectory u) pair.2 with
      | Ok frames =>
          all_ok (Convert.invert_if_negative env self pair.2.2) frames
      | Raise e => Raise e
      end
  | Raise e => Raise e
  end.

Definition has_time (ts : @Convert.frame time_t atoms) : bool :=
  match Convert.data_time ts with
  | Some _ => true
  | None => false
  end.

(** One pass over [frames] that leaves out every frame whose time is the
    time [seen] of the frame kept last. *)
Fixpoint without_double_frames (env : @Convert.environment time_t atoms)
    (seen : time_t) (frames : list (@Convert.frame time_t atoms))
    : list (@Convert.frame time_t atoms) :=
  match frames with
  | [] => []
  | ts :: frames =>
      match Convert.data_time ts with
      | Some t =>
          if Convert.time_eq env seen t
          then without_double_frames env seen frames
          else ts :: without_double_frames env t frames
      | None => []
      end
  end.

(** The time a pass of [without_double_frames] has seen last. *)
Fixpoint seen_after (env : @Convert.environment time_t atoms)
    (seen : time_t) (frames : list (@Convert.frame time_t atoms)) : time_t :=
  match frames with
  | [] => seen
  | ts :: frames =>
      match Convert.data_time ts with
      | Some t =>
          if Convert.time_eq env seen t
          then seen_after env seen frames
          else seen_after env t frames
      | None => seen
      end
  end.

(** The structure file of the output: the one given, or the one of the
    first trajectory. *)
Definition structure_of (env : @Convert.environment time_t atoms)
    (traj : Trajectory) (struct_out : option string) : string :=
  match struct_out with
  | None => structure_file traj
  | Some path => Convert.abspath env path
  end.

(** What [mda.Universe] is called with for a trajectory. *)
Definition universe_of (traj : Trajectory) : string * list string :=
  (structure_file traj, trajectory_files traj).

End ConvertStatements.

(** A trajectory of three frames, two of them at the same time, read by
    an environment in which only the structure file [/d/conf.gro]
    exists; a frame holds its time and one velocity. *)
Definition example_frames : list (@Convert.frame Z Z) :=
  [ {| Convert.data_time := Some 0; Convert.frame_atoms := 5 |};
    {| Convert.data_time := Some 2; Convert.frame_atoms := 7 |};
    {| Convert.data_time := Some 2; Convert.frame_atoms := 7 |} ].

Definition example_environment : @Convert.environment Z Z :=
  {| Convert.time_eq := Z.eqb;
     Convert.abspath := fun path => path;
     Convert.path_exists := fun path => bool_decide (path = "/d/conf.gro");
     Convert.path_isfile := fun path => bool_decide (path = "/d/conf.gro");
     Convert.Universe := fun _ _ =>
       Ok {| Convert.n_atoms := 1; Convert.trajectory := example_frames |};
     Convert.select := fun frames sl =>
       match sl with
       | (Some start, _, Some step) =>
           if step <? 0 then Ok (rev frames)
           else Ok (drop (Z.to_nat start) frames)
       | _ => Ok frames
       end;
     Convert.frame_at := fun frames idx =>
       match frames !! Z.to_nat idx with
       | Some ts => Ok ts
       | None => Raise (IndexError "Index out of range")
       end;
     Convert.invert := fun v => Ok (- v);
     Convert.Writer := fun _ _ => Ok tt;
     Convert.new_Trajectory := fun out struct =>
       Ok {| structure_file := struct; trajectory_files := [out];
             trajectory_hash := 1; trajectory_str := "Trajectory(" +:+ out +:+ ")" |}
  |}.

(** Slices: all frames forwards, all frames backwards, no frame, and
    all frames with the step left out. *)
Definition forwards : Convert.slice_t := (Some 0, None, Some 1).
Definition backwards : Convert.slice_t := (Some 0, None, Some (-1)).
Definition beyond : Convert.slice_t := (Some 3, None, Some 1).
Definition stepless : Convert.slice_t := (Some 0, None, None).

(** * Properties *)

(** ** The library models on the values Python gives *)

Example blake2b_empty :
  blake2b_int EmptyString
  = 6306598550149944015421624189785550927981273747099624776611519770458234277340300135634939346361634048100149086642887696994709965243464894797259554879693518.
Proof. vm_compute. reflexivity. Qed.

Example blake2b_abc :
  blake2b_int "abc"
  = 9767929635145897651357867310702489094230137827829556585475146790646704761094065329856848997729822767409914274787220536127246564102126572212307670039828771.
Proof. vm_compute. reflexivity. Qed.

(** A message of more than one block. *)
Example blake2b_129_bytes :
  Blake2b.hexdigest_int (repeat 97 129)
  = 4499045964685828599979187525959874358878741013237476710189329118723456522451911870052755040389814953327751033517864022827030415027487567297738919359750955.
Proof. vm_compute. reflexivity. Qed.

Example str_of_list :
  str (PyList [PyInt 1; PyStr "a'b"; PyBool true; PyList [PyNone; PyInt (-3)]])
  = text ([ "["; "1"; ","; " "]%char ++ [dquote; "a"%char; squote; "b"%char; dquote]
          ++ chars ", True, [None, -3]]").
Proof. vm_compute. reflexivity. Qed.

Example shlex_quote_plain : shlex_quote "abc-1.0/x" = "abc-1.0/x".
Proof. vm_compute. reflexivity. Qed.

Example shlex_quote_space : shlex_quote "name CA" = "'name CA'".
Proof. vm_compute. reflexivity. Qed.

Example os_path_split_file : os_path_split "/a/b/c.trr" = ("/a/b", "c.trr").
Proof. vm_compute. reflexivity. Qed.

Example os_path_split_bare : os_path_split "c.trr" = (EmptyString, "c.trr").
Proof. vm_compute. reflexivity. Qed.

Example os_path_split_root : os_path_split "//c.trr" = ("//", "c.trr").
Proof. vm_compute. reflexivity. Qed.

Example os_path_join_plain : os_path_join "/a/b" "c" = "/a/b/c".
Proof. vm_compute. reflexivity. Qed.

Example os_path_join_empty : os_path_join EmptyString "c" = "c".
Proof. vm_compute. reflexivity. Qed.

Example format_cmd_str_braces :
  format_cmd_str "srun {cmd_str} {{x}}" "exe a b"
  = Some (Ok "srun exe a b {x}").
Proof. vm_compute. reflexivity. Qed.

Example format_cmd_str_other_field :
  format_cmd_str "srun {cmd}" "exe a b" = Some (Raise (KeyError "cmd")).
Proof. vm_compute. reflexivity. Qed.

Example format_cmd_str_single_brace :
  format_cmd_str "srun {cmd_str} }" "exe a b"
  = Some (Raise (ValueError "Single '}' encountered in format string")).
Proof. vm_compute. reflexivity. Qed.

(** The first error counts, also before a field that is not modelled. *)
Example format_cmd_str_first_error :
  format_cmd_str "{cmd} {cmd_str!r}" "exe a b" = Some (Raise (KeyError "cmd")).
Proof. vm_compute. reflexivity. Qed.

(** Conversions, format specifications, attributes, indices, empty and
    numeric fields are left to [str.format]. *)
Example format_cmd_str_not_modelled :
  map (fun template => format_cmd_str template "exe a b")
    ["{cmd_str!s}"; "{cmd_str:>5}"; "{cmd_str[0]}"; "{cmd_str.x}"; "{}";
     "{0}"; "{a{b}"]
  = [None; None; None; None; None; None; None].
Proof. vm_compute. reflexivity. Qed.

Example decode_text : decode "done" = Ok "done".
Proof. vm_compute. reflexivity. Qed.

(** The byte [0xff] starts no character, and [0xc0 0x80] is an overlong
    form. *)
Example decode_invalid_byte :
  decode (text [ascii_of_nat 255%nat]) = Raise UnicodeDecodeError.
Proof. vm_compute. reflexivity. Qed.

Example decode_overlong :
  decode (text [ascii_of_nat 192%nat; ascii_of_nat 128%nat]) = Raise UnicodeDecodeError.
Proof. vm_compute. reflexivity. Qed.

(** [repr] of a text with the characters U+00E9 (printable), U+00A0 and
    U+2028 (not printable) and U+E0001 (a tag character). *)
Example repr_not_ascii :
  repr (PyStr (text (map ascii_of_nat
                       [195; 169; 194; 160; 226; 128; 168;
                        243; 160; 128; 129]%nat)))
  = text ([squote] ++ map ascii_of_nat [195; 169]%nat
          ++ [backslash] ++ chars "xa0"
          ++ [backslash] ++ chars "u2028"
          ++ [backslash] ++ chars "U000e0001" ++ [squote]).
Proof. vm_compute. reflexivity. Qed.

#[global] Opaque blake2b_int.

(** ** Decimal rendering and the sum of digests *)

Lemma to_int_round_trip (z : Z) :
  NilZero.int_of_string (str_int z) = Some (Z.to_int z).
Proof.
  unfold str_int. apply NilZero.isi; destruct z; simpl; try discriminate;
    intros [=E]; exact (DecimalPos.Unsigned.to_uint_nonnil _ E).
Qed.

Lemma str_int_inj (z z' : Z) : str_int z = str_int z' -> z = z'.
Proof.
  intros E. apply DecimalZ.to_int_inj.
  pose proof (to_int_round_trip z) as Hz.
  rewrite E, to_int_round_trip in Hz. congruence.
Qed.

Lemma digest_fold_from (kw : kwargs) (a : Z) :
  fold_left (fun id kv => id + blake2b_int (str kv.2) + blake2b_int kv.1) kw a
  = a + total (map item_digest kw).
Proof.
  revert a. induction kw as [|kv kw IH]; intros a; simpl.
  - lia.
  - rewrite IH. unfold item_digest. lia.
Qed.

Lemma kwargs_digest_sum_total (kw : kwargs) :
  kwargs_digest_sum kw = total (map item_digest kw).
Proof. unfold kwargs_digest_sum. rewrite digest_fold_from. lia. Qed.

Lemma total_app (l l' : list Z) : total (l ++ l') = total l + total l'.
Proof. induction l as [|x l IH]; simpl; lia. Qed.

Lemma total_Permutation (l l' : list Z) : Permutation l l' -> total l = total l'.
Proof. induction 1; simpl; lia. Qed.

Lemma kwargs_digest_sum_Permutation (kw kw' : kwargs) :
  Permutation kw kw' -> kwargs_digest_sum kw = kwargs_digest_sum kw'.
Proof.
  intros P. rewrite !kwargs_digest_sum_total.
  apply total_Permutation, Permutation_map, P.
Qed.

Lemma kwargs_digest_sum_value (pre post : kwargs) (k : string) (v v' : pyval) :
  kwargs_digest_sum (pre ++ (k, v') :: post)
  = kwargs_digest_sum (pre ++ (k, v) :: post)
    + blake2b_int (str v') - blake2b_int (str v).
Proof.
  rewrite !kwargs_digest_sum_total, !map_app, !total_app. simpl.
  unfold item_digest. simpl. lia.
Qed.

(** ** Identity derivation (C2) *)

(** C2, as the code has it: the identity is a function of the content
    and of the items alone, whatever else the wrapper holds; a
    permutation of the items leaves it unchanged, for both wrappers; replacing the value of one item by a value whose
    textual representation has another digest changes it, and so does
    replacing the content (the source text, the bytes of the executable)
    by one with another digest. *)
Theorem get_id_str_order_and_digests
    (w : Py.t) (sw : Slurm.t) (fs : filesystem)
    (kw kw' pre post : kwargs) (k : string) (v v' : pyval)
    (src' : option string) (exe data data' : string)
    (Hperm : Permutation kw kw')
    (Hv : blake2b_int (str v) <> blake2b_int (str v'))
    (Hsrc : blake2b_int (str_opt (Py._func_src w))
            <> blake2b_int (str_opt src'))
    (Hexe : Slurm._executable sw = Some exe)
    (Hfile : fs !! exe = Some data)
    (Hdata : blake2b_int data <> blake2b_int data') :
  ((forall w', Py._call_kwargs w' = Py._call_kwargs w ->
               Py._func_src w' = Py._func_src w ->
               Py._get_id_str w' = Py._get_id_str w)
   /\ (forall sw' fs', Slurm._call_kwargs sw' = Slurm._call_kwargs sw ->
                       Slurm._executable sw' = Some exe ->
                       fs' !! exe = Some data ->
                       Slurm._get_id_str fs' sw' = Slurm._get_id_str fs sw))
  /\ (Py._get_id_str (Py.set_call_kwargs kw w)
   = Py._get_id_str (Py.set_call_kwargs kw' w)
   /\ Slurm._get_id_str fs (Slurm.set_call_kwargs kw sw)
      = Slurm._get_id_str fs (Slurm.set_call_kwargs kw' sw))
  /\ (Py._get_id_str (Py.set_call_kwargs (pre ++ (k, v) :: post) w)
      <> Py._get_id_str (Py.set_call_kwargs (pre ++ (k, v') :: post) w)
      /\ Slurm._get_id_str fs (Slurm.set_call_kwargs (pre ++ (k, v) :: post) sw)
         <> Slurm._get_id_str fs
              (Slurm.set_call_kwargs (pre ++ (k, v') :: post) sw))
  /\ (Py._get_id_str w <> Py._get_id_str (Py.set_func_src src' w)
      /\ Slurm._get_id_str fs sw
         <> Slurm._get_id_str (<[exe := data']> fs) sw).
Proof.
  split.
  { split.
    - intros w' Ekw Esrc. unfold Py._get_id_str. now rewrite Ekw, Esrc.
    - intros sw' fs' Ekw Eexe Efile.
      unfold Slurm._get_id_str, Slurm.read_binary, Slurm.executable.
      now rewrite Ekw, Eexe, Efile, Hexe, Hfile. }
  unfold Py._get_id_str, Slurm._get_id_str, Slurm.read_binary, Slurm.executable.
  simpl. rewrite Hexe. simpl. rewrite Hfile, lookup_insert_eq.
  repeat split.
  - now rewrite (kwargs_digest_sum_Permutation kw kw').
  - now rewrite (kwargs_digest_sum_Permutation kw kw').
  - intros E%str_int_inj.
    rewrite (kwargs_digest_sum_value pre post k v v') in E. lia.
  - intros [=E%str_int_inj].
    rewrite (kwargs_digest_sum_value pre post k v v') in E. lia.
  - intros E%str_int_inj. lia.
  - intros [=E%str_int_inj]. lia.
Qed.

Lemma get_id_str_order_and_digests_witness :
  (Py._get_id_str
     (Py.set_call_kwargs [("-a", PyInt 1); ("-b", PyStr "x")] example_py_wrapper)
   = Py._get_id_str
       (Py.set_call_kwargs [("-b", PyStr "x"); ("-a", PyInt 1)] example_py_wrapper))
  /\ Py._get_id_str
       (Py.set_call_kwargs ([("-a", PyInt 1)] ++ ("-b", PyStr "x") :: [])
          example_py_wrapper)
     <> Py._get_id_str
          (Py.set_call_kwargs ([("-a", PyInt 1)] ++ ("-b", PyStr "y") :: [])
             example_py_wrapper).
Proof.
  assert (Hp : Permutation [("-a", PyInt 1); ("-b", PyStr "x")]
                           [("-b", PyStr "x"); ("-a", PyInt 1)])
    by apply perm_swap.
  assert (Hv : blake2b_int (str (PyStr "x")) <> blake2b_int (str (PyStr "y")))
    by (vm_compute; discriminate).
  assert (Hs : blake2b_int (str_opt (Py._func_src example_py_wrapper))
               <> blake2b_int (str_opt None))
    by (vm_compute; discriminate).
  assert (Hd : blake2b_int "#!/bin/sh" <> blake2b_int "#!/bin/bash")
    by (vm_compute; discriminate).
  destruct (get_id_str_order_and_digests
              example_py_wrapper example_slurm_wrapper example_files
              [("-a", PyInt 1); ("-b", PyStr "x")]
              [("-b", PyStr "x"); ("-a", PyInt 1)]
              [("-a", PyInt 1)] [] "-b" (PyStr "x") (PyStr "y")
              None "/bin/cv" "#!/bin/sh" "#!/bin/bash"
              Hp Hv Hs eq_refl eq_refl Hd)
    as [_ [[H1 _] [[H2 _] _]]].
  split; [exact H1 | exact H2].
Defined.

(** C2 as stated fails: the values [1] and ['1'] differ, but their
    textual representation is the same, and so is the identity. *)
Lemma get_id_str_same_text_counterexample :
  PyInt 1 <> PyStr "1"
  /\ Py._get_id_str (Py.set_call_kwargs [("-n", PyInt 1)] example_py_wrapper)
     = Py._get_id_str (Py.set_call_kwargs [("-n", PyStr "1")] example_py_wrapper).
Proof. split; [discriminate | reflexivity]. Qed.

(** ** The entry point [__call__] (C1) *)

(** C1, as the code has it: with an identity and a trajectory every
    wrapper hands the call to the trajectory's [_apply_wrapped_func],
    with the identity and itself; without an identity the SLURM wrapper,
    which inherits [__call__], raises [TypeError] whatever it is called
    with, while the local wrapper calls the wrapped function on the
    argument with the stored keyword arguments. *)
Theorem call_with_and_without_identity
    (apply_slurm : Trajectory -> string -> Slurm.t -> result ndarray)
    (apply_py : Trajectory -> string -> Py.t -> result ndarray)
    (sw : Slurm.t) (pw : Py.t) (f : pyfunction)
    (traj : Trajectory) (i : string) (value : pyobj) :
  Slurm.__call__ apply_slurm (Slurm.set_id (Some i) sw) (OTrajectory traj)
  = apply_slurm traj i (Slurm.set_id (Some i) sw)
  /\ Py.__call__ apply_py (Py.set_id (Some i) pw) (OTrajectory traj)
     = apply_py traj i (Py.set_id (Some i) pw)
  /\ (exists msg,
        Slurm.__call__ apply_slurm (Slurm.set_id None sw) value
        = Raise (TypeError msg))
  /\ Py.__call__ apply_py (Py.set_func (Some f) (Py.set_id None pw)) value
     = fn_call f value (Py._call_kwargs pw).
Proof.
  repeat split.
  - unfold Slurm.__call__, base_call. simpl. eexists.
    destruct value; reflexivity.
  - unfold Py.__call__. simpl. destruct value; reflexivity.
Qed.

(** C1 as stated fails for the local wrapper: without an identity the
    call returns what the wrapped function returns. *)
Lemma py_call_without_identity_counterexample :
  id (Py.set_id None example_py_wrapper) = None
  /\ Py.__call__ (fun _ _ _ => Raise (KeyError "no cache"))
       (Py.set_id None example_py_wrapper)
       (OTrajectory example_trajectory)
     = Ok "values".
Proof. split; reflexivity. Qed.

(** ** The setter of [function] (C7) *)

(** C7, as the code has it: when [inspect.getsource] raises [OSError]
    the setter raises nothing; it leaves source text and identity
    undefined, logs a warning and stores the function. *)
Theorem function_setter_without_source
    (name msg : string) (call : pyobj -> kwargs -> result ndarray)
    (h : heap Py.t) :
  let f := {| fn_repr := name; fn_getsource := Raise (OSError msg);
              fn_call := call |} in
  Py.function_setter f h
  = (Ok tt,
     {| self := {| Py._id := None;
                   Py._call_kwargs := Py._call_kwargs (self h);
                   Py._func := Some f;
                   Py._func_src := None |};
        logged := logged h
                  ++ ["Could not retrieve source for " +:+ name +:+ "."
                      +:+ " No caching can/will be performed."] |}).
Proof. reflexivity. Qed.

(** C7 as stated fails: no error is raised when the function is set. *)
Lemma function_setter_raises_nothing_counterexample :
  fn_getsource sourceless_function = Raise (OSError "could not get source code")
  /\ (Py.function_setter sourceless_function Py.blank).1 = Ok tt.
Proof. split; reflexivity. Qed.

(** The constructor goes on to assign [call_kwargs], whose setter derives
    an identity from the text of [None]: the wrapper built from a function
    without source has an identity. *)
Lemma init_without_source_has_identity :
  Py._id (self (Py.__init__ sourceless_function (ODict Dict []) Py.blank).2)
  = Some (str_int (blake2b_int "None")).
Proof. reflexivity. Qed.

(** ** The setter of [call_kwargs] (C9) *)



(** ** The command line (C8) *)

Lemma append_cons (x : ascii) (a b : string) :
  String x a +:+ b = String x (a +:+ b).
Proof. reflexivity. Qed.

Lemma append_assoc (a b c : string) : (a +:+ b) +:+ c = a +:+ b +:+ c.
Proof.
  induction a as [|x a IH]; [reflexivity|].
  rewrite !append_cons. now rewrite IH.
Qed.

Lemma append_empty_r (a : string) : a +:+ EmptyString = a.
Proof.
  induction a as [|x a IH]; [reflexivity|].
  rewrite append_cons. now rewrite IH.
Qed.

Lemma join_cons (sep x : string) (l : list string) :
  l <> [] -> join sep (x :: l) = x +:+ sep +:+ join sep l.
Proof. destruct l; [congruence | reflexivity]. Qed.

Lemma join_snoc (sep y : string) (l : list string) :
  l <> [] -> join sep (l ++ [y]) = join sep l +:+ sep +:+ y.
Proof.
  induction l as [|x l IH]; [congruence|]. intros _.
  destruct l as [|x' l].
  - reflexivity.
  - change ((x :: x' :: l) ++ [y]) with (x :: ((x' :: l) ++ [y])).
    rewrite join_cons by (simpl; discriminate).
    rewrite IH by discriminate.
    rewrite (join_cons sep x (x' :: l)) by discriminate.
    now rewrite !append_assoc.
Qed.

Lemma join_empty_cons (x : string) (l : list string) :
  join EmptyString (x :: l) = x +:+ join EmptyString l.
Proof. destruct l; simpl; [now rewrite append_empty_r | reflexivity]. Qed.

Lemma fold_fragments (frag : string * pyval -> string) (kw : kwargs)
    (cmd : string) :
  fold_left (fun c kv => c +:+ frag kv) kw cmd = cmd +:+ join EmptyString (map frag kw).
Proof.
  revert cmd. induction kw as [|kv kw IH]; intros cmd.
  - simpl. now rewrite append_empty_r.
  - change (fold_left _ (kv :: kw) cmd)
      with (fold_left (fun c kv => c +:+ frag kv) kw (cmd +:+ frag kv)).
    rewrite IH, map_cons, join_empty_cons. now rewrite append_assoc.
Qed.

Lemma kwarg_fragment_escaped (key : string) (val : pyval) :
  Slurm.kwarg_fragment key val = " " +:+ key +:+ " " +:+ escaped_value val.
Proof. destruct val; reflexivity. Qed.

(** C8: for a trajectory with at least one file (the call fails before
    it builds a command line otherwise) the command line is the
    executable, the structure file, the trajectory files and the result
    file in this order, separated by spaces, followed for every item of
    [call_kwargs], in their order, by a space, the key unchanged, a space
    and the escaped value. *)
Theorem build_cmd_str_layout (w : Slurm.t) (traj : Trajectory)
    (result_file : string) (Hfiles : trajectory_files traj <> []) :
  Slurm.build_cmd_str w traj result_file
  = spec_command_line (str_opt (Slurm.executable w)) (structure_file traj)
      (trajectory_files traj) result_file (call_kwargs w).
Proof.
  unfold Slurm.build_cmd_str, spec_command_line.
  rewrite (fold_fragments (fun kv => Slurm.kwarg_fragment kv.1 kv.2)).
  f_equal.
  - rewrite join_cons by discriminate.
    rewrite join_cons by (destruct (trajectory_files traj); discriminate).
    rewrite join_snoc by assumption.
    now rewrite !append_assoc.
  - f_equal. apply map_ext. intros [k v]. apply kwarg_fragment_escaped.
Qed.

Lemma build_cmd_str_layout_witness :
  Slurm.build_cmd_str
    (Slurm.set_call_kwargs
       [("--cut", PyInt 3); ("--sel", PyList [PyStr "name CA"; PyStr "x'y"])]
       example_slurm_wrapper)
    example_trajectory "/d/traj.trr_12345_CVfunc_id_None"
  = "/bin/cv /d/conf.gro /d/traj.trr /d/traj.trr_12345_CVfunc_id_None"
    +:+ " --cut 3 --sel 'name CA' "
    +:+ text [squote; "x"%char; squote; dquote; squote; dquote; squote;
              "y"%char; squote].
Proof.
  rewrite (build_cmd_str_layout _ example_trajectory _); [reflexivity|].
  simpl. discriminate.
Defined.

(** ** Running [get_values_for_trajectory] *)

Lemma carries_end (x : string) : carries x x.
Proof. exists EmptyString, EmptyString. now rewrite append_empty_r. Qed.

Lemma carries_here (x rest : string) : carries (x +:+ rest) x.
Proof. now exists EmptyString, rest. Qed.

Lemma carries_later (a msg x : string) : carries msg x -> carries (a +:+ msg) x.
Proof.
  intros (before & after & ->). exists (a +:+ before), after.
  now rewrite append_assoc.
Qed.

Lemma nonzero_exit_text_carries (w : Slurm.t) (traj : Trajectory)
    (jobid : string) (returncode : Z) (stderr stdout : string) :
  let msg := Slurm.nonzero_exit_text w traj jobid returncode stderr stdout in
  carries msg (str_opt (Slurm.executable w))
  /\ carries msg (trajectory_str traj)
  /\ carries msg jobid
  /\ carries msg (str_int returncode)
  /\ carries msg stderr
  /\ carries msg stdout.
Proof.
  unfold Slurm.nonzero_exit_text.
  repeat split;
    repeat first [ apply carries_end | apply carries_here
                 | apply carries_later ].
Qed.

(** Decoding keeps the bytes or raises [UnicodeDecodeError]. *)
Lemma decode_cases (b : string) :
  decode b = Ok b \/ decode b = Raise UnicodeDecodeError.
Proof. unfold decode. destruct (utf8_valid (chars b)); auto. Qed.

(** The message is the text with both streams when both decode, and
    [UnicodeDecodeError] is raised in its place when one does not. *)
Lemma nonzero_exit_message_cases (w : Slurm.t) (traj : Trajectory)
    (jobid : string) (returncode : Z) (stderr stdout : string) :
  Slurm.nonzero_exit_message w traj jobid returncode stderr stdout
  = match decode stderr, decode stdout with
    | Ok _, Ok _ =>
        Ok (Slurm.nonzero_exit_text w traj jobid returncode stderr stdout)
    | _, _ => Raise UnicodeDecodeError
    end.
Proof.
  unfold Slurm.nonzero_exit_message.
  destruct (decode_cases stderr) as [H1|H1];
    destruct (decode_cases stdout) as [H2|H2];
    rewrite ?H1, ?H2; reflexivity.
Qed.

Lemma count_app (kind : Slurm.event -> bool) (l l' : list Slurm.event) :
  count kind (l ++ l') = (count kind l + count kind l')%nat.
Proof. unfold count. now rewrite List.filter_app, length_app. Qed.

Lemma get_values_after_prepare (sc : Slurm.scenario) (w : Slurm.t)
    (traj : Trajectory) (s s1 : Slurm.state) (p : Slurm.submission) :
  Slurm.prepare sc w traj s = (Ok p, s1) ->
  Slurm.get_values_for_trajectory sc w traj s = Slurm.run_job sc w traj p s1.
Proof.
  intros E. unfold Slurm.get_values_for_trajectory, bind. now rewrite E.
Qed.

#[local] Opaque os_path_split os_path_join format_cmd_str str_take str_int
  Slurm.build_cmd_str Slurm.result_file_of Slurm.sbatch_fname_of
  Slurm.slurm_jobname Slurm.nonzero_exit_message Slurm.nonzero_exit_text
  Slurm.format_script decode.

Ltac run_call :=
  unfold Slurm.get_values_for_trajectory, Slurm.run_job, Slurm.prepare,
    Slurm.async_with, try_finally, try_except_else,
    Slurm.create_slurmprocess_submit, Slurm.communicate_and_returncode,
    Slurm.kill, Slurm.os_remove, Slurm.np_load, Slurm.call_loader,
    Slurm.write_file, Slurm.acquire, Slurm.release, Slurm.enter,
    Slurm.bind_slurm_proc, Slurm.emit, bind, ret, raise, gets, modify, lift
    in *;
  simpl in *.

(** Case analysis on what the call inspects, innermost first. *)
Ltac run_cases :=
  repeat (simpl; match goal with
    | |- (_, _) = (_, _) -> _ => intros [= <- <-]
    | |- (Raise _, _) = (Ok _, _) -> _ => discriminate
    | |- context [match ?x with _ => _ end] =>
        lazymatch x with
        | context [match _ with _ => _ end] => fail
        | _ => destruct x eqn:?
        end
    end);
  simpl.

(** What the first part leaves behind when it succeeds: the script is
    written, no local is bound, no file was read or removed, no job
    touched, and the permit for a queued job is taken if one is
    configured. *)
Lemma prepare_ok (sc : Slurm.scenario) (w : Slurm.t) (traj : Trajectory)
    (s s1 : Slurm.state) (p : Slurm.submission) :
  Slurm.prepare sc w traj s = (Ok p, s1) ->
  Slurm.files s1 = <[Slurm.sbatch_fname p := Slurm.script p]> (Slurm.files s)
  /\ Slurm.slurm_proc s1 = None
  /\ exists evs,
       Slurm.trace s1 = Slurm.trace s ++ evs
       /\ count reads_or_removes evs = 0%nat
       /\ count on_job evs = 0%nat
       /\ count (is_release Slurm.SLURM_MAX_JOB) evs = 0%nat
       /\ match Slurm.slurm_max_job s with
          | None => Slurm.slurm_max_job s1 = None
                    /\ count (is_acquire Slurm.SLURM_MAX_JOB) evs = 0%nat
                    /\ count (is_wake_up Slurm.SLURM_MAX_JOB) evs = 0%nat
          | Some n =>
              count (is_acquire Slurm.SLURM_MAX_JOB) evs = 1%nat
              /\ exists m, Slurm.slurm_max_job s1 = Some m
                   /\ S m = (n + count (is_wake_up Slurm.SLURM_MAX_JOB) evs)%nat
                   /\ (n <> 0%nat
                       -> count (is_wake_up Slurm.SLURM_MAX_JOB) evs = 0%nat)
          end.
Proof.
  destruct s as [fs mfo smj tr sp].
  run_call. run_cases.
  all: split; [reflexivity|]; split; [reflexivity|].
  all: rewrite <- ?app_assoc; simpl; eexists; split; [reflexivity|].
  all: repeat split; try reflexivity.
  all: eexists; split; [reflexivity | cbv [count]; simpl; split; lia].
Qed.

(** ** A job that exits with a code other than zero (C4) *)

(** C4, as far as the code keeps it: when the call has got as far as
    the submission, the job is submitted and [communicate] returns with
    an exit code other than zero, the call raises, and it has neither
    read nor removed any file: the files are those the job left, with
    the submission script written before it. When both streams of the
    job decode, what is raised is [RuntimeError] with a message that
    carries the executable, the trajectory, the job id, the exit code and
    both streams; when one of them does not, [UnicodeDecodeError] is
    raised in its place. *)
Theorem nonzero_exit_code_raises
    (sc : Slurm.scenario) (w : Slurm.t) (traj : Trajectory)
    (s s1 : Slurm.state) (p : Slurm.submission) (proc : Slurm.SlurmProcess)
    (stdout stderr : string) (returncode : Z)
    (Hprepare : Slurm.prepare sc w traj s = (Ok p, s1))
    (Hsubmit : Slurm.submit sc = Ok proc)
    (Hjob : Slurm.communicate sc = Ok (stdout, stderr, returncode))
    (Hcode : returncode <> 0) :
  exists e s' evs,
    Slurm.get_values_for_trajectory sc w traj s = (Raise e, s')
    /\ match decode stderr, decode stdout with
       | Ok _, Ok _ =>
           exists msg,
             e = RuntimeError msg
             /\ carries msg (str_opt (Slurm.executable w))
             /\ carries msg (trajectory_str traj)
             /\ carries msg (Slurm.slurm_jobid proc)
             /\ carries msg (str_int returncode)
             /\ carries msg stderr
             /\ carries msg stdout
       | _, _ => e = UnicodeDecodeError
       end
    /\ Slurm.trace s' = Slurm.trace s ++ evs
    /\ count reads_or_removes evs = 0%nat
    /\ Slurm.files s'
       = Slurm.job_writes sc
           (<[Slurm.sbatch_fname p := Slurm.script p]> (Slurm.files s)).
Proof.
  rewrite (get_values_after_prepare _ _ _ _ _ _ Hprepare).
  destruct (prepare_ok _ _ _ _ _ _ Hprepare)
    as (Hfiles & _ & evs & Htrace & Hquiet & _).
  destruct s1 as [fs1 mfo1 smj1 tr1 sp1]. simpl in *. subst fs1 tr1.
  run_call. rewrite Hsubmit, Hjob. simpl.
  rewrite (bool_decide_eq_true_2 _ Hcode). simpl.
  rewrite nonzero_exit_message_cases.
  destruct (decode stderr) as [err|e1], (decode stdout) as [out|e2]; simpl.
  all: destruct smj1 as [n|]; simpl.
  all: eexists _, _, _; (split; [reflexivity|]).
  all: split;
    [first [ reflexivity
           | eexists; split; [reflexivity|];
             apply nonzero_exit_text_carries ]|].
  all: rewrite <- ?app_assoc.
  all: (split; [reflexivity|]); (split; [|reflexivity]).
  all: rewrite count_app, Hquiet; reflexivity.
Qed.

Lemma nonzero_exit_code_raises_witness :
  exists e s' evs,
    Slurm.get_values_for_trajectory failing example_slurm_wrapper
      example_trajectory example_state
    = (Raise e, s')
    /\ match decode "boom", decode "started" with
       | Ok _, Ok _ =>
           exists msg,
             e = RuntimeError msg
             /\ carries msg (str_opt (Slurm.executable example_slurm_wrapper))
             /\ carries msg (trajectory_str example_trajectory)
             /\ carries msg (Slurm.slurm_jobid example_job)
             /\ carries msg (str_int 7)
             /\ carries msg "boom"
             /\ carries msg "started"
       | _, _ => e = UnicodeDecodeError
       end
    /\ Slurm.trace s' = Slurm.trace example_state ++ evs
    /\ count reads_or_removes evs = 0%nat
    /\ Slurm.files s'
       = Slurm.job_writes failing
           (<["/d/traj.trr_CVfunc_id_None.slurm" :=
                "#!/bin/bash
srun /bin/cv /d/conf.gro /d/traj.trr /d/traj.trr_12345_CVfunc_id_None"]>
              (Slurm.files example_state)).
Proof.
  eapply (nonzero_exit_code_raises failing example_slurm_wrapper
            example_trajectory example_state _
            {| Slurm.tra_dir := "/d";
               Slurm.result_file := "/d/traj.trr_12345_CVfunc_id_None";
               Slurm.sbatch_fname := "/d/traj.trr_CVfunc_id_None.slurm";
               Slurm.script := "#!/bin/bash
srun /bin/cv /d/conf.gro /d/traj.trr /d/traj.trr_12345_CVfunc_id_None" |}
            example_job "started" "boom" 7).
  - vm_compute. reflexivity.
  - reflexivity.
  - reflexivity.
  - discriminate.
Defined.

(** C4 at a job that exits with 7 and has written the one byte [0xff]
    to its error stream: the call raises [UnicodeDecodeError], no
    [RuntimeError], and the caller gets neither the exit code nor the
    streams. *)
Theorem nonzero_exit_undecodable_stream :
  exists s',
    Slurm.get_values_for_trajectory failing_undecodable example_slurm_wrapper
      example_trajectory example_state
    = (Raise UnicodeDecodeError, s')
    /\ Slurm.files s' !! "/d/traj.trr_CVfunc_id_None.slurm"
       = Some "#!/bin/bash
srun /bin/cv /d/conf.gro /d/traj.trr /d/traj.trr_12345_CVfunc_id_None".
Proof. eexists. split; vm_compute; reflexivity. Qed.

(** ** Cancellation (C3) *)

(** An exception that ends the first part of the call leaves it as it
    is, and no job has been touched. *)
Lemma prepare_raise (sc : Slurm.scenario) (w : Slurm.t) (traj : Trajectory)
    (s s1 : Slurm.state) (e : exn) :
  Slurm.prepare sc w traj s = (Raise e, s1) ->
  Slurm.get_values_for_trajectory sc w traj s = (Raise e, s1)
  /\ exists evs, Slurm.trace s1 = Slurm.trace s ++ evs
                /\ count on_job evs = 0%nat.
Proof.
  intros E. split.
  - unfold Slurm.get_values_for_trajectory, bind. now rewrite E.
  - revert E. destruct s as [fs mfo smj tr sp]. run_call. run_cases.
    all: rewrite <- ?app_assoc; simpl.
    all: first [ now exists [] ; rewrite app_nil_r
               | eexists; split; [reflexivity | reflexivity] ].
Qed.




(** ** The permit of a queued job (C5) *)

(** Whatever happens in the [try] statement, its [finally] clause
    releases a configured permit once. *)
Lemma run_job_releases_once (sc : Slurm.scenario) (w : Slurm.t)
    (traj : Trajectory) (p : Slurm.submission) (s1 : Slurm.state) (m : nat) :
  Slurm.slurm_max_job s1 = Some m ->
  exists r s' evs,
    Slurm.run_job sc w traj p s1 = (r, s')
    /\ Slurm.trace s' = Slurm.trace s1 ++ evs
    /\ count (is_acquire Slurm.SLURM_MAX_JOB) evs = 0%nat
    /\ count (is_release Slurm.SLURM_MAX_JOB) evs = 1%nat
    /\ count (is_wake_up Slurm.SLURM_MAX_JOB) evs = 0%nat
    /\ Slurm.slurm_max_job s' = Some (S m).
Proof.
  destruct s1 as [fs1 mfo1 smj1 tr1 sp1]. simpl. intros ->.
  run_call. run_cases.
  all: eexists _, _, _; split; [reflexivity|]; simpl.
  all: rewrite <- ?app_assoc; simpl.
  all: split; [reflexivity|]; repeat split.
Qed.

(** C5: when a permit for queued jobs is configured and the call has
    taken it, the call releases it exactly once, however it ends (with
    values, with the error of a failed job or any other exception, with
    a cancellation): the call's own acquisition and release cancel out,
    and the value of the semaphore afterwards is the value before, plus
    one if the call had to wait for another task to release a permit. *)
Theorem queued_job_permit_released_once
    (sc : Slurm.scenario) (w : Slurm.t) (traj : Trajectory)
    (s s1 : Slurm.state) (p : Slurm.submission) (n : nat)
    (Hconfigured : Slurm.slurm_max_job s = Some n)
    (Hacquired : Slurm.prepare sc w traj s = (Ok p, s1)) :
  exists r s' evs,
    Slurm.get_values_for_trajectory sc w traj s = (r, s')
    /\ Slurm.trace s' = Slurm.trace s ++ evs
    /\ count (is_acquire Slurm.SLURM_MAX_JOB) evs = 1%nat
    /\ count (is_release Slurm.SLURM_MAX_JOB) evs = 1%nat
    /\ Slurm.slurm_max_job s'
       = Some (n + count (is_wake_up Slurm.SLURM_MAX_JOB) evs)%nat
    /\ (n <> 0%nat -> Slurm.slurm_max_job s' = Slurm.slurm_max_job s).
Proof.
  rewrite (get_values_after_prepare _ _ _ _ _ _ Hacquired).
  destruct (prepare_ok _ _ _ _ _ _ Hacquired)
    as (_ & _ & evs1 & Htrace1 & _ & _ & Hrel1 & Hsem).
  rewrite Hconfigured in Hsem.
  destruct Hsem as (Hacq1 & m & Hm & Hwake1 & Hfree).
  destruct (run_job_releases_once sc w traj p s1 m Hm)
    as (r & s' & evs2 & Hrun & Htrace2 & Hacq2 & Hrel2 & Hwake2 & Hfinal).
  exists r, s', (evs1 ++ evs2).
  rewrite !count_app, Hacq1, Hacq2, Hrel1, Hrel2, Hwake2.
  repeat split; try assumption; try reflexivity.
  - now rewrite Htrace2, Htrace1, app_assoc.
  - rewrite Hfinal. f_equal. lia.
  - intros Hn. rewrite Hfinal, Hconfigured. f_equal.
    specialize (Hfree Hn). lia.
Qed.

Lemma queued_job_permit_released_once_witness :
  exists r s' evs,
    Slurm.get_values_for_trajectory failing example_slurm_wrapper
      example_trajectory example_state
    = (r, s')
    /\ Slurm.trace s' = Slurm.trace example_state ++ evs
    /\ count (is_acquire Slurm.SLURM_MAX_JOB) evs = 1%nat
    /\ count (is_release Slurm.SLURM_MAX_JOB) evs = 1%nat
    /\ Slurm.slurm_max_job s'
       = Some (1 + count (is_wake_up Slurm.SLURM_MAX_JOB) evs)%nat
    /\ (1%nat <> 0%nat
        -> Slurm.slurm_max_job s' = Slurm.slurm_max_job example_state).
Proof.
  eapply (queued_job_permit_released_once failing example_slurm_wrapper
            example_trajectory example_state).
  - reflexivity.
  - vm_compute. reflexivity.
Defined.

(** ** Loading the results (C6) *)

(** C6, as the code has it: in a call that returns values the job was
    submitted and ended with exit code 0, and the submission script was
    removed. Without a custom loader the values are those of the file
    named by the result file with [.npy] appended, and that file is
    removed after it is read. With a custom loader the values are what
    the loader returns when called with the result file as named on the
    command line, without extension, and the call then removes the file
    of that name itself. *)
Theorem results_loaded_and_removed
    (sc : Slurm.scenario) (w : Slurm.t) (traj : Trajectory)
    (s s1 s' : Slurm.state) (p : Slurm.submission) (vals : ndarray)
    (Hprepare : Slurm.prepare sc w traj s = (Ok p, s1))
    (Hsuccess : Slurm.get_values_for_trajectory sc w traj s = (Ok vals, s')) :
  exists proc stdout stderr,
    Slurm.submit sc = Ok proc
    /\ Slurm.communicate sc = Ok (stdout, stderr, 0)
    /\ let submitted :=
         [Slurm.ESubmit (Slurm.slurm_jobname w) (Slurm.sbatch_fname p)
            (Slurm.tra_dir p);
          Slurm.ECommunicate proc; Slurm.ERemove (Slurm.sbatch_fname p)] in
       let after_job :=
         delete (Slurm.sbatch_fname p) (Slurm.job_writes sc (Slurm.files s1)) in
       match Slurm.load_results_func w with
       | None =>
           let npy := Slurm.result_file p +:+ ".npy" in
           after_job !! npy = Some vals
           /\ Slurm.files s' = delete npy after_job
           /\ Slurm.trace s'
              = Slurm.trace s1 ++ submitted
                ++ [Slurm.ENpLoad npy; Slurm.ERemove npy] ++ released s1
       | Some f =>
           exists left_by_loader,
             f (Slurm.result_file p) after_job = (Ok vals, left_by_loader)
             /\ Slurm.files s' = delete (Slurm.result_file p) left_by_loader
             /\ Slurm.trace s'
                = Slurm.trace s1 ++ submitted
                  ++ [Slurm.ELoadResults (Slurm.result_file p);
                      Slurm.ERemove (Slurm.result_file p)] ++ released s1
       end.
Proof.
  rewrite (get_values_after_prepare _ _ _ _ _ _ Hprepare) in Hsuccess.
  clear Hprepare. revert Hsuccess.
  destruct s1 as [fs1 mfo1 smj1 tr1 sp1]. unfold released.
  run_call. run_cases.
  all: match goal with
       | H : bool_decide (?rc <> 0) = false |- _ =>
           apply bool_decide_eq_false in H;
           assert (rc = 0) as -> by lia
       end.
  all: eexists _, _, _; split; [reflexivity|]; split; [reflexivity|]; simpl.
  all: rewrite <- ?app_assoc; simpl.
  all: try (eexists; split; [reflexivity|]).
  all: repeat split; try assumption; try reflexivity.
Qed.

Lemma results_loaded_and_removed_witness :
  exists proc stdout stderr,
    Slurm.submit succeeding = Ok proc
    /\ Slurm.communicate succeeding = Ok (stdout, stderr, 0)
    /\ exists s',
         Slurm.get_values_for_trajectory succeeding example_slurm_wrapper
           example_trajectory example_state = (Ok "array", s')
         /\ Slurm.files s' = example_files
         /\ Slurm.trace s'
            = [Slurm.EAcquire Slurm.MAX_FILES_OPEN;
               Slurm.EWrite "/d/traj.trr_CVfunc_id_None.slurm"
                 "#!/bin/bash
srun /bin/cv /d/conf.gro /d/traj.trr /d/traj.trr_12345_CVfunc_id_None";
               Slurm.ERelease Slurm.MAX_FILES_OPEN;
               Slurm.EAcquire Slurm.SLURM_MAX_JOB;
               Slurm.ESubmit "CVfunc_id_None"
                 "/d/traj.trr_CVfunc_id_None.slurm" "/d";
               Slurm.ECommunicate proc;
               Slurm.ERemove "/d/traj.trr_CVfunc_id_None.slurm";
               Slurm.ENpLoad "/d/traj.trr_12345_CVfunc_id_None.npy";
               Slurm.ERemove "/d/traj.trr_12345_CVfunc_id_None.npy";
               Slurm.ERelease Slurm.SLURM_MAX_JOB].
Proof.
  edestruct (results_loaded_and_removed succeeding example_slurm_wrapper
               example_trajectory example_state)
    as (proc & stdout & stderr & Hsub & Hcomm & _);
    [vm_compute; reflexivity | vm_compute; reflexivity |].
  exists proc, stdout, stderr. split; [exact Hsub|]. split; [exact Hcomm|].
  injection Hsub as <-. eexists.
  split; [vm_compute; reflexivity|]. split; vm_compute; reflexivity.
Defined.

(** C6 as stated fails with a custom loader: the loader below reads the
    result file and leaves it in place, and after the call the file is
    gone, removed by the call itself. *)
Lemma custom_loader_file_removed_counterexample :
  let out := Slurm.get_values_for_trajectory succeeding_custom
               example_loading_wrapper example_trajectory example_state in
  let path := "/d/traj.trr_12345_CVfunc_id_None" in
  (forall fs, (reading_loader path fs).2 = fs)
  /\ out.1 = Ok "1.0 2.0"
  /\ count (removes path) (Slurm.trace out.2) = 1%nat
  /\ Slurm.files out.2 !! path = None.
Proof.
  split.
  - intros fs. unfold reading_loader. now destruct (fs !! _).
  - vm_compute. repeat split.
Qed.


(** ** The keyword arguments of the constructor (C10) *)

Section InitKwargs.
Variable _get_id_str : Init.instance -> result string.
Variable subclass_properties : string -> option Init.property.
Variable class_attributes : string -> option pyobj.

#[local] Abbreviation getattr :=
  (Init.getattr _get_id_str subclass_properties class_attributes).
#[local] Abbreviation setattr :=
  (Init.setattr _get_id_str subclass_properties).
#[local] Abbreviation init_kwarg :=
  (Init.init_kwarg _get_id_str subclass_properties class_attributes).
#[local] Abbreviation __init__ :=
  (Init.__init__ _get_id_str subclass_properties class_attributes).
#[local] Abbreviation no_attribute :=
  (Init.no_attribute _get_id_str subclass_properties class_attributes).

Lemma for_each_cons {St A} (body : A -> M St unit) (x : A) (l : list A)
    (s : St) :
  Init.for_each body (x :: l) s
  = match body x s with
    | (Ok _, s') => Init.for_each body l s'
    | (Raise e, s') => (Raise e, s')
    end.
Proof. reflexivity. Qed.

Lemma for_each_app {St A} (body : A -> M St unit) (l l' : list A) (s : St) :
  Init.for_each body (l ++ l') s
  = match Init.for_each body l s with
    | (Ok _, s') => Init.for_each body l' s'
    | (Raise e, s') => (Raise e, s')
    end.
Proof.
  revert s. induction l as [|x l IH]; intros s.
  - reflexivity.
  - rewrite <- app_comm_cons, !for_each_cons.
    destruct (body x s) as [[[]|e] s']; [apply IH | reflexivity].
Qed.

Lemma init_kwarg_ignored (o : Init.instance) (kwarg : string) (value : pyobj) :
  no_attribute o kwarg -> init_kwarg (kwarg, value) o = (Ok tt, o).
Proof.
  intros [msg E]. unfold init_kwarg, Init.init_kwarg, bind.
  fold getattr. unfold getattr in *. now rewrite E.
Qed.

Lemma for_each_ignored (o : Init.instance) (pre : list (string * pyobj)) :
  Forall (fun kv => no_attribute o kv.1) pre ->
  Init.for_each init_kwarg pre o = (Ok tt, o).
Proof.
  induction 1 as [|[k v] pre Hk _ IH]; [reflexivity|].
  now rewrite for_each_cons, (init_kwarg_ignored o k v Hk).
Qed.

(** C10, as the code has it, for a keyword argument at any place
    among the others. Let the keyword arguments before it have been
    gone through without an exception, whatever they have set, and have
    left the instance [o1]. If its name is no attribute of [o1], the
    argument is passed over: the constructor goes on as if it had not
    been given. If it names an attribute and the value is no instance of
    the type of the attribute's current value, [TypeError] is raised,
    the instance stays [o1] and the arguments after it are not looked
    at. If the value is an instance of that type (of the type or of a
    subclass), it is assigned with [setattr], into the instance itself
    when the name is no property, and the constructor goes on with the
    arguments after it. *)
Theorem init_keyword_arguments
    (o o1 : Init.instance) (pre post : list (string * pyobj))
    (kwarg : string) (value : pyobj)
    (Hpre : __init__ pre o = (Ok tt, o1)) :
  (no_attribute o1 kwarg ->
   __init__ (pre ++ (kwarg, value) :: post) o = __init__ (pre ++ post) o
   /\ __init__ (pre ++ [(kwarg, value)]) o = (Ok tt, o1))
  /\ (forall cval,
        getattr kwarg o1 = Ok cval ->
        isinstance value (type_of cval) = false ->
        __init__ (pre ++ (kwarg, value) :: post) o
        = (Raise (TypeError
                    ("Setting attribute " +:+ kwarg +:+ " with "
                     +:+ "mismatching type (" +:+ type_str (type_of value)
                     +:+ "). " +:+ " Default type is "
                     +:+ type_str (type_of cval) +:+ ".")), o1))
  /\ (forall cval,
        getattr kwarg o1 = Ok cval ->
        isinstance value (type_of cval) = true ->
        __init__ (pre ++ [(kwarg, value)]) o = setattr kwarg value o1
        /\ __init__ (pre ++ (kwarg, value) :: post) o
           = match setattr kwarg value o1 with
             | (Ok _, o2) => Init.for_each init_kwarg post o2
             | (Raise e, o2) => (Raise e, o2)
             end
        /\ (Init.properties _get_id_str subclass_properties kwarg = None ->
            setattr kwarg value o1 = (Ok tt, <[kwarg := value]> o1))).
Proof.
  assert (Hsplit : forall rest,
    __init__ (pre ++ rest) o = Init.for_each init_kwarg rest o1).
  { intros rest. revert Hpre. unfold __init__, Init.__init__, bind.
    destruct (Init.setattr _get_id_str subclass_properties "_id"
                (OVal PyNone) o) as [[[]|e] oa]; [|discriminate].
    destruct (Init.setattr _get_id_str subclass_properties "_call_kwargs"
                (ODict Dict []) oa) as [[[]|e] ob]; [|discriminate].
    intros Hpre. now rewrite for_each_app, Hpre. }
  split; [|split].
  - intros Hno. split.
    + rewrite !Hsplit, for_each_cons.
      now rewrite (init_kwarg_ignored o1 kwarg value Hno).
    + rewrite Hsplit, for_each_cons.
      now rewrite (init_kwarg_ignored o1 kwarg value Hno).
  - intros cval Hc Hinst. rewrite Hsplit, for_each_cons.
    unfold init_kwarg, Init.init_kwarg, bind.
    fold getattr. now rewrite Hc, Hinst.
  - intros cval Hc Hinst.
    assert (Hstep : init_kwarg (kwarg, value) o1 = setattr kwarg value o1).
    { unfold init_kwarg, Init.init_kwarg, bind.
      fold getattr. now rewrite Hc, Hinst. }
    split; [|split].
    + rewrite Hsplit, for_each_cons, Hstep.
      now destruct (setattr kwarg value o1) as [[[]|e] o2].
    + now rewrite Hsplit, for_each_cons, Hstep.
    + intros Hplain. unfold setattr, Init.setattr. now rewrite Hplain.
Qed.
End InitKwargs.

Lemma init_keyword_arguments_witness :
  let o0 := <["_call_kwargs" := ODict Dict []]>
              (<["_id" := OVal PyNone]> Init.AtSlurm.entered) in
  let o1 := <["_slurm_jobname" := OVal (PyStr "cv_job")]> o0 in
  let pre := [("verbose", OVal (PyBool true));
              ("slurm_jobname", OVal (PyStr "cv_job"))] in
  let post := [("_call_kwargs", ODict Dict [("--cut", PyInt 3)])] in
  Init.AtSlurm.__init__ (pre ++ ("stride", OVal (PyInt 2)) :: post)
    Init.AtSlurm.entered
  = Init.AtSlurm.__init__ (pre ++ post) Init.AtSlurm.entered
  /\ Init.AtSlurm.__init__ (pre ++ ("_id", OVal (PyStr "blub")) :: post)
       Init.AtSlurm.entered
     = (Raise (TypeError
                 ("Setting attribute _id with mismatching type (<class 'str'>). "
                  +:+ " Default type is <class 'NoneType'>.")), o1)
  /\ Init.AtSlurm.__init__ (pre ++ [("_id", OVal PyNone)])
       Init.AtSlurm.entered
     = (Ok tt, <["_id" := OVal PyNone]> o1).
Proof.
  intros o0 o1 pre post.
  assert (Hpre : Init.AtSlurm.__init__ pre Init.AtSlurm.entered = (Ok tt, o1)).
  { vm_compute. reflexivity. }
  split; [|split].
  - destruct (init_keyword_arguments Init.AtSlurm._get_id_str
                Init.AtSlurm.subclass_properties Init.AtSlurm.class_attributes
                Init.AtSlurm.entered o1 pre post "stride" (OVal (PyInt 2)) Hpre)
      as (Hignored & _ & _).
    apply Hignored. exists "stride". reflexivity.
  - destruct (init_keyword_arguments Init.AtSlurm._get_id_str
                Init.AtSlurm.subclass_properties Init.AtSlurm.class_attributes
                Init.AtSlurm.entered o1 pre post "_id" (OVal (PyStr "blub"))
                Hpre)
      as (_ & Hrefused & _).
    exact (Hrefused (OVal PyNone) eq_refl eq_refl).
  - destruct (init_keyword_arguments Init.AtSlurm._get_id_str
                Init.AtSlurm.subclass_properties Init.AtSlurm.class_attributes
                Init.AtSlurm.entered o1 pre post "_id" (OVal PyNone) Hpre)
      as (_ & _ & Hset).
    destruct (Hset (OVal PyNone) eq_refl eq_refl) as (Hrun & _ & Hplain).
    unfold Init.AtSlurm.__init__. rewrite Hrun. exact (Hplain eq_refl).
Defined.

(** C10 as stated fails: the current value of [_call_kwargs] is a
    [dict], the value given is a [collections.OrderedDict], another
    type, and the constructor assigns it without a [TypeError]. *)
Lemma init_accepts_subclass_counterexample :
  let o0 := <["_call_kwargs" := ODict Dict []]>
              (<["_id" := OVal PyNone]> Init.AtSlurm.entered) in
  let value := ODict OrderedDict [("--cut", PyInt 3)] in
  Init.read "_call_kwargs" o0 = Ok (ODict Dict [])
  /\ type_of value <> type_of (ODict Dict [])
  /\ Init.AtSlurm.__init__ [("_call_kwargs", value)] Init.AtSlurm.entered
     = (Ok tt, <["_call_kwargs" := value]> o0).
Proof.
  intros o0 value. split; [reflexivity|]. split; [discriminate|].
  vm_compute. reflexivity.
Qed.

(** * Further properties *)

(** ** Construction of the local wrapper *)

Lemma py_init_with_source (f : pyfunction) (src : string) (cls : dict_class)
    (items : kwargs) :
  fn_getsource f = Ok src ->
  Py.__init__ f (ODict cls items) Py.blank
  = (Ok tt,
     {| self := {| Py._id := Some (str_int (kwargs_digest_sum items
                                            + blake2b_int src));
                   Py._call_kwargs := items;
                   Py._func := Some f;
                   Py._func_src := Some src |};
        logged := [] |}).
Proof.
  intros E. unfold Py.__init__, Py.function_setter, call_kwargs_setter,
    try_finally, try_except_else, bind, lift, on_self, modify, gets. simpl.
  now rewrite E.
Qed.

(** X1: two local wrappers built from functions with the same source
    text and from dictionaries with the same items, in whatever order,
    are both built without error and have the same identity, which is
    defined. *)
Theorem py_init_same_source_same_identity
    (f1 f2 : pyfunction) (src : string) (c1 c2 : dict_class)
    (items1 items2 : kwargs)
    (Hsrc1 : fn_getsource f1 = Ok src)
    (Hsrc2 : fn_getsource f2 = Ok src)
    (Hitems : Permutation items1 items2) :
  exists h1 h2 i,
    Py.__init__ f1 (ODict c1 items1) Py.blank = (Ok tt, h1)
    /\ Py.__init__ f2 (ODict c2 items2) Py.blank = (Ok tt, h2)
    /\ id (self h1) = Some i
    /\ id (self h2) = Some i
    /\ Py.function (self h1) = Some f1
    /\ Py.function (self h2) = Some f2.
Proof.
  rewrite (py_init_with_source f1 src c1 items1 Hsrc1).
  rewrite (py_init_with_source f2 src c2 items2 Hsrc2).
  eexists _, _, _. repeat split. simpl.
  now rewrite (kwargs_digest_sum_Permutation items1 items2 Hitems).
Qed.

Lemma py_init_same_source_same_identity_witness :
  exists h1 h2 i,
    Py.__init__ example_function
      (ODict Dict [("-a", PyInt 1); ("-b", PyStr "x")]) Py.blank = (Ok tt, h1)
    /\ Py.__init__ example_function
         (ODict OrderedDict [("-b", PyStr "x"); ("-a", PyInt 1)]) Py.blank
       = (Ok tt, h2)
    /\ id (self h1) = Some i
    /\ id (self h2) = Some i
    /\ Py.function (self h1) = Some example_function
    /\ Py.function (self h2) = Some example_function.
Proof.
  apply (py_init_same_source_same_identity example_function example_function
           "def cv(traj): return traj").
  - reflexivity.
  - reflexivity.
  - apply perm_swap.
Defined.

Lemma py_init_without_source (f : pyfunction) (msg : string)
    (cls : dict_class) (items : kwargs) :
  fn_getsource f = Raise (OSError msg) ->
  Py.__init__ f (ODict cls items) Py.blank
  = (Ok tt,
     {| self := {| Py._id := Some (str_int (kwargs_digest_sum items
                                            + blake2b_int "None"));
                   Py._call_kwargs := items;
                   Py._func := Some f;
                   Py._func_src := None |};
        logged := ["Could not retrieve source for " +:+ fn_repr f +:+ "."
                   +:+ " No caching can/will be performed."] |}).
Proof.
  intros E. unfold Py.__init__, Py.function_setter, call_kwargs_setter,
    try_finally, try_except_else, bind, lift, on_self, modify, gets,
    logger_warning. simpl.
  now rewrite E.
Qed.

(** X2: a local wrapper built from a function whose source cannot be
    retrieved is built without error, with a logged warning, and has an
    identity all the same: the one derived from the text [None] and the
    items. So any two such functions, built with the same items, get the
    same identity. *)
Theorem py_init_without_source_shares_identity
    (f1 f2 : pyfunction) (msg1 msg2 : string) (c1 c2 : dict_class)
    (items1 items2 : kwargs)
    (Hsrc1 : fn_getsource f1 = Raise (OSError msg1))
    (Hsrc2 : fn_getsource f2 = Raise (OSError msg2))
    (Hitems : Permutation items1 items2) :
  exists h1 h2,
    Py.__init__ f1 (ODict c1 items1) Py.blank = (Ok tt, h1)
    /\ Py.__init__ f2 (ODict c2 items2) Py.blank = (Ok tt, h2)
    /\ id (self h1)
       = Some (str_int (kwargs_digest_sum items1 + blake2b_int "None"))
    /\ id (self h2) = id (self h1)
    /\ Py.function (self h1) = Some f1
    /\ Py.function (self h2) = Some f2
    /\ length (logged h1) = 1%nat.
Proof.
  rewrite (py_init_without_source f1 msg1 c1 items1 Hsrc1).
  rewrite (py_init_without_source f2 msg2 c2 items2 Hsrc2).
  eexists _, _. repeat split. simpl.
  now rewrite (kwargs_digest_sum_Permutation items1 items2 Hitems).
Qed.

Lemma py_init_without_source_shares_identity_witness :
  exists h1 h2,
    Py.__init__ sourceless_function (ODict Dict [("-a", PyInt 1)]) Py.blank
    = (Ok tt, h1)
    /\ Py.__init__
         {| fn_repr := "<built by exec>";
            fn_getsource := Raise (OSError "source code not available");
            fn_call := fun _ _ => Ok "other values" |}
         (ODict Dict [("-a", PyInt 1)]) Py.blank
       = (Ok tt, h2)
    /\ id (self h1)
       = Some (str_int (kwargs_digest_sum [("-a", PyInt 1)]
                        + blake2b_int "None"))
    /\ id (self h2) = id (self h1)
    /\ Py.function (self h1) = Some sourceless_function
    /\ Py.function (self h2)
       = Some {| fn_repr := "<built by exec>";
                 fn_getsource := Raise (OSError "source code not available");
                 fn_call := fun _ _ => Ok "other values" |}
    /\ length (logged h1) = 1%nat.
Proof.
  apply (py_init_without_source_shares_identity sourceless_function _
           "could not get source code" "source code not available").
  - reflexivity.
  - reflexivity.
  - apply Permutation_refl.
Defined.

(** ** The identity is never stale *)

Lemma assign_keeps_identity_current (a : py_assignment) (h : heap Py.t) :
  sourced a = true ->
  identity_current (self h) -> identity_current (self (assign a h).2).
Proof.
  intros Hsourced [Hsrc Hid]. destruct h as [w lg].
  destruct a as [f|value]; simpl in *.
  - unfold Py.function_setter, try_finally, try_except_else, bind, lift,
      on_self, modify, gets, logger_warning, raise. simpl.
    unfold identity_current, source_current.
    destruct (fn_getsource f) as [src|e] eqn:Ef; simpl.
    + rewrite Ef. split; [reflexivity|]. right. reflexivity.
    + destruct e; try discriminate Hsourced. simpl. rewrite Ef.
      split; [reflexivity|]. now left.
  - destruct value as [v|cls items|t|c]; simpl; try (split; assumption).
    split; [exact Hsrc|]. right. reflexivity.
Qed.

(** X3: whatever is assigned to [function] and [call_kwargs] of a local
    wrapper, in whatever order and whether or not an assignment raises,
    as long as [inspect.getsource] gives the source of each assigned
    function or raises [OSError]: the wrapper holds the source text of
    the function it holds, and no identity other than the one derived
    from that text and the keyword arguments it holds; at worst it
    holds none. An assigned function for which [inspect.getsource]
    raises another exception breaks this: the assignment raises that
    exception and still stores the function, with the source text and
    the identity of the function held before. *)
Theorem assignments_keep_identity_current
    (l : list py_assignment) (h : heap Py.t)
    (Hsourced : forallb sourced l = true)
    (Hstart : identity_current (self h)) :
  identity_current (self (assign_all l h))
  /\ forall f e,
       fn_getsource f = Raise e -> (forall msg, e <> OSError msg) ->
       (assign (AssignFunction f) (assign_all l h)).1 = Raise e
       /\ Py.function (self (assign (AssignFunction f) (assign_all l h)).2)
          = Some f
       /\ Py._func_src (self (assign (AssignFunction f) (assign_all l h)).2)
          = Py._func_src (self (assign_all l h))
       /\ id (self (assign (AssignFunction f) (assign_all l h)).2)
          = id (self (assign_all l h)).
Proof.
  split.
  - revert h Hsourced Hstart.
    induction l as [|a l IH]; intros h Hsourced Hstart; simpl.
    + exact Hstart.
    + simpl in Hsourced. apply andb_true_iff in Hsourced as [Ha Hl].
      apply IH; [exact Hl|].
      apply assign_keeps_identity_current; assumption.
  - intros f e Hf Hother. destruct (assign_all l h) as [w lg]. simpl.
    unfold Py.function_setter, try_finally, try_except_else, bind, lift,
      on_self, modify, gets, logger_warning, raise. simpl.
    rewrite Hf. destruct e; try (now repeat split).
    now elim (Hother msg).
Qed.

Lemma assignments_keep_identity_current_witness :
  identity_current
    (self (assign_all
             [AssignFunction example_function;
              AssignCallKwargs (OVal (PyInt 3));
              AssignCallKwargs (ODict Dict [("-a", PyInt 1)]);
              AssignFunction sourceless_function]
             Py.blank))
  /\ forall f e,
       fn_getsource f = Raise e -> (forall msg, e <> OSError msg) ->
       (assign (AssignFunction f)
          (assign_all
             [AssignFunction example_function;
              AssignCallKwargs (OVal (PyInt 3));
              AssignCallKwargs (ODict Dict [("-a", PyInt 1)]);
              AssignFunction sourceless_function]
             Py.blank)).1 = Raise e
       /\ Py.function
            (self (assign (AssignFunction f)
                     (assign_all
                        [AssignFunction example_function;
                         AssignCallKwargs (OVal (PyInt 3));
                         AssignCallKwargs (ODict Dict [("-a", PyInt 1)]);
                         AssignFunction sourceless_function]
                        Py.blank)).2)
          = Some f
       /\ Py._func_src
            (self (assign (AssignFunction f)
                     (assign_all
                        [AssignFunction example_function;
                         AssignCallKwargs (OVal (PyInt 3));
                         AssignCallKwargs (ODict Dict [("-a", PyInt 1)]);
                         AssignFunction sourceless_function]
                        Py.blank)).2)
          = Py._func_src
              (self (assign_all
                       [AssignFunction example_function;
                        AssignCallKwargs (OVal (PyInt 3));
                        AssignCallKwargs (ODict Dict [("-a", PyInt 1)]);
                        AssignFunction sourceless_function]
                       Py.blank))
       /\ id (self (assign (AssignFunction f)
                      (assign_all
                         [AssignFunction example_function;
                          AssignCallKwargs (OVal (PyInt 3));
                          AssignCallKwargs (ODict Dict [("-a", PyInt 1)]);
                          AssignFunction sourceless_function]
                         Py.blank)).2)
          = id (self (assign_all
                        [AssignFunction example_function;
                         AssignCallKwargs (OVal (PyInt 3));
                         AssignCallKwargs (ODict Dict [("-a", PyInt 1)]);
                         AssignFunction sourceless_function]
                        Py.blank)).
Proof.
  apply assignments_keep_identity_current.
  - reflexivity.
  - split; [exact I|]. left. reflexivity.
Defined.

(** After a builtin is assigned to a wrapper built for
    [example_function], the wrapper holds the builtin with the identity
    of [example_function]. *)
Example builtin_assigned_keeps_identity :
  let h := (Py.__init__ example_function (ODict Dict []) Py.blank).2 in
  let h' := (assign (AssignFunction builtin_function) h).2 in
  Py.function (self h') = Some builtin_function
  /\ id (self h') = id (self h)
  /\ id (self h) = Some (Py._get_id_str (self h))
  /\ ~ identity_current (self h').
Proof.
  intros h h'. repeat split.
  intros [Hsrc _]. discriminate Hsrc.
Qed.

(** ** Construction of the SLURM wrapper *)

(** The submission script the constructor stores: the text given, when
    it starts with the shebang, else the content of the file of that
    name. *)
Lemma slurm_init_run
    (ensure : string -> result string) (fs : filesystem)
    (executable sbatch_script : string) (call_kwargs : pyobj)
    (loader : option Slurm.loader) :
  SlurmSetup.__init__ ensure fs executable sbatch_script call_kwargs loader
    SlurmSetup.blank
  = match (if SlurmSetup.starts_with_shebang sbatch_script
           then Ok sbatch_script
           else SlurmSetup.read_text fs sbatch_script) with
    | Raise e => (Raise e, SlurmSetup.blank)
    | Ok script =>
        let w0 := SlurmSetup.set_sbatch_script script (self SlurmSetup.blank) in
        match ensure executable with
        | Raise e => (Raise e, {| self := w0; logged := [] |})
        | Ok exe =>
            let w1 := SlurmSetup.set_executable (Some exe) w0 in
            match Slurm.read_binary fs (Some exe) with
            | Raise e => (Raise e, {| self := w1; logged := [] |})
            | Ok data =>
                let w2 := Slurm.set_id (Some (str_int (blake2b_int data))) w1 in
                match call_kwargs with
                | ODict _ items =>
                    (Ok tt,
                     {| self :=
                          SlurmSetup.set_load_results_func loader
                            (Slurm.set_id
                               (Some (str_int (kwargs_digest_sum items
                                               + blake2b_int data)))
                               (Slurm.set_call_kwargs items w2));
                        logged := [] |})
                | _ => (Raise (TypeError "call_kwargs must be a dictionary."),
                        {| self := w2; logged := [] |})
                end
            end
        end
    end.
Proof.
  unfold SlurmSetup.__init__, SlurmSetup.executable_setter,
    call_kwargs_setter, bind, ret, lift, raise, on_self, modify,
    SlurmSetup.read_text.
  destruct (SlurmSetup.starts_with_shebang sbatch_script);
    [|destruct (fs !! sbatch_script) as [script|]];
    (destruct (ensure executable) as [exe|e];
     [destruct (fs !! exe) as [data|] eqn:Ed|]);
    destruct call_kwargs as [v|cls items|t|c];
    cbn;
    unfold Slurm._get_id_str, Slurm.read_binary, Slurm.executable;
    cbn; rewrite ?Ed; cbn;
    unfold Slurm._get_id_str, Slurm.read_binary, Slurm.executable;
    cbn; rewrite ?Ed; reflexivity.
Qed.



#[local] Transparent Slurm.slurm_jobname.

(** X5: two SLURM wrappers built from executables whose files hold the
    same bytes, under whatever names, and from dictionaries with the
    same items in whatever order have the same identity and the same
    default job name, whatever submission scripts and loaders they were
    given. *)
Theorem slurm_init_same_bytes_same_identity
    (ensure : string -> result string) (fs : filesystem)
    (exe1 exe2 path1 path2 data script1 script2 : string)
    (c1 c2 : dict_class) (items1 items2 : kwargs)
    (loader1 loader2 : option Slurm.loader) (h1 h2 : heap Slurm.t)
    (Hexe1 : ensure exe1 = Ok path1) (Hexe2 : ensure exe2 = Ok path2)
    (Hdata1 : fs !! path1 = Some data) (Hdata2 : fs !! path2 = Some data)
    (Hitems : Permutation items1 items2)
    (Hinit1 : SlurmSetup.__init__ ensure fs exe1 script1 (ODict c1 items1)
                loader1 SlurmSetup.blank = (Ok tt, h1))
    (Hinit2 : SlurmSetup.__init__ ensure fs exe2 script2 (ODict c2 items2)
                loader2 SlurmSetup.blank = (Ok tt, h2)) :
  id (self h1) = Some (str_int (kwargs_digest_sum items1 + blake2b_int data))
  /\ id (self h2) = id (self h1)
  /\ Slurm.slurm_jobname (self h2) = Slurm.slurm_jobname (self h1)
  /\ Slurm.executable (self h1) = Some path1
  /\ Slurm.executable (self h2) = Some path2.
Proof.
  rewrite slurm_init_run in Hinit1, Hinit2.
  rewrite Hexe1 in Hinit1. rewrite Hexe2 in Hinit2.
  unfold Slurm.read_binary in *. rewrite Hdata1 in Hinit1.
  rewrite Hdata2 in Hinit2.
  destruct (if SlurmSetup.starts_with_shebang script1 then _ else _);
    [|discriminate].
  destruct (if SlurmSetup.starts_with_shebang script2 then _ else _);
    [|discriminate].
  injection Hinit1 as <-. injection Hinit2 as <-.
  unfold Slurm.slurm_jobname. simpl.
  rewrite (kwargs_digest_sum_Permutation items2 items1)
    by now apply Permutation_sym.
  repeat split.
Qed.

#[local] Opaque Slurm.slurm_jobname.

Lemma slurm_init_same_bytes_same_identity_witness :
  let items1 := [("-a", PyInt 1); ("-b", PyStr "x")] in
  let items2 := [("-b", PyStr "x"); ("-a", PyInt 1)] in
  let h1 := (SlurmSetup.__init__ example_ensure example_files_two "cv"
               "/d/submit.slurm" (ODict Dict items1) None
               SlurmSetup.blank).2 in
  let h2 := (SlurmSetup.__init__ example_ensure example_files_two
               "/opt/tools/cv" "#!/bin/bash {cmd_str}"
               (ODict OrderedDict items2) (Some reading_loader)
               SlurmSetup.blank).2 in
  id (self h1)
  = Some (str_int (kwargs_digest_sum items1 + blake2b_int "#!/bin/sh"))
  /\ id (self h2) = id (self h1)
  /\ Slurm.slurm_jobname (self h2) = Slurm.slurm_jobname (self h1)
  /\ Slurm.executable (self h1) = Some "/bin/cv"
  /\ Slurm.executable (self h2) = Some "/opt/tools/cv".
Proof.
  intros items1 items2 h1 h2.
  apply (slurm_init_same_bytes_same_identity example_ensure example_files_two
           "cv" "/opt/tools/cv" "/bin/cv" "/opt/tools/cv" "#!/bin/sh"
           "/d/submit.slurm" "#!/bin/bash {cmd_str}" Dict OrderedDict
           items1 items2 None (Some reading_loader) h1 h2).
  - reflexivity.
  - reflexivity.
  - vm_compute. reflexivity.
  - vm_compute. reflexivity.
  - apply perm_swap.
  - vm_compute. reflexivity.
  - vm_compute. reflexivity.
Defined.

(** ** The local backend's [get_values_for_trajectory] *)

Ltac run_py :=
  unfold PyRun.get_values_for_trajectory, PyRun.run_in_executor,
    PyRun.acquire, PyRun.release, PyRun.set_max_process, PyRun.emit,
    try_finally, bind, ret, raise, gets, modify, lift, call_kwargs in *;
  simpl in *.

(** X6: a call of the local backend that gets a permit and is not
    cancelled gives exactly what the wrapped function gives on the
    trajectory with the stored keyword arguments, be it values or an
    exception, and is what calling the wrapper without an identity
    gives; the function is handed to the worker once, and the permit is
    back afterwards. *)
Theorem py_get_values_is_the_function
    (sc : PyRun.scenario) (w : Py.t) (traj : Trajectory) (f : pyfunction)
    (s : PyRun.state) (n : nat)
    (apply_py : Trajectory -> string -> Py.t -> result ndarray)
    (Hfunc : Py._func w = Some f)
    (Hfree : PyRun.max_process s = S n)
    (Hworker : PyRun.executor_wait sc = Ok tt) :
  PyRun.get_values_for_trajectory sc w traj s
  = (fn_call f (OTrajectory traj) (Py._call_kwargs w),
     {| PyRun.max_process := S n;
        PyRun.trace := PyRun.trace s
                       ++ [PyRun.EAcquire;
                           PyRun.ERunInExecutor (Py._call_kwargs w);
                           PyRun.ERelease] |})
  /\ Py.__call__ apply_py (Py.set_id None w) (OTrajectory traj)
     = (PyRun.get_values_for_trajectory sc w traj s).1.
Proof.
  destruct s as [mp tr]. simpl in Hfree. subst mp.
  assert (Hrun :
    PyRun.get_values_for_trajectory sc w traj
      {| PyRun.max_process := S n; PyRun.trace := tr |}
    = (fn_call f (OTrajectory traj) (Py._call_kwargs w),
       {| PyRun.max_process := S n;
          PyRun.trace := tr ++ [PyRun.EAcquire;
                                PyRun.ERunInExecutor (Py._call_kwargs w);
                                PyRun.ERelease] |})).
  { run_py. unfold Py.function. rewrite Hfunc, Hworker.
    destruct (Py._call_kwargs w) as [|kv kw]; simpl;
      destruct (fn_call f _ _); simpl; now rewrite <- !app_assoc. }
  split; [exact Hrun|].
  rewrite Hrun. unfold Py.__call__. simpl. now rewrite Hfunc.
Qed.

Lemma py_get_values_is_the_function_witness :
  PyRun.get_values_for_trajectory
    {| PyRun.process_wait := Ok tt; PyRun.executor_wait := Ok tt |}
    (Py.set_call_kwargs [("-a", PyInt 1)] example_py_wrapper)
    example_trajectory
    {| PyRun.max_process := 2; PyRun.trace := [] |}
  = (Ok "values",
     {| PyRun.max_process := 2;
        PyRun.trace := [PyRun.EAcquire;
                        PyRun.ERunInExecutor [("-a", PyInt 1)];
                        PyRun.ERelease] |}).
Proof.
  exact (proj1 (py_get_values_is_the_function
                  {| PyRun.process_wait := Ok tt; PyRun.executor_wait := Ok tt |}
                  (Py.set_call_kwargs [("-a", PyInt 1)] example_py_wrapper)
                  example_trajectory example_function
                  {| PyRun.max_process := 2; PyRun.trace := [] |} 1%nat
                  (fun _ _ _ => Ok "cached") eq_refl eq_refl eq_refl)).
Defined.

(** X7: however a call of the local backend ends, it has taken a permit
    at most once and has given back what it took; the function is
    handed to the worker at most once and never without the permit; the
    value of the semaphore afterwards is the value before, plus one if
    the call had to wait for another task to release a permit. *)
Theorem py_permit_balanced
    (sc : PyRun.scenario) (w : Py.t) (traj : Trajectory) (s : PyRun.state) :
  exists r s' evs,
    PyRun.get_values_for_trajectory sc w traj s = (r, s')
    /\ PyRun.trace s' = PyRun.trace s ++ evs
    /\ occurrences py_is_release evs = occurrences py_is_acquire evs
    /\ (occurrences py_is_run evs <= occurrences py_is_acquire evs <= 1)%nat
    /\ PyRun.max_process s'
       = (PyRun.max_process s + occurrences py_is_wake_up evs)%nat.
Proof.
  destruct s as [mp tr]. run_py.
  repeat (simpl; match goal with
    | |- context [match ?x with _ => _ end] =>
        lazymatch x with
        | context [match _ with _ => _ end] => fail
        | _ => destruct x eqn:?
        end
    end).
  all: simpl; eexists _, _, _; split; [reflexivity|]; simpl.
  all: rewrite <- ?app_assoc; simpl.
  all: first [ split; [reflexivity|]
             | split; [symmetry; apply app_nil_r|] ].
  all: cbv [occurrences]; simpl; repeat split; lia.
Qed.

(** ** More on the SLURM backend's [get_values_for_trajectory] *)

(** X8: when the call has got as far as the submission, the job is
    submitted and ends with exit code 0 leaving the submission script
    in place, no custom loader is set and the job has written the file
    named by the result file with [.npy] appended, then the call
    returns the content of that file and removes both that file and the
    submission script; a configured permit is back. *)
Theorem job_success_returns_array
    (sc : Slurm.scenario) (w : Slurm.t) (traj : Trajectory)
    (s s1 : Slurm.state) (p : Slurm.submission) (proc : Slurm.SlurmProcess)
    (stdout stderr : string) (vals : ndarray)
    (Hprepare : Slurm.prepare sc w traj s = (Ok p, s1))
    (Hsubmit : Slurm.submit sc = Ok proc)
    (Hjob : Slurm.communicate sc = Ok (stdout, stderr, 0))
    (Hloader : Slurm.load_results_func w = None)
    (Hscript : is_Some (Slurm.job_writes sc (Slurm.files s1)
                        !! Slurm.sbatch_fname p))
    (Hresult : delete (Slurm.sbatch_fname p)
                 (Slurm.job_writes sc (Slurm.files s1))
               !! (Slurm.result_file p +:+ ".npy") = Some vals) :
  exists s',
    Slurm.get_values_for_trajectory sc w traj s = (Ok vals, s')
    /\ Slurm.files s'
       = delete (Slurm.result_file p +:+ ".npy")
           (delete (Slurm.sbatch_fname p)
              (Slurm.job_writes sc (Slurm.files s1)))
    /\ Slurm.slurm_max_job s' = S <$> Slurm.slurm_max_job s1.
Proof.
  rewrite (get_values_after_prepare _ _ _ _ _ _ Hprepare).
  destruct Hscript as [old Hold].
  destruct s1 as [fs1 mfo1 smj1 tr1 sp1]. simpl in *.
  clear Hprepare.
  pose proof Hresult as Hstill. unfold ndarray in Hstill.
  run_call. rewrite Hsubmit, Hjob, Hloader. simpl.
  rewrite Hold. simpl. rewrite Hresult. simpl. rewrite Hstill. simpl.
  destruct smj1 as [m|]; simpl; eexists; repeat split.
Qed.

Lemma job_success_returns_array_witness :
  exists s',
    Slurm.get_values_for_trajectory succeeding example_slurm_wrapper
      example_trajectory example_state = (Ok "array", s')
    /\ Slurm.files s' = example_files
    /\ Slurm.slurm_max_job s' = Some 1%nat.
Proof.
  edestruct (job_success_returns_array succeeding example_slurm_wrapper
               example_trajectory example_state)
    as (s' & Hrun & Hfiles & Hsem).
  - vm_compute. reflexivity.
  - reflexivity.
  - reflexivity.
  - reflexivity.
  - vm_compute. eauto.
  - vm_compute. reflexivity.
  - exists s'. split; [exact Hrun|]. split.
    + rewrite Hfiles. vm_compute. reflexivity.
    + rewrite Hsem. reflexivity.
Defined.

(** X9: with a custom loader the call removes the result file itself
    after loading, so a loader that has returned values but has removed
    (or never found) the file of that name makes the call fail with
    [FileNotFoundError]: the values are lost, the submission script is
    gone and a configured permit is back. *)
Theorem loader_removing_result_file_fails
    (sc : Slurm.scenario) (w : Slurm.t) (traj : Trajectory)
    (s s1 : Slurm.state) (p : Slurm.submission) (proc : Slurm.SlurmProcess)
    (stdout stderr : string) (f : Slurm.loader) (vals : ndarray)
    (left_by_loader : filesystem)
    (Hprepare : Slurm.prepare sc w traj s = (Ok p, s1))
    (Hsubmit : Slurm.submit sc = Ok proc)
    (Hjob : Slurm.communicate sc = Ok (stdout, stderr, 0))
    (Hloader : Slurm.load_results_func w = Some f)
    (Hscript : is_Some (Slurm.job_writes sc (Slurm.files s1)
                        !! Slurm.sbatch_fname p))
    (Hloaded : f (Slurm.result_file p)
                 (delete (Slurm.sbatch_fname p)
                    (Slurm.job_writes sc (Slurm.files s1)))
               = (Ok vals, left_by_loader))
    (Hgone : left_by_loader !! Slurm.result_file p = None) :
  exists s',
    Slurm.get_values_for_trajectory sc w traj s
    = (Raise (FileNotFoundError (Slurm.result_file p)), s')
    /\ Slurm.files s' = left_by_loader
    /\ Slurm.slurm_max_job s' = S <$> Slurm.slurm_max_job s1.
Proof.
  rewrite (get_values_after_prepare _ _ _ _ _ _ Hprepare).
  destruct Hscript as [old Hold].
  destruct s1 as [fs1 mfo1 smj1 tr1 sp1]. simpl in *.
  clear Hprepare. run_call. rewrite Hsubmit, Hjob, Hloader. simpl.
  rewrite Hold. simpl. rewrite Hloaded. simpl. rewrite Hgone. simpl.
  destruct smj1 as [m|]; simpl; eexists; repeat split.
Qed.

Lemma loader_removing_result_file_fails_witness :
  exists s',
    Slurm.get_values_for_trajectory succeeding_custom example_removing_wrapper
      example_trajectory example_state
    = (Raise (FileNotFoundError "/d/traj.trr_12345_CVfunc_id_None"), s')
    /\ Slurm.files s' = example_files
    /\ Slurm.slurm_max_job s' = Some 1%nat.
Proof.
  edestruct (loader_removing_result_file_fails succeeding_custom
               example_removing_wrapper example_trajectory example_state)
    as (s' & Hrun & Hfiles & Hsem).
  - vm_compute. reflexivity.
  - reflexivity.
  - reflexivity.
  - reflexivity.
  - vm_compute. eauto.
  - vm_compute. reflexivity.
  - vm_compute. reflexivity.
  - exists s'. split; [exact Hrun|]. split.
    + rewrite Hfiles. vm_compute. reflexivity.
    + rewrite Hsem. reflexivity.
Defined.

(** What the [try] statement does in any case: it touches no permit for
    open files, reads or removes files only after a job that ended with
    exit code 0, and calls [kill] at most once, only when cancelled
    while it waits for the job. *)
Lemma run_job_facts (sc : Slurm.scenario) (w : Slurm.t) (traj : Trajectory)
    (p : Slurm.submission) (s1 : Slurm.state) :
  Slurm.slurm_proc s1 = None ->
  exists r s' evs,
    Slurm.run_job sc w traj p s1 = (r, s')
    /\ Slurm.trace s' = Slurm.trace s1 ++ evs
    /\ (count (is_acquire Slurm.MAX_FILES_OPEN) evs = 0%nat
        /\ count (is_release Slurm.MAX_FILES_OPEN) evs = 0%nat
        /\ count (is_wake_up Slurm.MAX_FILES_OPEN) evs = 0%nat
        /\ Slurm.max_files_open s' = Slurm.max_files_open s1)
    /\ (count reads_or_removes evs <> 0%nat ->
        exists proc stdout stderr,
          Slurm.submit sc = Ok proc
          /\ Slurm.communicate sc = Ok (stdout, stderr, 0))
    /\ ((count is_kill evs <= 1)%nat
        /\ (count is_kill evs <> 0%nat ->
            exists proc,
              Slurm.submit sc = Ok proc
              /\ Slurm.communicate sc = Raise CancelledError
              /\ r = Raise CancelledError))
    /\ (Slurm.slurm_max_job s1 = None ->
        Slurm.slurm_max_job s' = None
        /\ count (is_acquire Slurm.SLURM_MAX_JOB) evs = 0%nat
        /\ count (is_release Slurm.SLURM_MAX_JOB) evs = 0%nat
        /\ count (is_wake_up Slurm.SLURM_MAX_JOB) evs = 0%nat).
Proof.
  destruct s1 as [fs1 mfo1 smj1 tr1 sp1]. simpl. intros ->.
  run_call. run_cases.
  all: try match goal with
       | H : bool_decide (?rc <> 0) = false |- _ =>
           apply bool_decide_eq_false in H;
           assert (rc = 0) as -> by lia
       end.
  all: eexists _, _, _; split; [reflexivity|]; simpl.
  all: rewrite <- ?app_assoc; simpl.
  all: split; [reflexivity|].
  all: cbv [count]; simpl.
  all: repeat split; try lia; try discriminate;
         try (intros; exfalso; lia); eauto.
Qed.

(** What the first part does in any case. *)
Lemma prepare_facts (sc : Slurm.scenario) (w : Slurm.t) (traj : Trajectory)
    (s : Slurm.state) :
  exists r s1 evs,
    Slurm.prepare sc w traj s = (r, s1)
    /\ Slurm.trace s1 = Slurm.trace s ++ evs
    /\ Slurm.slurm_proc s1 = None
    /\ (count on_job evs = 0%nat
        /\ count reads_or_removes evs = 0%nat
        /\ count is_kill evs = 0%nat)
    /\ (count (is_release Slurm.MAX_FILES_OPEN) evs
        = count (is_acquire Slurm.MAX_FILES_OPEN) evs
        /\ Slurm.max_files_open s1
           = (Slurm.max_files_open s
              + count (is_wake_up Slurm.MAX_FILES_OPEN) evs)%nat)
    /\ (Slurm.slurm_max_job s = None ->
        Slurm.slurm_max_job s1 = None
        /\ count (is_acquire Slurm.SLURM_MAX_JOB) evs = 0%nat
        /\ count (is_release Slurm.SLURM_MAX_JOB) evs = 0%nat
        /\ count (is_wake_up Slurm.SLURM_MAX_JOB) evs = 0%nat).
Proof.
  destruct s as [fs mfo smj tr sp]. run_call. run_cases.
  all: eexists _, _, _; split; [reflexivity|]; simpl.
  all: rewrite <- ?app_assoc; simpl.
  all: split; [first [reflexivity | symmetry; apply app_nil_r]|].
  all: cbv [count]; simpl.
  all: repeat first [intro | split]; try lia; try congruence.
Qed.

(** The two parts put together: the events of the call are those of the
    first part followed by those of the [try] statement. *)
Lemma call_facts (sc : Slurm.scenario) (w : Slurm.t) (traj : Trajectory)
    (s : Slurm.state) :
  exists r s' evs1 evs2,
    Slurm.get_values_for_trajectory sc w traj s = (r, s')
    /\ Slurm.trace s' = Slurm.trace s ++ evs1 ++ evs2
    /\ (count on_job evs1 = 0%nat
        /\ count reads_or_removes evs1 = 0%nat
        /\ count is_kill evs1 = 0%nat)
    /\ (count (is_release Slurm.MAX_FILES_OPEN) evs1
        = count (is_acquire Slurm.MAX_FILES_OPEN) evs1
        /\ count (is_acquire Slurm.MAX_FILES_OPEN) evs2 = 0%nat
        /\ count (is_release Slurm.MAX_FILES_OPEN) evs2 = 0%nat
        /\ count (is_wake_up Slurm.MAX_FILES_OPEN) evs2 = 0%nat
        /\ Slurm.max_files_open s'
           = (Slurm.max_files_open s
              + count (is_wake_up Slurm.MAX_FILES_OPEN) evs1)%nat)
    /\ (count reads_or_removes evs2 <> 0%nat ->
        exists proc stdout stderr,
          Slurm.submit sc = Ok proc
          /\ Slurm.communicate sc = Ok (stdout, stderr, 0))
    /\ ((count is_kill evs2 <= 1)%nat
        /\ (count is_kill evs2 <> 0%nat ->
            exists proc,
              Slurm.submit sc = Ok proc
              /\ Slurm.communicate sc = Raise CancelledError
              /\ r = Raise CancelledError))
    /\ (Slurm.slurm_max_job s = None ->
        Slurm.slurm_max_job s' = None
        /\ count (is_acquire Slurm.SLURM_MAX_JOB) (evs1 ++ evs2) = 0%nat
        /\ count (is_release Slurm.SLURM_MAX_JOB) (evs1 ++ evs2) = 0%nat
        /\ count (is_wake_up Slurm.SLURM_MAX_JOB) (evs1 ++ evs2) = 0%nat).
Proof.
  destruct (prepare_facts sc w traj s)
    as (r1 & s1 & evs1 & Hprep & Htrace1 & Hproc & Hquiet & Hfiles & Hnone).
  destruct r1 as [p|e].
  - destruct (run_job_facts sc w traj p s1 Hproc)
      as (r & s' & evs2 & Hrun & Htrace2 & (Ha & Hr & Hw & Hmfo)
          & Hread & Hkill & Hnone2).
    exists r, s', evs1, evs2.
    rewrite (get_values_after_prepare _ _ _ _ _ _ Hprep).
    split; [exact Hrun|].
    split; [now rewrite Htrace2, Htrace1, app_assoc|].
    split; [exact Hquiet|].
    split; [destruct Hfiles as [Hbal Hval]; repeat split; try assumption;
            now rewrite Hmfo|].
    split; [exact Hread|]. split; [exact Hkill|].
    intros Hs. destruct (Hnone Hs) as (Hs1 & H1a & H1r & H1w).
    destruct (Hnone2 Hs1) as (Hs' & H2a & H2r & H2w).
    rewrite !count_app, H1a, H1r, H1w, H2a, H2r, H2w. now repeat split.
  - exists (Raise e), s1, evs1, [].
    destruct (prepare_raise sc w traj s s1 e Hprep) as [Hrun _].
    split; [exact Hrun|].
    split; [now rewrite app_nil_r|].
    split; [exact Hquiet|].
    split; [destruct Hfiles as [Hbal Hval]; now repeat split|].
    split; [intros H; now elim H|].
    split; [split; [cbv [count]; simpl; lia | intros H; now elim H]|].
    intros Hs. rewrite app_nil_r. exact (Hnone Hs).
Qed.

(** X10: whatever happens in a call of the SLURM backend, it reads or
    removes a file (the submission script, the result file) only when
    the job was submitted and ended with exit code 0; a job that failed,
    could not be submitted or was cancelled leaves the call without any
    read or removal. *)
Theorem files_touched_only_after_exit_code_zero
    (sc : Slurm.scenario) (w : Slurm.t) (traj : Trajectory) (s : Slurm.state) :
  exists r s' evs,
    Slurm.get_values_for_trajectory sc w traj s = (r, s')
    /\ Slurm.trace s' = Slurm.trace s ++ evs
    /\ (count reads_or_removes evs <> 0%nat ->
        exists proc stdout stderr,
          Slurm.submit sc = Ok proc
          /\ Slurm.communicate sc = Ok (stdout, stderr, 0)).
Proof.
  destruct (call_facts sc w traj s)
    as (r & s' & evs1 & evs2 & Hrun & Htrace & (_ & Hq & _) & _ & Hread & _).
  exists r, s', (evs1 ++ evs2). repeat split; try assumption.
  rewrite count_app, Hq. exact Hread.
Qed.

(** X11: in any call of the SLURM backend [kill] is called at most
    once, and when it is called the job had been submitted, the call was
    cancelled while it waited for the job, and the call ends with
    [CancelledError]. *)
Theorem kill_only_when_cancelled_waiting_for_job
    (sc : Slurm.scenario) (w : Slurm.t) (traj : Trajectory) (s : Slurm.state) :
  exists r s' evs,
    Slurm.get_values_for_trajectory sc w traj s = (r, s')
    /\ Slurm.trace s' = Slurm.trace s ++ evs
    /\ (count is_kill evs <= 1)%nat
    /\ (count is_kill evs <> 0%nat ->
        exists proc,
          Slurm.submit sc = Ok proc
          /\ Slurm.communicate sc = Raise CancelledError
          /\ r = Raise CancelledError).
Proof.
  destruct (call_facts sc w traj s)
    as (r & s' & evs1 & evs2 & Hrun & Htrace & (_ & _ & Hk) & _ & _
        & [Hle Hkill] & _).
  exists r, s', (evs1 ++ evs2).
  rewrite count_app, Hk. now repeat split.
Qed.

(** X12: when no limit on queued jobs is configured, a call of the
    SLURM backend neither takes nor gives back a permit for one,
    however it ends, and leaves the limit unconfigured. *)
Theorem no_limit_no_permit
    (sc : Slurm.scenario) (w : Slurm.t) (traj : Trajectory) (s : Slurm.state)
    (Hnone : Slurm.slurm_max_job s = None) :
  exists r s' evs,
    Slurm.get_values_for_trajectory sc w traj s = (r, s')
    /\ Slurm.trace s' = Slurm.trace s ++ evs
    /\ Slurm.slurm_max_job s' = None
    /\ count (is_acquire Slurm.SLURM_MAX_JOB) evs = 0%nat
    /\ count (is_release Slurm.SLURM_MAX_JOB) evs = 0%nat
    /\ count (is_wake_up Slurm.SLURM_MAX_JOB) evs = 0%nat.
Proof.
  destruct (call_facts sc w traj s)
    as (r & s' & evs1 & evs2 & Hrun & Htrace & _ & _ & _ & _ & Hn).
  exists r, s', (evs1 ++ evs2).
  split; [exact Hrun|]. split; [exact Htrace|]. exact (Hn Hnone).
Qed.

Lemma no_limit_no_permit_witness :
  exists r s' evs,
    Slurm.get_values_for_trajectory succeeding example_slurm_wrapper
      example_trajectory unlimited_state = (r, s')
    /\ Slurm.trace s' = Slurm.trace unlimited_state ++ evs
    /\ Slurm.slurm_max_job s' = None
    /\ count (is_acquire Slurm.SLURM_MAX_JOB) evs = 0%nat
    /\ count (is_release Slurm.SLURM_MAX_JOB) evs = 0%nat
    /\ count (is_wake_up Slurm.SLURM_MAX_JOB) evs = 0%nat.
Proof.
  apply (no_limit_no_permit succeeding example_slurm_wrapper
           example_trajectory unlimited_state).
  reflexivity.
Defined.

(** X13: in any call of the SLURM backend the permit for open files is
    taken only to write the submission script and is given back before
    the job is submitted: all that concerns this permit comes first and
    is balanced, all that concerns the job comes after; the value of the
    semaphore afterwards is the value before, plus one if the call had
    to wait for another task to release a permit. *)
Theorem open_files_permit_released_before_submission
    (sc : Slurm.scenario) (w : Slurm.t) (traj : Trajectory) (s : Slurm.state) :
  exists r s' evs1 evs2,
    Slurm.get_values_for_trajectory sc w traj s = (r, s')
    /\ Slurm.trace s' = Slurm.trace s ++ evs1 ++ evs2
    /\ count on_job evs1 = 0%nat
    /\ count (is_acquire Slurm.MAX_FILES_OPEN) evs2 = 0%nat
    /\ count (is_release Slurm.MAX_FILES_OPEN) evs2 = 0%nat
    /\ count (is_release Slurm.MAX_FILES_OPEN) evs1
       = count (is_acquire Slurm.MAX_FILES_OPEN) evs1
    /\ Slurm.max_files_open s'
       = (Slurm.max_files_open s
          + count (is_wake_up Slurm.MAX_FILES_OPEN) evs1)%nat.
Proof.
  destruct (call_facts sc w traj s)
    as (r & s' & evs1 & evs2 & Hrun & Htrace & (Hjob & _)
        & (Hbal & Ha & Hr & _ & Hval) & _).
  exists r, s', evs1, evs2. now repeat split.
Qed.

(** X14: when the call has got as far as the submission and the
    submission, or the wait for the job, raises an exception other than
    a cancellation, the call raises that very exception; it calls
    [kill] on nothing, reads and removes no file, and a configured
    permit is back. *)
Theorem job_errors_propagate
    (sc : Slurm.scenario) (w : Slurm.t) (traj : Trajectory)
    (s s1 : Slurm.state) (p : Slurm.submission) (e : exn)
    (Hprepare : Slurm.prepare sc w traj s = (Ok p, s1))
    (Herror : e <> CancelledError)
    (Hraised : Slurm.submit sc = Raise e
               \/ exists proc, Slurm.submit sc = Ok proc
                               /\ Slurm.communicate sc = Raise e) :
  exists s' evs,
    Slurm.get_values_for_trajectory sc w traj s = (Raise e, s')
    /\ Slurm.trace s' = Slurm.trace s1 ++ evs
    /\ count is_kill evs = 0%nat
    /\ count reads_or_removes evs = 0%nat
    /\ Slurm.slurm_max_job s' = S <$> Slurm.slurm_max_job s1.
Proof.
  rewrite (get_values_after_prepare _ _ _ _ _ _ Hprepare). clear Hprepare.
  destruct s1 as [fs1 mfo1 smj1 tr1 sp1].
  run_call.
  destruct Hraised as [Hsub|(proc & Hsub & Hcomm)];
    rewrite Hsub; simpl; rewrite ?Hcomm; simpl;
    (destruct e; try (now elim Herror); simpl);
    (destruct smj1 as [m|]; simpl);
    eexists _, _; (split; [reflexivity|]); simpl;
    rewrite <- ?app_assoc; simpl;
    (split; [reflexivity|]); cbv [count]; simpl; repeat split.
Qed.

Lemma job_errors_propagate_witness :
  exists s' evs,
    Slurm.get_values_for_trajectory
      {| Slurm.files_open_wait := Ok tt;
         Slurm.slurm_job_wait := Ok tt;
         Slurm.submit := Raise (OSError "sbatch: command not found");
         Slurm.communicate := Ok ("done", "warning: slow", 0);
         Slurm.job_writes := fun fs => fs;
         Slurm.str_format := no_other_template |}
      example_slurm_wrapper example_trajectory example_state
    = (Raise (OSError "sbatch: command not found"), s')
    /\ Slurm.trace s'
       = [Slurm.EAcquire Slurm.MAX_FILES_OPEN;
          Slurm.EWrite "/d/traj.trr_CVfunc_id_None.slurm"
            "#!/bin/bash
srun /bin/cv /d/conf.gro /d/traj.trr /d/traj.trr_12345_CVfunc_id_None";
          Slurm.ERelease Slurm.MAX_FILES_OPEN;
          Slurm.EAcquire Slurm.SLURM_MAX_JOB] ++ evs
    /\ count is_kill evs = 0%nat
    /\ count reads_or_removes evs = 0%nat
    /\ Slurm.slurm_max_job s' = S <$> Some 0%nat.
Proof.
  eapply (job_errors_propagate _ example_slurm_wrapper example_trajectory
            example_state
            {| Slurm.files :=
                 <["/d/traj.trr_CVfunc_id_None.slurm" := "#!/bin/bash
srun /bin/cv /d/conf.gro /d/traj.trr /d/traj.trr_12345_CVfunc_id_None"]>
                   example_files;
               Slurm.max_files_open := 2;
               Slurm.slurm_max_job := Some 0%nat;
               Slurm.trace :=
                 [Slurm.EAcquire Slurm.MAX_FILES_OPEN;
                  Slurm.EWrite "/d/traj.trr_CVfunc_id_None.slurm"
                    "#!/bin/bash
srun /bin/cv /d/conf.gro /d/traj.trr /d/traj.trr_12345_CVfunc_id_None";
                  Slurm.ERelease Slurm.MAX_FILES_OPEN;
                  Slurm.EAcquire Slurm.SLURM_MAX_JOB];
               Slurm.slurm_proc := None |}).
  - vm_compute. reflexivity.
  - discriminate.
  - left. reflexivity.
Defined.

(** X15: a trajectory without files, or a submission script for which
    [format] raises, ends the call before it has done anything: the
    exception is raised (an [IndexError] for the missing file, and what
    [format] raises for the script: a [KeyError] for a field with a name
    other than [cmd_str], for one) with the files, both semaphores and
    the events as they were. *)
Theorem early_errors_have_no_effect
    (sc : Slurm.scenario) (w : Slurm.t) (traj : Trajectory) (s : Slurm.state)
    (e : exn)
    (Hearly : (trajectory_files traj = []
               /\ e = IndexError "list index out of range")
              \/ exists first rest,
                   trajectory_files traj = first :: rest
                   /\ Slurm.format_script sc (Slurm.sbatch_script w)
                        (Slurm.build_cmd_str w traj
                           (Slurm.result_file_of w traj first))
                      = Raise e) :
  exists s',
    Slurm.get_values_for_trajectory sc w traj s = (Raise e, s')
    /\ Slurm.files s' = Slurm.files s
    /\ Slurm.max_files_open s' = Slurm.max_files_open s
    /\ Slurm.slurm_max_job s' = Slurm.slurm_max_job s
    /\ Slurm.trace s' = Slurm.trace s.
Proof.
  destruct s as [fs mfo smj tr sp]. run_call.
  destruct Hearly as [[Hnone ->]|(first & rest & Hfiles & Hformat)].
  - rewrite Hnone. simpl. eexists. repeat split.
  - rewrite Hfiles. simpl. rewrite Hformat. simpl. eexists. repeat split.
Qed.

Lemma early_errors_have_no_effect_witness :
  exists s',
    Slurm.get_values_for_trajectory succeeding
      {| Slurm._id := None; Slurm._call_kwargs := [];
         Slurm._executable := Some "/bin/cv";
         Slurm._slurm_jobname := None;
         Slurm.sbatch_script := "#!/bin/bash
srun {cmd}";
         Slurm.load_results_func := None |}
      example_trajectory example_state
    = (Raise (KeyError "cmd"), s')
    /\ Slurm.files s' = Slurm.files example_state
    /\ Slurm.max_files_open s' = Slurm.max_files_open example_state
    /\ Slurm.slurm_max_job s' = Slurm.slurm_max_job example_state
    /\ Slurm.trace s' = Slurm.trace example_state.
Proof.
  apply early_errors_have_no_effect.
  right. exists "/d/traj.trr", []. split; [reflexivity|].
  vm_compute. reflexivity.
Defined.

(** X16: when the first part of the call succeeds, the submission
    script it has written is the template with the command line put in
    the place of the field [cmd_str], under the name made of the
    directory and the name of the first trajectory file and the job
    name; a file of that name that was there before is overwritten,
    with one logged error, and without one if there was none. *)
Theorem submission_script_written
    (sc : Slurm.scenario) (w : Slurm.t) (traj : Trajectory)
    (s s1 : Slurm.state) (p : Slurm.submission)
    (Hprepare : Slurm.prepare sc w traj s = (Ok p, s1)) :
  exists first rest evs,
    trajectory_files traj = first :: rest
    /\ Slurm.sbatch_fname p = Slurm.sbatch_fname_of w first
    /\ Slurm.result_file p = Slurm.result_file_of w traj first
    /\ Slurm.tra_dir p = (os_path_split first).1
    /\ Slurm.format_script sc (Slurm.sbatch_script w)
         (Slurm.build_cmd_str w traj (Slurm.result_file p))
       = Ok (Slurm.script p)
    /\ Slurm.files s1 !! Slurm.sbatch_fname p = Some (Slurm.script p)
    /\ Slurm.trace s1 = Slurm.trace s ++ evs
    /\ count is_log evs
       = (if Slurm.files s !! Slurm.sbatch_fname p is Some _ then 1 else 0)%nat.
Proof.
  revert Hprepare. destruct s as [fs mfo smj tr sp]. run_call. run_cases.
  all: eexists _, _, _; split; [reflexivity|]; simpl.
  all: repeat (split; [first [reflexivity | assumption
                             | apply lookup_insert_eq]|]).
  all: rewrite <- ?app_assoc; simpl.
  all: split; [reflexivity|].
  all: rewrite ?count_app; cbv [count]; simpl.
  all: try congruence.
  all: try match goal with H : _ !! _ = _ |- _ => rewrite H end; reflexivity.
Qed.

Lemma submission_script_written_witness :
  exists first rest evs,
    trajectory_files example_trajectory = first :: rest
    /\ Slurm.sbatch_fname rerun_submission
       = Slurm.sbatch_fname_of example_slurm_wrapper first
    /\ Slurm.result_file rerun_submission
       = Slurm.result_file_of example_slurm_wrapper example_trajectory first
    /\ Slurm.tra_dir rerun_submission = (os_path_split first).1
    /\ Slurm.format_script succeeding
         (Slurm.sbatch_script example_slurm_wrapper)
         (Slurm.build_cmd_str example_slurm_wrapper example_trajectory
            (Slurm.result_file rerun_submission))
       = Ok (Slurm.script rerun_submission)
    /\ Slurm.files rerun_prepared !! Slurm.sbatch_fname rerun_submission
       = Some (Slurm.script rerun_submission)
    /\ Slurm.trace rerun_prepared = Slurm.trace rerun_state ++ evs
    /\ count is_log evs
       = (if Slurm.files rerun_state !! Slurm.sbatch_fname rerun_submission
          is Some _ then 1 else 0)%nat.
Proof.
  apply (submission_script_written succeeding example_slurm_wrapper
           example_trajectory rerun_state rerun_prepared rerun_submission).
  vm_compute. reflexivity.
Defined.

(** ** The paths of a call *)

#[local] Transparent os_path_split os_path_join str_take str_int
  Slurm.result_file_of Slurm.sbatch_fname_of Slurm.slurm_jobname.

Lemma chars_text (l : list ascii) : chars (text l) = l.
Proof. apply String.list_ascii_of_string_of_list_ascii. Qed.

Lemma text_chars (s : string) : text (chars s) = s.
Proof. apply String.string_of_list_ascii_of_string. Qed.

Lemma chars_append (a b : string) : chars (a +:+ b) = chars a ++ chars b.
Proof. induction a as [|x a IH]; [reflexivity|]. simpl. now rewrite <- IH. Qed.

Lemma no_slash_append (a b : string) :
  no_slash (a +:+ b) = no_slash a && no_slash b.
Proof. unfold no_slash. now rewrite chars_append, forallb_app. Qed.

Lemma take_while_all {A} (f : A -> bool) (l k : list A) :
  forallb f l = true -> match k with [] => True | x :: _ => f x = false end ->
  take_while f (l ++ k) = l /\ drop_while f (l ++ k) = k.
Proof.
  intros Hl Hk. induction l as [|x l IH]; simpl in *.
  - destruct k as [|y k]; [easy|]. simpl. now rewrite Hk.
  - apply andb_true_iff in Hl as [-> Hl]. destruct (IH Hl) as [-> ->]. easy.
Qed.

Lemma drop_while_shape {A} (f : A -> bool) (l : list A) :
  match drop_while f l with [] => True | x :: _ => f x = false end.
Proof.
  induction l as [|x l IH]; simpl; [easy|].
  destruct (f x) eqn:E; [exact IH|exact E].
Qed.

Lemma drop_while_nil {A} (f : A -> bool) (l : list A) :
  drop_while f l = [] -> forallb f l = true.
Proof.
  induction l as [|x l IH]; simpl; [easy|].
  destruct (f x); [exact IH|discriminate].
Qed.

Lemma take_while_forallb {A} (f : A -> bool) (l : list A) :
  forallb f (take_while f l) = true.
Proof.
  induction l as [|x l IH]; simpl; [easy|].
  destruct (f x) eqn:E; simpl; [now rewrite E|easy].
Qed.

Lemma forallb_rev {A} (f : A -> bool) (l : list A) :
  forallb f (rev l) = forallb f l.
Proof.
  induction l as [|x l IH]; simpl; [easy|].
  rewrite forallb_app, IH. simpl. rewrite andb_true_r. apply andb_comm.
Qed.

(** The head [os.path.split] gives is made of slashes only or does not
    end with one. *)
Lemma os_path_split_head (p : string) :
  match rev (chars (os_path_split p).1) with
  | [] => True
  | c :: l => forallb is_slash (c :: l) = true \/ is_slash c = false
  end.
Proof.
  unfold os_path_split. simpl. rewrite chars_text, rev_involutive.
  set (h := drop_while _ _).
  destruct (forallb is_slash h) eqn:E.
  - destruct h; [easy|]. now left.
  - pose proof (drop_while_shape is_slash h) as S.
    destruct (drop_while is_slash h); [easy|]. now right.
Qed.

Lemma os_path_split_tail (p : string) : no_slash (os_path_split p).2 = true.
Proof.
  unfold os_path_split, no_slash. simpl. rewrite chars_text, forallb_rev.
  apply take_while_forallb.
Qed.

(** [os.path.split] undoes [os.path.join] of such a head with a name
    that is not empty and has no slash. *)
Lemma os_path_split_join (d x : string) :
  match rev (chars d) with
  | [] => True
  | c :: l => forallb is_slash (c :: l) = true \/ is_slash c = false
  end ->
  x <> EmptyString -> no_slash x = true ->
  os_path_split (os_path_join d x) = (d, x).
Proof.
  intros Hd Hx Hns.
  destruct x as [|c x]; [easy|]. clear Hx.
  assert (Hc : is_slash c = false).
  { unfold no_slash in Hns. simpl in Hns. apply andb_true_iff in Hns as [H _].
    now apply negb_true_iff in H. }
  assert (Hr : forallb (fun c => negb (is_slash c)) (rev (chars (String c x)))
               = true) by now rewrite forallb_rev.
  unfold os_path_join. simpl chars at 1. cbv iota. rewrite Hc.
  destruct (rev (chars d)) as [|e l] eqn:Ed.
  - assert (d = EmptyString) as ->.
    { rewrite <- (text_chars d), <- (rev_involutive (chars d)), Ed. reflexivity. }
    unfold os_path_split.
    destruct (take_while_all (fun c => negb (is_slash c))
                (rev (chars (String c x))) [] Hr I) as [Ht Hdr].
    rewrite app_nil_r in Ht, Hdr. rewrite Ht, Hdr. simpl forallb. cbv iota.
    now rewrite rev_involutive, text_chars.
  - destruct (is_slash e) eqn:Ee.
    + destruct Hd as [Hall|Hno]; [|congruence].
      unfold os_path_split. rewrite chars_append, rev_app_distr, Ed.
      destruct (take_while_all (fun c => negb (is_slash c))
                  (rev (chars (String c x))) (e :: l) Hr) as [Ht Hdr].
      { simpl. now rewrite Ee. }
      rewrite Ht, Hdr, Hall, rev_involutive, text_chars.
      now rewrite <- Ed, rev_involutive, text_chars.
    + unfold os_path_split.
      rewrite !chars_append, !rev_app_distr, Ed, <- app_assoc.
      change (rev (chars "/")) with [slash]. simpl ([slash] ++ _).
      destruct (take_while_all (fun c => negb (is_slash c))
                  (rev (chars (String c x))) (slash :: e :: l) Hr) as [Ht Hdr].
      { reflexivity. }
      rewrite Ht, Hdr, rev_involutive, text_chars.
      simpl forallb. rewrite Ee. simpl. rewrite Ee.
      now rewrite <- Ed, rev_involutive, text_chars.
Qed.

Lemma string_of_uint_no_slash (d : Decimal.uint) :
  no_slash (NilEmpty.string_of_uint d) = true.
Proof. induction d; simpl; try reflexivity; exact IHd. Qed.

Lemma str_int_no_slash (z : Z) : no_slash (str_int z) = true.
Proof.
  unfold str_int, NilZero.string_of_int.
  destruct (Z.to_int z) as [d|d]; unfold NilZero.string_of_uint;
    destruct d; try reflexivity;
    first [ apply (string_of_uint_no_slash (_ d))
          | change (no_slash (String "-" ?s)) with (no_slash s);
            apply (string_of_uint_no_slash (_ d)) ].
Qed.

Lemma forallb_take {A} (f : A -> bool) (n : nat) (l : list A) :
  forallb f l = true -> forallb f (take n l) = true.
Proof.
  revert n; induction l as [|x l IH]; intros [|n]; simpl; try easy.
  intros [-> H]%andb_true_iff. now apply IH.
Qed.

Lemma str_take_no_slash (n : nat) (s : string) :
  no_slash s = true -> no_slash (str_take n s) = true.
Proof.
  unfold no_slash, str_take. rewrite chars_text. apply forallb_take.
Qed.

(** X17: for a wrapper whose identity is undefined or one the code
    derives (the decimal text of a number) the result file lies in the
    directory of the first trajectory file, the directory the job works
    in, under the name made of the file's name, the first five
    characters of the trajectory's hash and the identity; so does the
    submission script when the job name is the default one or has no
    slash. *)
Theorem files_in_trajectory_directory
    (w : Slurm.t) (traj : Trajectory) (first : string)
    (Hid : id w = None \/ exists z, id w = Some (str_int z)) :
  let tra_dir := (os_path_split first).1 in
  let tra_name := (os_path_split first).2 in
  os_path_split (Slurm.result_file_of w traj first)
  = (tra_dir,
     tra_name +:+ "_" +:+ str_take 5 (str_int (trajectory_hash traj))
       +:+ "_CVfunc_id_" +:+ str_opt (id w))
  /\ (Slurm._slurm_jobname w = None
      \/ no_slash (Slurm.slurm_jobname w) = true ->
      os_path_split (Slurm.sbatch_fname_of w first)
      = (tra_dir, tra_name +:+ "_" +:+ Slurm.slurm_jobname w +:+ ".slurm")).
Proof.
  intros tra_dir tra_name.
  assert (Hns : no_slash (str_opt (Slurm._id w)) = true).
  { change (Slurm._id w) with (id w).
    destruct Hid as [->|[z ->]]; [reflexivity|apply str_int_no_slash]. }
  pose proof (os_path_split_head first) as Hhead.
  pose proof (os_path_split_tail first) as Htail.
  unfold Slurm.result_file_of, Slurm.sbatch_fname_of.
  subst tra_dir tra_name.
  destruct (os_path_split first) as [d n]. simpl in *.
  split.
  - apply os_path_split_join; [exact Hhead| |].
    + destruct n; discriminate.
    + rewrite !no_slash_append, Htail, Hns, str_take_no_slash
        by apply str_int_no_slash. reflexivity.
  - intros Hjob.
    assert (Hname : no_slash (Slurm.slurm_jobname w) = true).
    { destruct Hjob as [Hdefault|Hname]; [|exact Hname].
      unfold Slurm.slurm_jobname. rewrite Hdefault.
      rewrite no_slash_append. change (id w) with (Slurm._id w).
      rewrite Hns. reflexivity. }
    apply os_path_split_join; [exact Hhead| |].
    + destruct n; discriminate.
    + rewrite !no_slash_append, Htail, Hname. reflexivity.
Qed.

Lemma files_in_trajectory_directory_witness :
  os_path_split
    (Slurm.result_file_of example_slurm_wrapper example_trajectory
       "/d/traj.trr")
  = ("/d", "traj.trr_12345_CVfunc_id_None")
  /\ (Slurm._slurm_jobname example_slurm_wrapper = None
      \/ no_slash (Slurm.slurm_jobname example_slurm_wrapper) = true ->
      os_path_split (Slurm.sbatch_fname_of example_slurm_wrapper "/d/traj.trr")
      = ("/d", "traj.trr_CVfunc_id_None.slurm")).
Proof.
  apply (files_in_trajectory_directory example_slurm_wrapper
           example_trajectory "/d/traj.trr").
  left. reflexivity.
Defined.

#[local] Opaque os_path_split os_path_join str_take str_int
  Slurm.result_file_of Slurm.sbatch_fname_of Slurm.slurm_jobname.

(** ** The converters *)

Section ConvertProperties.

Context {time_t atoms : Type}.

Variable env : @Convert.environment time_t atoms.

Implicit Types (s evs : list (@Convert.event time_t atoms)).
Implicit Types (ts : @Convert.frame time_t atoms).
Implicit Types (frames out : list (@Convert.frame time_t atoms)).

Lemma written_app evs1 evs2 : written (evs1 ++ evs2) = written evs1 ++ written evs2.
Proof. apply flat_map_app. Qed.

Lemma opened_app evs1 evs2 : opened (evs1 ++ evs2) = opened evs1 ++ opened evs2.
Proof. apply flat_map_app. Qed.

Lemma writers_app evs1 evs2 :
  writers (evs1 ++ evs2) = writers evs1 ++ writers evs2.
Proof. apply flat_map_app. Qed.

Lemma closed_app evs1 evs2 : closed (evs1 ++ evs2) = (closed evs1 + closed evs2)%nat.
Proof. unfold closed, occurrences. now rewrite List.filter_app, length_app. Qed.

Lemma written_writes out : written (map Convert.EWrite out) = out.
Proof. induction out as [|ts out IH]; simpl; [easy|]. now rewrite IH. Qed.

Lemma opened_writes out : opened (map Convert.EWrite out) = [].
Proof. induction out as [|ts out IH]; simpl; easy. Qed.

Lemma writers_writes out : writers (map Convert.EWrite out) = [].
Proof. induction out as [|ts out IH]; simpl; easy. Qed.

Lemma closed_writes out : closed (map Convert.EWrite out) = 0%nat.
Proof. induction out as [|ts out IH]; simpl; easy. Qed.

Lemma invert_if_negative_time self step ts ts' :
  Convert.invert_if_negative env self step ts = Ok ts' ->
  Convert.data_time ts' = Convert.data_time ts.
Proof.
  unfold Convert.invert_if_negative, Convert.invert_velocities.
  destruct (Convert.invert_v_for_negative_step self); [|now intros [= <-]].
  destruct step as [z|]; [|discriminate].
  destruct (z <? 0); [|now intros [= <-]].
  destruct (Convert.invert env _); [|discriminate]. now intros [= <-].
Qed.

Lemma all_ok_cons {A B} (f : A -> result B) (x : A) (l : list A) (ys : list B) :
  all_ok f (x :: l) = Ok ys ->
  exists y ys', ys = y :: ys' /\ f x = Ok y /\ all_ok f l = Ok ys'.
Proof.
  simpl. destruct (f x) as [y|]; [|discriminate].
  destruct (all_ok f l) as [ys'|]; [|discriminate].
  intros [= <-]. now exists y, ys'.
Qed.

Lemma all_ok_times self step frames out :
  all_ok (Convert.invert_if_negative env self step) frames = Ok out ->
  forallb has_time out = forallb has_time frames.
Proof.
  revert out. induction frames as [|ts frames IH]; intros out.
  - now intros [= <-].
  - intros (ts' & out' & -> & Hts & Hrest)%all_ok_cons. simpl.
    rewrite (IH _ Hrest). unfold has_time.
    now rewrite (invert_if_negative_time _ _ _ _ Hts).
Qed.

(** The first loop writes every frame it is given. *)
Lemma first_frames_all self step frames out seen s :
  all_ok (Convert.invert_if_negative env self step) frames = Ok out ->
  Convert.first_frames env self step false frames seen s
  = (Ok seen, s ++ map Convert.EWrite out).
Proof.
  revert out s. induction frames as [|ts frames IH]; intros out s.
  - intros [= <-]. simpl. unfold ret. now rewrite app_nil_r.
  - intros (ts' & out' & -> & Hts & Hrest)%all_ok_cons. simpl.
    unfold bind, lift, Convert.emit, modify, Convert.remember, ret.
    rewrite Hts. rewrite (IH _ _ Hrest). now rewrite <- app_assoc.
Qed.

Lemma first_frames_remember self step frames out seen s :
  all_ok (Convert.invert_if_negative env self step) frames = Ok out ->
  forallb has_time out = true ->
  Convert.first_frames env self step true frames seen s
  = (Ok (from_option (fun ts => Convert.data_time ts) seen (last out)),
     s ++ map Convert.EWrite out).
Proof.
  revert out seen s. induction frames as [|ts frames IH]; intros out seen s.
  - intros [= <-] _. simpl. unfold ret. now rewrite app_nil_r.
  - intros (ts' & out' & -> & Hts & Hrest)%all_ok_cons
           [Htime Htimes]%andb_true_iff. simpl Convert.first_frames.
    unfold bind, lift, Convert.emit, modify, Convert.remember,
      Convert.time_of, ret.
    rewrite Hts. unfold has_time in Htime.
    destruct (Convert.data_time ts') as [t|] eqn:Et; [|discriminate].
    rewrite (IH _ _ _ Hrest Htimes). rewrite <- app_assoc. simpl.
    f_equal. f_equal. destruct out' as [|ts'' out'']; [simpl; now rewrite Et|].
    rewrite last_cons_cons.
    destruct (last (ts'' :: out'')) eqn:El; [reflexivity|].
    now apply last_None in El.
Qed.

(** A later loop without removal writes every frame it is given. *)
Lemma later_frames_all self step frames out seen s :
  all_ok (Convert.invert_if_negative env self step) frames = Ok out ->
  Convert.later_frames env self step false frames seen s
  = (Ok seen, s ++ map Convert.EWrite out).
Proof.
  revert out s. induction frames as [|ts frames IH]; intros out s.
  - intros [= <-]. simpl. unfold ret. now rewrite app_nil_r.
  - intros (ts' & out' & -> & Hts & Hrest)%all_ok_cons. simpl.
    unfold bind, lift, Convert.emit, modify, Convert.remember,
      Convert.is_double, ret.
    rewrite Hts. rewrite (IH _ _ Hrest). now rewrite <- app_assoc.
Qed.

(** A later loop with removal is one pass of [without_double_frames]. *)
Lemma later_frames_without_double self step frames out seen s :
  all_ok (Convert.invert_if_negative env self step) frames = Ok out ->
  forallb has_time out = true ->
  Convert.later_frames env self step true frames (Some seen) s
  = (Ok (Some (seen_after env seen out)),
     s ++ map Convert.EWrite (without_double_frames env seen out)).
Proof.
  revert out seen s. induction frames as [|ts frames IH]; intros out seen s.
  - intros [= <-] _. simpl. unfold ret. now rewrite app_nil_r.
  - intros (ts' & out' & -> & Hts & Hrest)%all_ok_cons
           [Htime Htimes]%andb_true_iff. simpl.
    unfold bind, lift, Convert.emit, modify, Convert.remember,
      Convert.is_double, Convert.time_of, ret.
    pose proof (invert_if_negative_time _ _ _ _ Hts) as Esame.
    unfold has_time in Htime.
    destruct (Convert.data_time ts') as [t|] eqn:Et; [|discriminate].
    rewrite <- Esame.
    destruct (Convert.time_eq env seen t).
    + now apply IH.
    + rewrite Hts, Et. rewrite (IH _ _ _ Hrest Htimes).
      now rewrite <- app_assoc.
Qed.

Lemma without_double_frames_app seen out1 out2 :
  forallb has_time out1 = true ->
  without_double_frames env seen (out1 ++ out2)
  = without_double_frames env seen out1
    ++ without_double_frames env (seen_after env seen out1) out2.
Proof.
  revert seen. induction out1 as [|ts out1 IH]; intros seen; [easy|].
  intros [Htime Htimes]%andb_true_iff. simpl. unfold has_time in Htime.
  destruct (Convert.data_time ts) as [t|]; [|discriminate].
  destruct (Convert.time_eq env seen t); simpl; now rewrite IH.
Qed.

Lemma seen_after_app seen out1 out2 :
  forallb has_time out1 = true ->
  seen_after env seen (out1 ++ out2)
  = seen_after env (seen_after env seen out1) out2.
Proof.
  revert seen. induction out1 as [|ts out1 IH]; intros seen; [easy|].
  intros [Htime Htimes]%andb_true_iff. simpl. unfold has_time in Htime.
  destruct (Convert.data_time ts) as [t|]; [|discriminate].
  destruct (Convert.time_eq env seen t); simpl; now rewrite IH.
Qed.

(** The loop over the later trajectories, without and with removal. *)
Lemma later_trajs_all self pairs outs seen s :
  all_ok (contribution env self) pairs = Ok outs ->
  exists evs,
    Convert.later_trajs env self false pairs seen s = (Ok seen, s ++ evs)
    /\ written evs = concat outs
    /\ opened evs = map universe_of pairs.*1
    /\ writers evs = [] /\ closed evs = 0%nat.
Proof.
  revert outs s. induction pairs as [|[traj [[start stop] step]] pairs IH];
    intros outs s.
  - intros [= <-]. exists []. simpl. unfold ret. now rewrite app_nil_r.
  - intros (out & outs' & -> & Hout & Hrest)%all_ok_cons.
    unfold contribution in Hout. simpl in Hout.
    destruct (Convert.Universe env _ _) as [u|] eqn:Eu; [|discriminate].
    destruct (Convert.select env _ _) as [frames|] eqn:Es; [|discriminate].
    simpl Convert.later_trajs.
    unfold bind, Convert.open_universe, bind, lift, Convert.emit, modify, ret.
    rewrite Eu, Es. rewrite (later_frames_all _ _ _ _ _ _ Hout).
    destruct (IH _ (s ++ [Convert.EUniverse (structure_file traj)
                             (trajectory_files traj)]
                      ++ map Convert.EWrite out) Hrest)
      as (evs & Hrun & Hw & Ho & Hws & Hc).
    exists ([Convert.EUniverse (structure_file traj) (trajectory_files traj)]
            ++ map Convert.EWrite out ++ evs).
    split.
    { rewrite <- !app_assoc in Hrun |- *. exact Hrun. }
    rewrite !written_app, !opened_app, !writers_app, !closed_app,
      written_writes, opened_writes, writers_writes, closed_writes,
      Hw, Ho, Hws, Hc.
    now repeat split.
Qed.

Lemma later_trajs_without_double self pairs outs seen s :
  all_ok (contribution env self) pairs = Ok outs ->
  forallb has_time (concat outs) = true ->
  exists evs,
    Convert.later_trajs env self true pairs (Some seen) s
    = (Ok (Some (seen_after env seen (concat outs))), s ++ evs)
    /\ written evs = without_double_frames env seen (concat outs)
    /\ opened evs = map universe_of pairs.*1
    /\ writers evs = [] /\ closed evs = 0%nat.
Proof.
  revert outs seen s.
  induction pairs as [|[traj [[start stop] step]] pairs IH]; intros outs seen s.
  - intros [= <-] _. exists []. simpl. unfold ret. now rewrite app_nil_r.
  - intros (out & outs' & -> & Hout & Hrest)%all_ok_cons. simpl concat.
    rewrite forallb_app. intros [Htimes Htimes']%andb_true_iff.
    unfold contribution in Hout. simpl in Hout.
    destruct (Convert.Universe env _ _) as [u|] eqn:Eu; [|discriminate].
    destruct (Convert.select env _ _) as [frames|] eqn:Es; [|discriminate].
    simpl Convert.later_trajs.
    unfold bind, Convert.open_universe, bind, lift, Convert.emit, modify, ret.
    rewrite Eu, Es.
    rewrite (later_frames_without_double _ _ _ _ _ _ Hout Htimes).
    destruct (IH _ (seen_after env seen out)
                (s ++ [Convert.EUniverse (structure_file traj)
                         (trajectory_files traj)]
                   ++ map Convert.EWrite (without_double_frames env seen out))
                Hrest Htimes')
      as (evs & Hrun & Hw & Ho & Hws & Hc).
    exists ([Convert.EUniverse (structure_file traj) (trajectory_files traj)]
            ++ map Convert.EWrite (without_double_frames env seen out) ++ evs).
    split.
    { rewrite <- !app_assoc in Hrun |- *.
      rewrite seen_after_app by exact Htimes. exact Hrun. }
    rewrite !written_app, !opened_app, !writers_app, !closed_app,
      written_writes, opened_writes, writers_writes, closed_writes,
      Hw, Ho, Hws, Hc.
    rewrite without_double_frames_app by exact Htimes.
    now repeat split.
Qed.

(** The loops open and close no writer, whatever happens in them. *)
Lemma first_frames_quiet self step rdf frames seen s :
  exists r evs,
    Convert.first_frames env self step rdf frames seen s = (r, s ++ evs)
    /\ writers evs = [] /\ closed evs = 0%nat.
Proof.
  revert seen s. induction frames as [|ts frames IH]; intros seen s.
  - exists (Ok seen), []. simpl. unfold ret. now rewrite app_nil_r.
  - simpl. unfold bind, lift, Convert.emit, modify, Convert.remember,
      Convert.time_of, ret.
    destruct (Convert.invert_if_negative env self step ts) as [ts'|e].
    2: { exists (Raise e), []. now rewrite app_nil_r. }
    destruct rdf; [destruct (Convert.data_time ts') as [t|]|]; simpl.
    + destruct (IH (Some t) (s ++ [Convert.EWrite ts']))
        as (r & evs & Hrun & Hw & Hc).
      exists r, ([Convert.EWrite ts'] ++ evs).
      rewrite Hrun, writers_app, closed_app, Hw, Hc, <- app_assoc.
      now repeat split.
    + exists (Raise (KeyError "time")), [Convert.EWrite ts']. now repeat split.
    + destruct (IH seen (s ++ [Convert.EWrite ts']))
        as (r & evs & Hrun & Hw & Hc).
      exists r, ([Convert.EWrite ts'] ++ evs).
      rewrite Hrun, writers_app, closed_app, Hw, Hc, <- app_assoc.
      now repeat split.
Qed.

Lemma later_frames_quiet self step rdf frames seen s :
  exists r evs,
    Convert.later_frames env self step rdf frames seen s = (r, s ++ evs)
    /\ writers evs = [] /\ closed evs = 0%nat.
Proof.
  revert seen s. induction frames as [|ts frames IH]; intros seen s.
  - exists (Ok seen), []. simpl. unfold ret. now rewrite app_nil_r.
  - assert (Hwrite : exists r evs,
      (ts <- lift (Convert.invert_if_negative env self step ts) ;;
       Convert.emit (Convert.EWrite ts) ;;;
       last_time_seen <- Convert.remember rdf ts seen ;;
       Convert.later_frames env self step rdf frames last_time_seen)%py s
      = (r, s ++ evs) /\ writers evs = [] /\ closed evs = 0%nat).
    { unfold bind, lift, Convert.emit, modify, Convert.remember,
        Convert.time_of, ret.
      destruct (Convert.invert_if_negative env self step ts) as [ts'|e].
      2: { exists (Raise e), []. now rewrite app_nil_r. }
      destruct rdf; [destruct (Convert.data_time ts') as [t|]|]; simpl.
      + destruct (IH (Some t) (s ++ [Convert.EWrite ts']))
          as (r & evs & Hrun & Hw & Hc).
        exists r, ([Convert.EWrite ts'] ++ evs).
        rewrite Hrun, writers_app, closed_app, Hw, Hc, <- app_assoc.
        now repeat split.
      + exists (Raise (KeyError "time")), [Convert.EWrite ts'].
        now repeat split.
      + destruct (IH seen (s ++ [Convert.EWrite ts']))
          as (r & evs & Hrun & Hw & Hc).
        exists r, ([Convert.EWrite ts'] ++ evs).
        rewrite Hrun, writers_app, closed_app, Hw, Hc, <- app_assoc.
        now repeat split. }
    simpl. unfold bind at 1. unfold Convert.is_double.
    destruct rdf; [destruct seen as [seen|]|].
    + unfold bind at 1, lift at 1, Convert.time_of, ret.
      destruct (Convert.data_time ts) as [t|].
      * destruct (Convert.time_eq env seen t); [apply IH|exact Hwrite].
      * exists (Raise (KeyError "time")), []. now rewrite app_nil_r.
    + exists (Raise (UnboundLocalError "last_time_seen")), [].
      unfold raise. now rewrite app_nil_r.
    + exact Hwrite.
Qed.

Lemma later_trajs_quiet self rdf pairs seen s :
  exists r evs,
    Convert.later_trajs env self rdf pairs seen s = (r, s ++ evs)
    /\ writers evs = [] /\ closed evs = 0%nat.
Proof.
  revert seen s.
  induction pairs as [|[traj [[start stop] step]] pairs IH]; intros seen s.
  - exists (Ok seen), []. simpl. unfold ret. now rewrite app_nil_r.
  - simpl. unfold bind, Convert.open_universe, bind, lift, Convert.emit,
      modify, ret.
    destruct (Convert.Universe env _ _) as [u|e].
    2: { exists (Raise e), []. now rewrite app_nil_r. }
    destruct (Convert.select env _ _) as [frames|e].
    2: { exists (Raise e), [Convert.EUniverse (structure_file traj)
                              (trajectory_files traj)]. now repeat split. }
    destruct (later_frames_quiet self step rdf frames seen
                (s ++ [Convert.EUniverse (structure_file traj)
                         (trajectory_files traj)]))
      as (r1 & evs1 & Hrun1 & Hw1 & Hc1).
    rewrite Hrun1. destruct r1 as [seen'|e].
    2: { exists (Raise e), ([Convert.EUniverse (structure_file traj)
                               (trajectory_files traj)] ++ evs1).
         rewrite writers_app, closed_app, Hw1, Hc1, <- app_assoc.
         now repeat split. }
    destruct (IH seen' ((s ++ [Convert.EUniverse (structure_file traj)
                                 (trajectory_files traj)]) ++ evs1))
      as (r & evs & Hrun & Hw & Hc).
    exists r, ([Convert.EUniverse (structure_file traj)
                  (trajectory_files traj)] ++ evs1 ++ evs).
    rewrite Hrun, !writers_app, !closed_app, Hw1, Hc1, Hw, Hc, <- !app_assoc.
    now repeat split.
Qed.

(** The end of a case: the events are given, the checks that have
    passed are among the hypotheses. *)
Ltac convert_done :=
  split; [first [reflexivity | rewrite <- !app_assoc; reflexivity]|];
  rewrite ?writers_app, ?closed_app;
  repeat match goal with
         | H : writers _ = [] |- _ => rewrite H
         | H : closed _ = 0%nat |- _ => rewrite H
         end;
  split; [intros _; split; [auto|eauto]|];
  split; [reflexivity|];
  first [split; [simpl; lia|] | simpl; lia].

Ltac convert_nothing :=
  eexists _, []; rewrite app_nil_r;
  split; [reflexivity|];
  split; [intros Hevs; now elim Hevs|];
  split; [reflexivity|];
  first [split; [simpl; lia|] | simpl; lia].

Ltac run_convert :=
  unfold Convert.concatenate, Convert.extract, Convert.with_writer,
    Convert.open_universe, Convert.structure_or, Convert.first_item,
    try_finally, bind, lift, ret, raise, Convert.emit, modify;
  simpl.

(** X18: without removal of double frames, a call of [concatenate]
    whose checks pass and whose reads succeed writes every frame its
    slices select, trajectory after trajectory in the order given, with
    the velocities inverted where asked for, and returns the new
    trajectory; trajectories and slices are paired off, so what one
    list has more than the other is never opened. *)
Theorem concatenate_keeps_every_frame
    (self : Convert.TrajectoryConcatenator) (trajs : list Trajectory)
    (slices : list Convert.slice_t) (tra_out : string)
    (struct_out : option string) (overwrite : bool) s
    (traj0 : Trajectory) (u0 : Convert.universe) out0
    (outs : list (list Convert.frame)) (t : Trajectory)
    (Hfree : Convert.path_exists env (Convert.abspath env tra_out) = false
             \/ overwrite = true)
    (Hfirst : head trajs = Some traj0)
    (Hisfile : Convert.path_isfile env (structure_of env traj0 struct_out)
               = true)
    (Hu0 : Convert.Universe env (structure_file traj0) (trajectory_files traj0)
           = Ok u0)
    (Hwriter : Convert.Writer env (Convert.abspath env tra_out)
                 (Convert.n_atoms u0) = Ok tt)
    (Hframes : all_ok (contribution env self) (zip trajs slices)
               = Ok (out0 :: outs))
    (Hnew : Convert.new_Trajectory env (Convert.abspath env tra_out)
              (structure_of env traj0 struct_out) = Ok t) :
  exists evs,
    Convert.concatenate env self trajs slices tra_out struct_out overwrite
      false s = (Ok t, s ++ evs)
    /\ written evs = out0 ++ concat outs
    /\ opened evs = map universe_of (zip trajs slices).*1
    /\ writers evs = [(Convert.abspath env tra_out, Convert.n_atoms u0)]
    /\ closed evs = 1%nat.
Proof.
  destruct trajs as [|traj0' trajs']; [discriminate|].
  injection Hfirst as ->.
  destruct slices as [|[[start0 stop0] step0] slices']; [discriminate|].
  apply all_ok_cons in Hframes
    as (out0' & outs' & [= <- <-] & Hout0 & Hrest).
  change (all_ok (contribution env self) (zip trajs' slices') = Ok outs)
    in Hrest.
  unfold contribution in Hout0. simpl in Hout0. rewrite Hu0 in Hout0.
  destruct (Convert.select env _ _) as [frames0|] eqn:Es; [|discriminate].
  assert (Hguard : Convert.path_exists env (Convert.abspath env tra_out)
                   && negb overwrite = false).
  { destruct Hfree as [-> | ->]; [reflexivity|apply andb_false_r]. }
  destruct (later_trajs_all self _ _ None
              (s ++ Convert.EUniverse (structure_file traj0)
                      (trajectory_files traj0)
                 :: Convert.EWriter (Convert.abspath env tra_out)
                      (Convert.n_atoms u0)
                 :: map Convert.EWrite out0) Hrest)
    as (evs & Hrun & Hw & Ho & Hws & Hc).
  exists ([Convert.EUniverse (structure_file traj0) (trajectory_files traj0)]
          ++ [Convert.EWriter (Convert.abspath env tra_out)
                (Convert.n_atoms u0)]
          ++ map Convert.EWrite out0 ++ evs ++ [Convert.EClose]).
  split.
  - run_convert. rewrite Hguard.
    assert (Hs : match struct_out with
                 | Some path => Ok (Convert.abspath env path)
                 | None => Ok (structure_file traj0)
                 end = Ok (structure_of env traj0 struct_out))
      by now destruct struct_out.
    rewrite Hs, Hisfile. simpl. rewrite Hu0, Hwriter, Es.
    rewrite (first_frames_all _ _ _ _ _ _ Hout0).
    rewrite <- !app_assoc. simpl.
    rewrite Hrun, Hnew. now rewrite <- !app_assoc.
  - rewrite !written_app, !opened_app, !writers_app, !closed_app,
      written_writes, opened_writes, writers_writes, closed_writes,
      Hw, Ho, Hws, Hc.
    simpl. rewrite ?app_nil_r. now repeat split.
Qed.

(** X19: with removal of double frames, a call of [concatenate] whose
    checks pass and whose reads succeed writes every frame of the first
    slice, double or not, and then the frames of the later slices in
    their order, leaving out each frame whose time is the time of the
    frame written last before it, also when that one belongs to an
    earlier trajectory. *)
Theorem concatenate_removes_double_frames
    (self : Convert.TrajectoryConcatenator) (trajs : list Trajectory)
    (slices : list Convert.slice_t) (tra_out : string)
    (struct_out : option string) (overwrite : bool) s
    (traj0 : Trajectory) (u0 : Convert.universe) out0
    (outs : list (list Convert.frame)) (t : Trajectory)
    ts0 (seen : time_t)
    (Hfree : Convert.path_exists env (Convert.abspath env tra_out) = false
             \/ overwrite = true)
    (Hfirst : head trajs = Some traj0)
    (Hisfile : Convert.path_isfile env (structure_of env traj0 struct_out)
               = true)
    (Hu0 : Convert.Universe env (structure_file traj0) (trajectory_files traj0)
           = Ok u0)
    (Hwriter : Convert.Writer env (Convert.abspath env tra_out)
                 (Convert.n_atoms u0) = Ok tt)
    (Hframes : all_ok (contribution env self) (zip trajs slices)
               = Ok (out0 :: outs))
    (Htimes : forallb has_time (out0 ++ concat outs) = true)
    (Hlast : last out0 = Some ts0)
    (Hseen : Convert.data_time ts0 = Some seen)
    (Hnew : Convert.new_Trajectory env (Convert.abspath env tra_out)
              (structure_of env traj0 struct_out) = Ok t) :
  exists evs,
    Convert.concatenate env self trajs slices tra_out struct_out overwrite
      true s = (Ok t, s ++ evs)
    /\ written evs = out0 ++ without_double_frames env seen (concat outs)
    /\ opened evs = map universe_of (zip trajs slices).*1
    /\ writers evs = [(Convert.abspath env tra_out, Convert.n_atoms u0)]
    /\ closed evs = 1%nat.
Proof.
  destruct trajs as [|traj0' trajs']; [discriminate|].
  injection Hfirst as ->.
  destruct slices as [|[[start0 stop0] step0] slices']; [discriminate|].
  apply all_ok_cons in Hframes
    as (out0' & outs' & [= <- <-] & Hout0 & Hrest).
  change (all_ok (contribution env self) (zip trajs' slices') = Ok outs)
    in Hrest.
  unfold contribution in Hout0. simpl in Hout0. rewrite Hu0 in Hout0.
  destruct (Convert.select env _ _) as [frames0|] eqn:Es; [|discriminate].
  rewrite forallb_app in Htimes.
  apply andb_true_iff in Htimes as [Htimes0 Htimes'].
  assert (Hguard : Convert.path_exists env (Convert.abspath env tra_out)
                   && negb overwrite = false).
  { destruct Hfree as [-> | ->]; [reflexivity|apply andb_false_r]. }
  destruct (later_trajs_without_double self _ _ seen
              (s ++ Convert.EUniverse (structure_file traj0)
                      (trajectory_files traj0)
                 :: Convert.EWriter (Convert.abspath env tra_out)
                      (Convert.n_atoms u0)
                 :: map Convert.EWrite out0) Hrest Htimes')
    as (evs & Hrun & Hw & Ho & Hws & Hc).
  exists ([Convert.EUniverse (structure_file traj0) (trajectory_files traj0)]
          ++ [Convert.EWriter (Convert.abspath env tra_out)
                (Convert.n_atoms u0)]
          ++ map Convert.EWrite out0 ++ evs ++ [Convert.EClose]).
  split.
  - run_convert. rewrite Hguard.
    assert (Hs : match struct_out with
                 | Some path => Ok (Convert.abspath env path)
                 | None => Ok (structure_file traj0)
                 end = Ok (structure_of env traj0 struct_out))
      by now destruct struct_out.
    rewrite Hs, Hisfile. simpl. rewrite Hu0, Hwriter, Es.
    rewrite (first_frames_remember _ _ _ _ _ _ Hout0 Htimes0).
    rewrite Hlast. simpl from_option. rewrite Hseen.
    rewrite <- !app_assoc. simpl.
    rewrite Hrun, Hnew. now rewrite <- !app_assoc.
  - rewrite !written_app, !opened_app, !writers_app, !closed_app,
      written_writes, opened_writes, writers_writes, closed_writes,
      Hw, Ho, Hws, Hc.
    simpl. rewrite ?app_nil_r. now repeat split.
Qed.

(** X20: with removal of double frames, when the slice of the first
    trajectory selects no frame and the slice of the second one
    selects some, [concatenate] raises [UnboundLocalError] for
    [last_time_seen] at the first frame of the second trajectory; it
    has opened and closed the writer and has written no frame. *)
Theorem concatenate_empty_first_slice
    (self : Convert.TrajectoryConcatenator) (traj0 traj1 : Trajectory)
    (trajs : list Trajectory) (slice0 slice1 : Convert.slice_t)
    (slices : list Convert.slice_t) (tra_out : string)
    (struct_out : option string) (overwrite : bool) s
    (u0 u1 : Convert.universe) ts frames
    (Hfree : Convert.path_exists env (Convert.abspath env tra_out) = false
             \/ overwrite = true)
    (Hisfile : Convert.path_isfile env (structure_of env traj0 struct_out)
               = true)
    (Hu0 : Convert.Universe env (structure_file traj0) (trajectory_files traj0)
           = Ok u0)
    (Hwriter : Convert.Writer env (Convert.abspath env tra_out)
                 (Convert.n_atoms u0) = Ok tt)
    (Hempty : Convert.select env (Convert.trajectory u0) slice0 = Ok [])
    (Hu1 : Convert.Universe env (structure_file traj1) (trajectory_files traj1)
           = Ok u1)
    (Hsome : Convert.select env (Convert.trajectory u1) slice1
             = Ok (ts :: frames)) :
  Convert.concatenate env self (traj0 :: traj1 :: trajs)
    (slice0 :: slice1 :: slices) tra_out struct_out overwrite true s
  = (Raise (UnboundLocalError "last_time_seen"),
     s ++ [Convert.EUniverse (structure_file traj0) (trajectory_files traj0);
           Convert.EWriter (Convert.abspath env tra_out) (Convert.n_atoms u0);
           Convert.EUniverse (structure_file traj1) (trajectory_files traj1);
           Convert.EClose]).
Proof.
  assert (Hguard : Convert.path_exists env (Convert.abspath env tra_out)
                   && negb overwrite = false).
  { destruct Hfree as [-> | ->]; [reflexivity|apply andb_false_r]. }
  destruct slice0 as [[start0 stop0] step0], slice1 as [[start1 stop1] step1].
  run_convert. rewrite Hguard.
  assert (Hs : match struct_out with
               | Some path => Ok (Convert.abspath env path)
               | None => Ok (structure_file traj0)
               end = Ok (structure_of env traj0 struct_out))
    by now destruct struct_out.
  rewrite Hs, Hisfile. simpl. rewrite Hu0, Hwriter, Hempty. simpl.
  run_convert. rewrite Hu1, Hsome. simpl.
  now rewrite <- !app_assoc.
Qed.

(** X21: a concatenator that inverts velocities for negative steps, as
    it does by default, compares the step of the slice with 0 for each
    frame: with a slice whose step is [None] that selects a frame of the
    first trajectory, [concatenate] raises [TypeError]; it has opened
    and closed the writer and has written no frame. *)
Theorem concatenate_step_none
    (self : Convert.TrajectoryConcatenator) (traj0 : Trajectory)
    (trajs : list Trajectory) (start0 stop0 : option Z)
    (slices : list Convert.slice_t) (tra_out : string)
    (struct_out : option string) (overwrite remove_double_frames : bool) s
    (u0 : Convert.universe) ts frames
    (Hinvert : Convert.invert_v_for_negative_step self = true)
    (Hfree : Convert.path_exists env (Convert.abspath env tra_out) = false
             \/ overwrite = true)
    (Hisfile : Convert.path_isfile env (structure_of env traj0 struct_out)
               = true)
    (Hu0 : Convert.Universe env (structure_file traj0) (trajectory_files traj0)
           = Ok u0)
    (Hwriter : Convert.Writer env (Convert.abspath env tra_out)
                 (Convert.n_atoms u0) = Ok tt)
    (Hsome : Convert.select env (Convert.trajectory u0) (start0, stop0, None)
             = Ok (ts :: frames)) :
  Convert.concatenate env self (traj0 :: trajs)
    ((start0, stop0, None) :: slices) tra_out struct_out overwrite
    remove_double_frames s
  = (Raise (TypeError
       "'<' not supported between instances of 'NoneType' and 'int'"),
     s ++ [Convert.EUniverse (structure_file traj0) (trajectory_files traj0);
           Convert.EWriter (Convert.abspath env tra_out) (Convert.n_atoms u0);
           Convert.EClose]).
Proof.
  assert (Hguard : Convert.path_exists env (Convert.abspath env tra_out)
                   && negb overwrite = false).
  { destruct Hfree as [-> | ->]; [reflexivity|apply andb_false_r]. }
  run_convert. rewrite Hguard.
  assert (Hs : match struct_out with
               | Some path => Ok (Convert.abspath env path)
               | None => Ok (structure_file traj0)
               end = Ok (structure_of env traj0 struct_out))
    by now destruct struct_out.
  rewrite Hs, Hisfile. simpl. rewrite Hu0, Hwriter, Hsome. simpl.
  run_convert. unfold Convert.invert_if_negative. rewrite Hinvert. simpl.
  now rewrite <- !app_assoc.
Qed.

(** X22: however a call of [concatenate] ends, it opens a trajectory or
    the writer only after both checks have passed: the output does not
    exist or [overwrite] is set, and the structure file of the output is
    a file; and a writer it has opened, at most one, it has closed. *)
Theorem concatenate_checks_first
    (self : Convert.TrajectoryConcatenator) (trajs : list Trajectory)
    (slices : list Convert.slice_t) (tra_out : string)
    (struct_out : option string) (overwrite remove_double_frames : bool) s :
  exists r evs,
    Convert.concatenate env self trajs slices tra_out struct_out overwrite
      remove_double_frames s = (r, s ++ evs)
    /\ (evs <> [] ->
        (Convert.path_exists env (Convert.abspath env tra_out) = false
         \/ overwrite = true)
        /\ exists traj0,
             head trajs = Some traj0
             /\ Convert.path_isfile env (structure_of env traj0 struct_out)
                = true)
    /\ closed evs = length (writers evs)
    /\ (length (writers evs) <= 1)%nat.
Proof.
  run_convert.
  destruct (Convert.path_exists env (Convert.abspath env tra_out)
            && negb overwrite) eqn:Eguard; [convert_nothing|].
  assert (Hfree : Convert.path_exists env (Convert.abspath env tra_out) = false
                  \/ overwrite = true).
  { apply andb_false_iff in Eguard as [H|H]; [now left|right].
    now destruct overwrite. }
  destruct trajs as [|traj0 trajs'].
  { destruct struct_out as [path|]; simpl; [|convert_nothing].
    destruct (Convert.path_isfile env (Convert.abspath env path)); simpl;
      convert_nothing. }
  assert (Hs : match struct_out with
               | Some path => Ok (Convert.abspath env path)
               | None => Ok (structure_file traj0)
               end = Ok (structure_of env traj0 struct_out))
    by now destruct struct_out.
  rewrite Hs.
  destruct (Convert.path_isfile env (structure_of env traj0 struct_out))
    eqn:Ef; simpl; [|convert_nothing].
  destruct (Convert.Universe env _ _) as [u0|e]; [|convert_nothing].
  destruct slices as [|[[start0 stop0] step0] slices'];
    [eexists _, [_]; convert_done|].
  destruct (Convert.Writer env _ _) as [[]|e];
    [|eexists _, [_]; convert_done].
  destruct (Convert.select env _ _) as [frames0|e];
    [|eexists _, [_; _; _]; convert_done].
  match goal with
  | |- context [Convert.first_frames env self ?step ?rdf ?frames None ?st] =>
      destruct (first_frames_quiet self step rdf frames None st)
        as (r1 & evs1 & Hrun1 & Hw1 & Hc1)
  end.
  rewrite Hrun1. destruct r1 as [seen|e];
    [|eexists _, ([_; _] ++ evs1 ++ [_]); convert_done].
  match goal with
  | |- context [Convert.later_trajs env self ?rdf ?pairs ?seen ?st] =>
      destruct (later_trajs_quiet self rdf pairs seen st)
        as (r2 & evs2 & Hrun2 & Hw2 & Hc2)
  end.
  rewrite Hrun2.
  destruct r2 as [seen'|e]; eexists _, ([_; _] ++ evs1 ++ evs2 ++ [_]);
    convert_done.
Qed.

(** X23: however a call of [extract] ends, for whatever extractor, it
    opens the trajectory or the writer only after both checks have
    passed, it has closed the writer if it has opened it, and it has
    written at most one frame; when it returns, it has written exactly
    what [apply_modification] has made of the frame at [idx], and
    returns the trajectory made of the output file and the structure
    file given, or the one of the input. *)
Theorem extract_writes_one_frame
    {X : Type} {extractor : Convert.FrameExtractor X} (self : X)
    (outfile : string) (traj_in : Trajectory) (idx : Z)
    (struct_out : option string) (overwrite : bool) s :
  exists r evs,
    Convert.extract env self outfile traj_in idx struct_out overwrite s
    = (r, s ++ evs)
    /\ (evs <> [] ->
        (Convert.path_exists env (Convert.abspath env outfile) = false
         \/ overwrite = true)
        /\ Convert.path_isfile env (structure_of env traj_in struct_out)
           = true)
    /\ closed evs = length (writers evs)
    /\ (length (writers evs) <= 1)%nat
    /\ (length (written evs) <= length (writers evs))%nat
    /\ (forall t, r = Ok t ->
        exists u ts ts',
          Convert.Universe env (structure_file traj_in)
            (trajectory_files traj_in) = Ok u
          /\ Convert.frame_at env (Convert.trajectory u) idx = Ok ts
          /\ Convert.apply_modification self env u ts = Ok ts'
          /\ written evs = [ts']
          /\ Convert.new_Trajectory env (Convert.abspath env outfile)
               (structure_of env traj_in struct_out) = Ok t).
Proof.
  run_convert.
  assert (Hs : match struct_out with
               | Some path => Ok (Convert.abspath env path)
               | None => Ok (structure_file traj_in)
               end = Ok (structure_of env traj_in struct_out))
    by now destruct struct_out.
  rewrite Hs.
  destruct (Convert.path_exists env (Convert.abspath env outfile)
            && negb overwrite) eqn:Eguard;
    [convert_nothing; split; [simpl; lia|discriminate]|].
  assert (Hfree : Convert.path_exists env (Convert.abspath env outfile) = false
                  \/ overwrite = true).
  { apply andb_false_iff in Eguard as [H|H]; [now left|right].
    now destruct overwrite. }
  destruct (Convert.path_isfile env (structure_of env traj_in struct_out))
    eqn:Ef; simpl;
    [|convert_nothing; split; [simpl; lia|discriminate]].
  destruct (Convert.Universe env _ _) as [u|e] eqn:Eu;
    [|convert_nothing; split; [simpl; lia|discriminate]].
  destruct (Convert.Writer env _ _) as [[]|e] eqn:Ew;
    [|eexists _, [_]; convert_done; split; [simpl; lia|discriminate]].
  destruct (Convert.frame_at env _ _) as [ts|e] eqn:Ei;
    [|eexists _, [_; _; _]; convert_done; split; [simpl; lia|discriminate]].
  destruct (Convert.apply_modification self env u ts) as [ts'|e] eqn:Em;
    [|eexists _, [_; _; _]; convert_done; split; [simpl; lia|discriminate]].
  eexists _, [_; _; _; _]. convert_done. split; [simpl; lia|].
  intros t Ht. exists u, ts, ts'. now repeat split.
Qed.

(** X24: where [NoModificationFrameExtractor] extracts a frame, it has
    written the frame as it was read, and
    [InvertedVelocitiesFrameExtractor], called the same way, writes that
    frame with the velocities inverted and the time kept and returns the
    same trajectory; if the velocities cannot be inverted it raises what
    the inversion raises, with the writer closed and no frame
    written. *)
Theorem inverted_extractor_inverts
    (outfile : string) (traj_in : Trajectory) (idx : Z)
    (struct_out : option string) (overwrite : bool) s evs (t : Trajectory)
    (Hplain : Convert.extract env Convert.NoModification outfile traj_in idx
                struct_out overwrite s = (Ok t, s ++ evs)) :
  exists u ts,
    Convert.Universe env (structure_file traj_in) (trajectory_files traj_in)
    = Ok u
    /\ Convert.frame_at env (Convert.trajectory u) idx = Ok ts
    /\ written evs = [ts]
    /\ exists evs',
         match Convert.invert env (Convert.frame_atoms ts) with
         | Ok a =>
             Convert.extract env Convert.InvertedVelocities outfile traj_in
               idx struct_out overwrite s = (Ok t, s ++ evs')
             /\ written evs'
                = [ {| Convert.data_time := Convert.data_time ts;
                       Convert.frame_atoms := a |} ]
         | Raise e =>
             Convert.extract env Convert.InvertedVelocities outfile traj_in
               idx struct_out overwrite s = (Raise e, s ++ evs')
             /\ written evs' = []
         end
         /\ closed evs' = 1%nat.
Proof.
  revert Hplain. run_convert. unfold Convert.invert_velocities.
  assert (Hs : match struct_out with
               | Some path => Ok (Convert.abspath env path)
               | None => Ok (structure_file traj_in)
               end = Ok (structure_of env traj_in struct_out))
    by now destruct struct_out.
  rewrite Hs.
  destruct (Convert.path_exists env (Convert.abspath env outfile)
            && negb overwrite); [discriminate|].
  destruct (Convert.path_isfile env (structure_of env traj_in struct_out));
    simpl; [|discriminate].
  destruct (Convert.Universe env _ _) as [u|e] eqn:Eu; [|discriminate].
  destruct (Convert.Writer env _ _) as [[]|e]; [|discriminate].
  destruct (Convert.frame_at env _ _) as [ts|e] eqn:Ei; [|discriminate].
  rewrite <- !app_assoc. simpl.
  destruct (Convert.new_Trajectory env _ _) as [t'|e] eqn:Enew;
    [|discriminate].
  intros [= -> Hevs%app_inv_head]. subst evs.
  exists u, ts. split; [reflexivity|]. split; [exact Ei|].
  split; [reflexivity|].
  destruct (Convert.invert env (Convert.frame_atoms ts)) as [a|e].
  - rewrite <- ?app_assoc. simpl.
    eexists. split; [split; [reflexivity|]|]; reflexivity.
  - rewrite <- ?app_assoc. simpl.
    eexists. split; [split; [reflexivity|]|]; reflexivity.
Qed.

End ConvertProperties.

Lemma concatenate_keeps_every_frame_witness :
  exists evs,
    Convert.concatenate example_environment
      {| Convert.invert_v_for_negative_step := true |}
      [example_trajectory; example_trajectory]
      [forwards; backwards]
      "/d/out.trr" None false false []
    = (Ok {| structure_file := "/d/conf.gro";
             trajectory_files := ["/d/out.trr"];
             trajectory_hash := 1;
             trajectory_str := "Trajectory(/d/out.trr)" |}, [] ++ evs)
    /\ written evs
       = example_frames
         ++ concat [[ {| Convert.data_time := Some 2;
                         Convert.frame_atoms := -7 |};
                      {| Convert.data_time := Some 2;
                         Convert.frame_atoms := -7 |};
                      {| Convert.data_time := Some 0;
                         Convert.frame_atoms := -5 |} ]]
    /\ opened evs
       = map universe_of
           (zip [example_trajectory; example_trajectory]
              [forwards; backwards]).*1
    /\ writers evs = [("/d/out.trr", 1%nat)]
    /\ closed evs = 1%nat.
Proof.
  apply (concatenate_keeps_every_frame example_environment
           {| Convert.invert_v_for_negative_step := true |}
           [example_trajectory; example_trajectory]
           [forwards; backwards]
           "/d/out.trr" None false [] example_trajectory
           {| Convert.n_atoms := 1; Convert.trajectory := example_frames |}).
  - left. reflexivity.
  - reflexivity.
  - reflexivity.
  - reflexivity.
  - reflexivity.
  - reflexivity.
  - reflexivity.
Defined.

Lemma concatenate_removes_double_frames_witness :
  exists evs,
    Convert.concatenate example_environment
      {| Convert.invert_v_for_negative_step := true |}
      [example_trajectory; example_trajectory]
      [forwards; forwards]
      "/d/out.trr" None false true []
    = (Ok {| structure_file := "/d/conf.gro";
             trajectory_files := ["/d/out.trr"];
             trajectory_hash := 1;
             trajectory_str := "Trajectory(/d/out.trr)" |}, [] ++ evs)
    /\ written evs
       = example_frames
         ++ without_double_frames example_environment 2
              (concat [example_frames])
    /\ opened evs
       = map universe_of
           (zip [example_trajectory; example_trajectory]
              [forwards; forwards]).*1
    /\ writers evs = [("/d/out.trr", 1%nat)]
    /\ closed evs = 1%nat.
Proof.
  apply (concatenate_removes_double_frames example_environment
           {| Convert.invert_v_for_negative_step := true |}
           [example_trajectory; example_trajectory]
           [forwards; forwards]
           "/d/out.trr" None false [] example_trajectory
           {| Convert.n_atoms := 1; Convert.trajectory := example_frames |}
           example_frames [example_frames] _
           {| Convert.data_time := Some 2; Convert.frame_atoms := 7 |} 2).
  - left. reflexivity.
  - reflexivity.
  - reflexivity.
  - reflexivity.
  - reflexivity.
  - reflexivity.
  - reflexivity.
  - reflexivity.
  - reflexivity.
  - reflexivity.
Defined.

Lemma concatenate_empty_first_slice_witness :
  Convert.concatenate example_environment
    {| Convert.invert_v_for_negative_step := true |}
    (example_trajectory :: example_trajectory :: [])
    (beyond :: forwards :: [])
    "/d/out.trr" None false true []
  = (Raise (UnboundLocalError "last_time_seen"),
     [] ++ [Convert.EUniverse "/d/conf.gro" ["/d/traj.trr"];
            Convert.EWriter "/d/out.trr" 1;
            Convert.EUniverse "/d/conf.gro" ["/d/traj.trr"];
            Convert.EClose]).
Proof.
  apply (concatenate_empty_first_slice example_environment
           {| Convert.invert_v_for_negative_step := true |}
           example_trajectory example_trajectory []
           beyond forwards []
           "/d/out.trr" None false []
           {| Convert.n_atoms := 1; Convert.trajectory := example_frames |}
           {| Convert.n_atoms := 1; Convert.trajectory := example_frames |}
           {| Convert.data_time := Some 0; Convert.frame_atoms := 5 |}
           [ {| Convert.data_time := Some 2; Convert.frame_atoms := 7 |};
             {| Convert.data_time := Some 2; Convert.frame_atoms := 7 |} ]).
  - left. reflexivity.
  - reflexivity.
  - reflexivity.
  - reflexivity.
  - reflexivity.
  - reflexivity.
  - reflexivity.
Defined.

Lemma concatenate_step_none_witness :
  Convert.concatenate example_environment (Convert.__init__ None)
    (example_trajectory :: [])
    (stepless :: []) "/d/out.trr" None false true []
  = (Raise (TypeError
       "'<' not supported between instances of 'NoneType' and 'int'"),
     [] ++ [Convert.EUniverse "/d/conf.gro" ["/d/traj.trr"];
            Convert.EWriter "/d/out.trr" 1;
            Convert.EClose]).
Proof.
  apply (concatenate_step_none example_environment (Convert.__init__ None)
           example_trajectory [] (Some 0) None [] "/d/out.trr" None false
           true []
           {| Convert.n_atoms := 1; Convert.trajectory := example_frames |}
           {| Convert.data_time := Some 0; Convert.frame_atoms := 5 |}
           [ {| Convert.data_time := Some 2; Convert.frame_atoms := 7 |};
             {| Convert.data_time := Some 2; Convert.frame_atoms := 7 |} ]).
  - reflexivity.
  - left. reflexivity.
  - reflexivity.
  - reflexivity.
  - reflexivity.
  - reflexivity.
Defined.

Lemma inverted_extractor_inverts_witness :
  exists u ts,
    Convert.Universe example_environment "/d/conf.gro" ["/d/traj.trr"] = Ok u
    /\ Convert.frame_at example_environment (Convert.trajectory u) 1 = Ok ts
    /\ written [Convert.EUniverse "/d/conf.gro" ["/d/traj.trr"];
                Convert.EWriter "/d/frame.trr" 1;
                Convert.EWrite {| Convert.data_time := Some 2;
                                  Convert.frame_atoms := 7 |};
                Convert.EClose] = [ts]
    /\ exists evs',
         match Convert.invert example_environment (Convert.frame_atoms ts) with
         | Ok a =>
             Convert.extract example_environment Convert.InvertedVelocities
               "/d/frame.trr" example_trajectory 1 None false []
             = (Ok {| structure_file := "/d/conf.gro";
                      trajectory_files := ["/d/frame.trr"];
                      trajectory_hash := 1;
                      trajectory_str := "Trajectory(/d/frame.trr)" |},
                [] ++ evs')
             /\ written evs'
                = [ {| Convert.data_time := Convert.data_time ts;
                       Convert.frame_atoms := a |} ]
         | Raise e =>
             Convert.extract example_environment Convert.InvertedVelocities
               "/d/frame.trr" example_trajectory 1 None false []
             = (Raise e, [] ++ evs')
             /\ written evs' = []
         end
         /\ closed evs' = 1%nat.
Proof.
  apply (inverted_extractor_inverts example_environment "/d/frame.trr"
           example_trajectory 1 None false []).
  reflexivity.
Defined.

(** ** Assignments to the SLURM wrapper *)

Lemma slurm_assign_keeps_identity_current
    (ensure : string -> result string) (fs : filesystem)
    (a : slurm_assignment) (h : heap Slurm.t) :
  slurm_identity_current fs (self h) ->
  slurm_identity_current fs (self (slurm_assign ensure fs a h).2).
Proof.
  intros Hcur. destruct h as [w lg]. destruct a as [val|value|val]; simpl.
  - unfold SlurmSetup.executable_setter, bind, lift, on_self, modify. simpl.
    destruct (ensure val) as [exe|e]; simpl; [|exact Hcur].
    destruct (Slurm._get_id_str fs (SlurmSetup.set_executable (Some exe) w))
      as [i|e] eqn:Ei; simpl.
    + intros j Hj. right.
      unfold Slurm._get_id_str in Ei, Hj |- *. simpl in *.
      destruct (fs !! exe); congruence.
    + intros j Hj. unfold Slurm._get_id_str in Ei, Hj. simpl in *.
      destruct (fs !! exe); congruence.
  - destruct value as [v|cls items|t|c]; simpl; try exact Hcur.
    unfold bind, on_self, modify. simpl.
    destruct (Slurm._get_id_str fs (Slurm.set_call_kwargs items w))
      as [i|e] eqn:Ei; simpl.
    + intros j Hj. right.
      unfold Slurm._get_id_str in Ei, Hj |- *. simpl in *.
      destruct (Slurm.read_binary fs (Slurm._executable w)); congruence.
    + intros j Hj. unfold Slurm._get_id_str in Ei, Hj. simpl in *.
      destruct (Slurm.read_binary fs (Slurm._executable w)); congruence.
  - exact Hcur.
Qed.

(** X25: whatever is assigned to [executable], [call_kwargs] and
    [slurm_jobname] of a SLURM wrapper, in whatever order and whether
    or not an assignment raises, as long as the files stay as they
    are: when the file of the executable the wrapper holds can be
    read, the wrapper holds no identity other than the one derived from
    the bytes of that file and the keyword arguments it holds. *)
Theorem slurm_assignments_keep_identity_current
    (ensure : string -> result string) (fs : filesystem)
    (l : list slurm_assignment) (h : heap Slurm.t)
    (Hstart : slurm_identity_current fs (self h)) :
  slurm_identity_current fs (self (slurm_assign_all ensure fs l h)).
Proof.
  revert h Hstart. induction l as [|a l IH]; intros h Hstart; simpl.
  - exact Hstart.
  - apply IH, slurm_assign_keeps_identity_current, Hstart.
Qed.

Lemma slurm_assignments_keep_identity_current_witness :
  slurm_identity_current example_files_two
    (self (slurm_assign_all example_ensure example_files_two
             [AssignExecutable "cv";
              AssignSlurmCallKwargs (ODict Dict [("-a", PyInt 1)]);
              AssignExecutable "missing";
              AssignSlurmJobname (Some "cv_job");
              AssignSlurmCallKwargs (OVal (PyInt 3));
              AssignExecutable "/opt/tools/cv"]
             SlurmSetup.blank)).
Proof.
  apply slurm_assignments_keep_identity_current.
  intros i Hi. left. reflexivity.
Defined.
